(** * fileAutoArrange: scan, classify, aggregate

    A shallow embedding of the scanning and classification core of
    [src/fileScanner.js] (classes [FileScanner] and [FileClassifier]),
    with the policy of [config/classification.json], and the properties
    of that core.

    Conventions of the embedding.
    - Sizes and timestamps (milliseconds since the epoch, the value a
      [Date] compares by) are integers of [Z].
    - A JavaScript string is a [string]; [charCodeAt] is the byte code,
      which is exact for ASCII text.
    - A plain object used as a dictionary is the list of its own
      properties in insertion order ([Js.object]); [Object.entries],
      [Object.keys] and [Object.values] enumerate array-index keys first,
      in ascending numeric order, and the other keys in insertion order.
      A lookup [o[k]] that finds no own property finds the members of
      [Object.prototype] ([Js.inherited]); the models of
      [addCustomCategory] and [analyzeFileChanges], whose keys come
      from outside, include that lookup. The keys of the other objects
      are hashes, size labels, extensions and the category names of
      the policy, and are taken to name no member of
      [Object.prototype].
    - A [Map] is the list of its entries in insertion order.
    - An exception is the [Throw] case of [Js.completion].
    - Logging has no effect on the results and is left out.

    The second part of the development covers, under the same
    conventions, the rest of [FileScanner] and [FileClassifier], the
    search of [src/mcpClient.js], the analysis of file changes and the
    size formatting of [src/main.js], and the size formatting and the
    CSV text of [src/excelReporter.js].
    - A directory tree is finite: a listing holds the listings of its
      subdirectories.
    - A size divided by a power of 1024 is held as an exact fraction;
      the division of a number below 2^53 by a power of two is exact. *)

From Stdlib Require Import ZArith NArith String Ascii List Bool Lia.
From Stdlib Require Import Permutation Sorted DecimalString.
Import ListNotations.

Local Open Scope Z_scope.

Set Warnings "-register-all".

(** ** JavaScript values, completions and plain objects *)

Module Js.

(** The values a record field that is read with a truthiness test can
    hold in this program: absent, a string, or a number. *)
Inductive value : Type :=
| Undefined
| Str (s : string)
| Num (n : Z).

(** ToBoolean. *)
Definition truthy (v : value) : bool :=
  match v with
  | Undefined => false
  | Str s => negb (String.eqb s EmptyString)
  | Num n => negb (n =? 0)
  end.

(** ToBoolean of a string that may be absent. *)
Definition truthyString (o : option string) : bool :=
  match o with
  | Some s => negb (String.eqb s EmptyString)
  | None => false
  end.

Inductive error : Type :=
| TypeError (message : string).

(** The outcome of a call: a value, or a thrown exception. *)
Inductive completion (A : Type) : Type :=
| Normal (a : A)
| Throw (e : error).
Arguments Normal {A} a.
Arguments Throw {A} e.

Definition bind {A B : Type} (c : completion A) (k : A -> completion B)
  : completion B :=
  match c with
  | Normal a => k a
  | Throw e => Throw e
  end.

(** [try { c } catch (e) { h e }]. *)
Definition tryCatch {A : Type} (c : completion A)
  (h : error -> completion A) : completion A :=
  match c with
  | Normal a => Normal a
  | Throw e => h e
  end.

(** *** Strings *)

Definition charCodes (s : string) : list Z :=
  map (fun a => Z.of_N (N_of_ascii a)) (list_ascii_of_string s).

(** [s.includes(t)]. *)
Fixpoint includes (s t : string) : bool :=
  String.prefix t s
  || match s with
     | EmptyString => false
     | String _ s' => includes s' t
     end.

(** [`${n}`] for an integer [n]. *)
Definition numberToString (n : Z) : string :=
  NilZero.string_of_int (Z.to_int n).

Definition digit36 (d : N) : ascii :=
  if (d <? 10)%N then ascii_of_N (48 + d) else ascii_of_N (87 + d).

Fixpoint digits36 (fuel : nat) (n : N) (acc : string) : string :=
  match fuel with
  | O => acc
  | S fuel' =>
      let acc' := String (digit36 (n mod 36)) acc in
      if (n / 36 =? 0)%N then acc' else digits36 fuel' (n / 36) acc'
  end.

(** [n.toString(36)] for an integer [n]; a numeral of [n] has at most
    [log2 n + 1] digits. *)
Definition toString36 (n : Z) : string :=
  let m := Z.abs_N n in
  let body := digits36 (S (N.to_nat (N.log2 m))) m EmptyString in
  if n <? 0 then String "-" body else body.

(** ToInt32. *)
Definition toInt32 (n : Z) : Z :=
  (n + 2 ^ 31) mod 2 ^ 32 - 2 ^ 31.

(** *** Plain objects with string keys *)

Definition object (V : Type) : Type := list (string * V).

Section Objects.
Context {V : Type}.

(** [o[k]] on own properties. *)
Fixpoint get (k : string) (o : object V) : option V :=
  match o with
  | [] => None
  | (k', v) :: o' => if String.eqb k k' then Some v else get k o'
  end.

(** [o[k] = v]: an existing property keeps its place. *)
Fixpoint set (k : string) (v : V) (o : object V) : object V :=
  match o with
  | [] => [(k, v)]
  | (k', v') :: o' =>
      if String.eqb k k' then (k', v) :: o' else (k', v') :: set k v o'
  end.

Definition digitOf (a : ascii) : option N :=
  let n := N_of_ascii a in
  if ((48 <=? n) && (n <=? 57))%N then Some (n - 48)%N else None.

Fixpoint parseDigits (s : string) (acc : N) : option N :=
  match s with
  | EmptyString => Some acc
  | String a s' =>
      match digitOf a with
      | Some d => parseDigits s' (acc * 10 + d)%N
      | None => None
      end
  end.

(** A key is an array index when it is the canonical numeral of an
    integer below [2^32 - 1]. *)
Definition arrayIndex (k : string) : option N :=
  match k with
  | EmptyString => None
  | String a rest =>
      if andb (Ascii.eqb a "0"%char) (negb (String.eqb rest EmptyString))
      then None
      else match parseDigits k 0 with
           | Some n => if (n <? 2 ^ 32 - 1)%N then Some n else None
           | None => None
           end
  end.

Definition isIndexKey (kv : string * V) : bool :=
  match arrayIndex (fst kv) with Some _ => true | None => false end.

Definition indexOf (kv : string * V) : N :=
  match arrayIndex (fst kv) with Some n => n | None => 0%N end.

Fixpoint insertByIndex (kv : string * V) (l : list (string * V))
  : list (string * V) :=
  match l with
  | [] => [kv]
  | kv' :: l' =>
      if (indexOf kv <=? indexOf kv')%N then kv :: kv' :: l'
      else kv' :: insertByIndex kv l'
  end.

Definition sortByIndex (l : list (string * V)) : list (string * V) :=
  fold_right insertByIndex [] l.

(** [Object.entries(o)]. *)
Definition entries (o : object V) : list (string * V) :=
  sortByIndex (filter isIndexKey o)
    ++ filter (fun kv => negb (isIndexKey kv)) o.

(** [Object.keys(o)]. *)
Definition keys (o : object V) : list string := map fst (entries o).

(** [Object.values(o)]. *)
Definition values (o : object V) : list V := map snd (entries o).

End Objects.

(** The names of the members of [Object.prototype]. A lookup [o[k]]
    finds them on a plain object that has no own property [k]; each is
    truthy, and none has a method [push]. *)
Definition prototypeMembers : list string :=
  ["constructor"; "__defineGetter__"; "__defineSetter__"; "hasOwnProperty";
   "__lookupGetter__"; "__lookupSetter__"; "isPrototypeOf";
   "propertyIsEnumerable"; "toString"; "valueOf"; "__proto__";
   "toLocaleString"]%string.

Definition inherited (k : string) : bool :=
  existsb (String.eqb k) prototypeMembers.

(** *** Arrays *)

Section Arrays.
Context {A : Type}.

(** One step of a stable sort: [x] is placed after the elements it
    compares greater than, and before the first one it does not. *)
Fixpoint insertSorted (cmp : A -> A -> Z) (x : A) (l : list A) : list A :=
  match l with
  | [] => [x]
  | y :: l' =>
      if cmp x y >? 0 then y :: insertSorted cmp x l' else x :: y :: l'
  end.

(** [l.sort(cmp)]: [Array.prototype.sort] is stable, so for a
    comparator that is a difference of keys its result is the one
    sorted arrangement that keeps equal elements in their order. *)
Definition sort (cmp : A -> A -> Z) (l : list A) : list A :=
  fold_right (insertSorted cmp) [] l.

(** [l.slice(0, n)]. *)
Definition slice0 (n : nat) (l : list A) : list A := firstn n l.

End Arrays.

End Js.


(** ** The classification policy *)

Module Config.

(** An entry of [fileCategories]. *)
Record CategoryConfig : Type := {
  extensions : list string;
  color : string;
  description : string
}.

(** An entry of [sizeCategories]; [max = -1] stands for no upper bound. *)
Record SizeRange : Type := {
  min : Z;
  max : Z;
  unit : string
}.

(** The parsed [classification.json]. [fileCategories] and
    [sizeCategories] are held as their [Object.entries], the order in
    which the code iterates them. *)
Record t : Type := {
  fileCategories : list (string * CategoryConfig);
  sizeCategories : list (string * SizeRange);
  excludePaths : list string;
  scanPaths : list string
}.

Local Open Scope string_scope.

Definition category (exts : list string) (c d : string) : CategoryConfig :=
  {| extensions := exts; color := c; description := d |}.

Definition range (lo hi : Z) (u : string) : SizeRange :=
  {| min := lo; max := hi; unit := u |}.

(** [config/classification.json] as shipped. *)
Definition shipped : t := {|
  fileCategories := [
    ("文档类", category
       [".pdf"; ".doc"; ".docx"; ".txt"; ".rtf"; ".md"; ".odt"; ".pages"]
       "#4472C4" "各种文档和文本文件");
    ("图片类", category
       [".jpg"; ".jpeg"; ".png"; ".gif"; ".bmp"; ".svg"; ".tiff"; ".ico";
        ".webp"]
       "#70AD47" "图像和图形文件");
    ("视频类", category
       [".mp4"; ".avi"; ".mkv"; ".mov"; ".wmv"; ".flv"; ".webm"; ".m4v"]
       "#FFC000" "视频和动画文件");
    ("音频类", category
       [".mp3"; ".wav"; ".flac"; ".aac"; ".wma"; ".ogg"; ".m4a"]
       "#C55A5A" "音频和音乐文件");
    ("程序类", category
       [".exe"; ".msi"; ".dmg"; ".deb"; ".rpm"; ".app"; ".apk"]
       "#8F5A9C" "可执行程序和安装包");
    ("压缩包", category
       [".zip"; ".rar"; ".7z"; ".tar"; ".gz"; ".bz2"; ".xz"]
       "#D6B656" "压缩文件和归档");
    ("代码类", category
       [".js"; ".py"; ".java"; ".cpp"; ".c"; ".cs"; ".php"; ".html";
        ".css"; ".json"; ".xml"]
       "#5B9BD5" "源代码和脚本文件");
    ("数据库", category
       [".db"; ".sqlite"; ".mdb"; ".accdb"; ".sql"]
       "#A5A5A5" "数据库文件");
    ("电子表格", category
       [".xlsx"; ".xls"; ".csv"; ".ods"]
       "#264478" "电子表格文件");
    ("演示文稿", category
       [".pptx"; ".ppt"; ".odp"; ".key"]
       "#B85450" "演示文稿文件");
    ("其他类", category [] "#B2B2B2" "未分类的其他文件")
  ];
  sizeCategories := [
    ("微小", range 0 1024 "B");
    ("小", range 1024 1048576 "KB");
    ("中", range 1048576 104857600 "MB");
    ("大", range 104857600 1073741824 "MB");
    ("巨大", range 1073741824 (-1) "GB")
  ];
  excludePaths := [
    "C:\Windows\";
    "C:\Program Files\";
    "C:\Program Files (x86)\";
    "C:\ProgramData\";
    "$Recycle.Bin";
    "System Volume Information"
  ];
  scanPaths := [
    "C:\Users\%USERNAME%\Desktop";
    "C:\Users\%USERNAME%\Downloads";
    "C:\Users\%USERNAME%\Documents";
    "C:\Users\%USERNAME%\Pictures";
    "C:\Users\%USERNAME%\Videos";
    "C:\Users\%USERNAME%\Music";
    "E:\wc";
    "F:\";
    "E:\Downloads"
  ]
|}.

End Config.

(** ** File records *)

(** The object the walker builds for a directory entry and the scanner
    extends. [hash], [category] and [sizeCategory] are absent until
    [getDetailedFileInfo] and [classifyFiles] set them. The fields
    [mimeType], [relativeAge], [isExecutable], [isArchive] and [isMedia],
    which none of the functions below read, are left out. *)
Record FileRecord : Type := {
  name : string;
  path : string;
  extension : Js.value;
  size : Z;
  createdTime : Z;
  modifiedTime : Z;
  accessedTime : Z;
  hash : option string;
  category : option string;
  sizeCategory : option string
}.

(** [file.category = c]. *)
Definition setCategory (c : string) (file : FileRecord) : FileRecord :=
  {| name := name file; path := path file; extension := extension file;
     size := size file; createdTime := createdTime file;
     modifiedTime := modifiedTime file; accessedTime := accessedTime file;
     hash := hash file; category := Some c;
     sizeCategory := sizeCategory file |}.

(** The category that takes what no rule matches. *)
Definition otherCategory : string := "其他类".

(** The size label of a record no bucket takes. *)
Definition unknownLabel : string := "未知".

(** ** FileScanner *)

Module FileScanner.

(** What [mcpClient.listDirectory] reports for one child of a
    directory: a file, a directory together with the outcome of
    listing it in turn ([None] when that listing throws), or neither. *)
Inductive Entry : Type :=
| FileEntry (item : FileRecord)
| DirectoryEntry (item : FileRecord) (listing : option (list Entry))
| OtherEntry (item : FileRecord).

(** A scan path: whether [fs.pathExists] holds for it, and the outcome
    of listing it. *)
Record Root : Type := {
  scanPath : string;
  pathExists : bool;
  rootListing : option (list Entry)
}.

Section Scanner.

(** [this.config], [None] while it is [null]. *)
Variable config : option Config.t.
(** [path.normalize] and [String.prototype.toLowerCase]. *)
Variable normalize : string -> string.
Variable toLowerCase : string -> string.
(** [expandPath], which substitutes the user name. *)
Variable expandPath : string -> string.
(** [fs.stat]: the size and [mtime.getTime()] of a path, [None] when
    the call rejects. *)
Variable fsStat : string -> option (Z * Z).
(** [Math.random().toString(36)] at the n-th draw. *)
Variable mathRandom : nat -> string.

Definition maxDepth : nat := 10.

Definition shouldExcludePath (pathStr : string) : bool :=
  match config with
  | None => false
  | Some c =>
      let normalizedPath := toLowerCase (normalize pathStr) in
      existsb
        (fun excludePath =>
           let normalizedExcludePath :=
             toLowerCase (normalize excludePath) in
           Js.includes normalizedPath normalizedExcludePath)
        (Config.excludePaths c)
  end.

Definition isRecentFile (fileInfo : FileRecord) (cutoffDate : Z) : bool :=
  (createdTime fileInfo >=? cutoffDate)
  || (modifiedTime fileInfo >=? cutoffDate).

(** One round of the loop of [calculateFileHash]:
    [hash = ((hash << 5) - hash) + char; hash = hash & hash]. *)
Definition hashStep (hash char : Z) : Z :=
  let hash' := Js.toInt32 (Z.shiftl (Js.toInt32 hash) 5) - hash + char in
  Z.land (Js.toInt32 hash') (Js.toInt32 hash').

Definition hashInput (filePath : string) (sz mtime : Z) : string :=
  (filePath ++ ":" ++ Js.numberToString sz ++ ":"
     ++ Js.numberToString mtime)%string.

Definition hashOf (filePath : string) (sz mtime : Z) : string :=
  Js.toString36
    (fold_left hashStep (Js.charCodes (hashInput filePath sz mtime)) 0).

(** [calculateFileHash], with the count of random draws threaded. *)
Definition calculateFileHash (filePath : string) (draws : nat)
  : string * nat :=
  match fsStat filePath with
  | Some (sz, mtime) => (hashOf filePath sz mtime, draws)
  | None => (mathRandom draws, S draws)
  end.

Definition inRange (sz : Z) (range : Config.SizeRange) : bool :=
  (sz >=? Config.min range)
  && ((Config.max range =? -1) || (sz <=? Config.max range)).

Fixpoint firstRange (sz : Z) (ranges : list (string * Config.SizeRange))
  : string :=
  match ranges with
  | [] => unknownLabel
  | (category, range) :: rest =>
      if inRange sz range then category else firstRange sz rest
  end.

Definition getSizeCategory (sz : Z) : string :=
  match config with
  | None => unknownLabel
  | Some c => firstRange sz (Config.sizeCategories c)
  end.

(** [getDetailedFileInfo]. The flags are computed with
    [extension.toLowerCase()], which throws unless the extension is a
    string; the handler then returns the basic record. *)
Definition getDetailedFileInfo (basicFileInfo : FileRecord) (draws : nat)
  : FileRecord * nat :=
  let '(h, draws') := calculateFileHash (path basicFileInfo) draws in
  match extension basicFileInfo with
  | Js.Str _ =>
      ({| name := name basicFileInfo;
          path := path basicFileInfo;
          extension := extension basicFileInfo;
          size := size basicFileInfo;
          createdTime := createdTime basicFileInfo;
          modifiedTime := modifiedTime basicFileInfo;
          accessedTime := accessedTime basicFileInfo;
          hash := Some h;
          category := None;
          sizeCategory := Some (getSizeCategory (size basicFileInfo)) |},
       draws')
  | _ => (basicFileInfo, draws')
  end.

(** The body of [scanDirectory] over a per-item step: nothing for an
    excluded path or a listing that throws, else the items in turn. *)
Definition scanListing
  (step : Entry -> list FileRecord * nat -> list FileRecord * nat)
  (directoryPath : string) (listing : option (list Entry)) (draws : nat)
  : list FileRecord * nat :=
  if shouldExcludePath directoryPath then ([], draws)
  else match listing with
       | None => ([], draws)
       | Some directoryContents =>
           fold_left (fun st item => step item st)
             directoryContents ([], draws)
       end.

(** The body of the loop of [scanDirectory] at recursion depth
    [depth]. *)
Fixpoint scanItem (cutoffDate : Z) (depth : nat) (item : Entry)
  (st : list FileRecord * nat) {struct item} : list FileRecord * nat :=
  let '(files, draws) := st in
  match item with
  | FileEntry info =>
      if isRecentFile info cutoffDate then
        let '(fileInfo, draws') := getDetailedFileInfo info draws in
        (files ++ [fileInfo], draws')
      else st
  | DirectoryEntry info listing =>
      if (depth <? maxDepth)%nat then
        let '(subFiles, draws') :=
          scanListing (scanItem cutoffDate (S depth)) (path info)
            listing draws in
        (files ++ subFiles, draws')
      else st
  | OtherEntry _ => st
  end.

Definition scanDirectory (directoryPath : string)
  (listing : option (list Entry)) (cutoffDate : Z) (depth : nat)
  (draws : nat) : list FileRecord * nat :=
  scanListing (scanItem cutoffDate depth) directoryPath listing draws.

(** The key of [removeDuplicates]: [file.hash || file.path]. *)
Definition dedupKey (file : FileRecord) : string :=
  if Js.truthyString (hash file) then
    match hash file with Some h => h | None => path file end
  else path file.

Definition mapHas (key : string) (m : list (string * FileRecord)) : bool :=
  existsb (fun kv => String.eqb (fst kv) key) m.

Definition removeDuplicates (files : list FileRecord) : list FileRecord :=
  let uniqueFiles :=
    fold_left
      (fun m file =>
         let key := dedupKey file in
         if mapHas key m then m else m ++ [(key, file)])
      files [] in
  map snd uniqueFiles.

(** [scanRecentFiles] over the scan paths in use; [cutoffDate] is the
    date [days] before now. *)
Definition scanRecentFiles (cutoffDate : Z) (scanPaths : list Root)
  : list FileRecord :=
  let '(allFiles, _) :=
    fold_left
      (fun st root =>
         let '(allFiles, draws) := st in
         let expandedPath := expandPath (scanPath root) in
         if pathExists root then
           let '(files, draws') :=
             scanDirectory expandedPath (rootListing root) cutoffDate 0
               draws in
           (allFiles ++ files, draws')
         else st)
      scanPaths ([], O) in
  removeDuplicates allFiles.

End Scanner.

End FileScanner.

(** ** FileClassifier *)

Module FileClassifier.

(** An entry of [summary]. [averageSize] and [percentage], which are
    rounded floating-point quotients, are left out. *)
Record CategorySummary : Type := {
  count : nat;
  totalSize : Z;
  color : string;
  description : string
}.

(** [statistics], without [sizeDistribution], [timeDistribution] and
    [extensionStats]. *)
Record Statistics : Type := {
  duplicateFiles : list (list FileRecord);
  largestFiles : list FileRecord;
  oldestFiles : list FileRecord;
  newestFiles : list FileRecord
}.

(** The object [classifyFiles] returns, without [classificationTime];
    [resultTotalSize] is its field [totalSize]. *)
Record ClassificationResult : Type := {
  categories : Js.object (list FileRecord);
  summary : Js.object CategorySummary;
  totalFiles : nat;
  resultTotalSize : Z;
  statistics : Statistics
}.

Section Classifier.

(** [this.config], [None] while it is [null]. *)
Variable config : option Config.t.
Variable toLowerCase : string -> string.

(** The loop of [classifyFile] over [Object.entries(fileCategories)]. *)
Fixpoint firstCategory (ext : string)
  (fileCategories : list (string * Config.CategoryConfig)) : string :=
  match fileCategories with
  | [] => otherCategory
  | (categoryName, categoryConfig) :: rest =>
      if existsb (String.eqb ext) (Config.extensions categoryConfig)
      then categoryName
      else firstCategory ext rest
  end.

Definition classifyFile (file : FileRecord) : Js.completion string :=
  if negb (Js.truthy (extension file)) then Js.Normal otherCategory
  else
    match extension file with
    | Js.Str s =>
        let ext := toLowerCase s in
        match config with
        | Some c => Js.Normal (firstCategory ext (Config.fileCategories c))
        | None =>
            Js.Throw (Js.TypeError "Cannot read properties of null")
        end
    | _ =>
        Js.Throw
          (Js.TypeError "file.extension.toLowerCase is not a function")
    end.

(** [categories[c].push(file)]. *)
Definition pushTo (c : string) (file : FileRecord)
  (cats : Js.object (list FileRecord))
  : Js.completion (Js.object (list FileRecord)) :=
  match Js.get c cats with
  | Some files => Js.Normal (Js.set c (files ++ [file]) cats)
  | None => Js.Throw (Js.TypeError "Cannot read properties of undefined")
  end.

(** The body of the loop of [classifyFiles], on the categories and
    the running total size. *)
Definition classifyOne (file : FileRecord)
  (st : Js.object (list FileRecord) * Z)
  : Js.completion (Js.object (list FileRecord) * Z) :=
  let '(cats, total) := st in
  Js.tryCatch
    (Js.bind (classifyFile file) (fun c =>
       let file' := setCategory c file in
       Js.bind (pushTo c file' cats) (fun cats' =>
         Js.Normal (cats', total + size file'))))
    (fun _ =>
       let file' := setCategory otherCategory file in
       Js.bind (pushTo otherCategory file' cats) (fun cats' =>
         Js.Normal (cats', total))).

Fixpoint classifyAll (files : list FileRecord)
  (st : Js.object (list FileRecord) * Z)
  : Js.completion (Js.object (list FileRecord) * Z) :=
  match files with
  | [] => Js.Normal st
  | file :: rest => Js.bind (classifyOne file st) (classifyAll rest)
  end.

Definition getAllFiles (cats : Js.object (list FileRecord))
  : list FileRecord :=
  concat (Js.values cats).

Definition sumSizes (files : list FileRecord) : Z :=
  fold_left (fun sum file => sum + size file) files 0.

Definition orDefault (s d : string) : string :=
  if String.eqb s EmptyString then d else s.

(** The entry of [summary] for a category and its records. *)
Definition summarize (c : string) (files : list FileRecord)
  : CategorySummary :=
  let categoryConfig :=
    match config with
    | Some cf => Js.get c (Config.fileCategories cf)
    | None => None
    end in
  {| count := List.length files;
     totalSize := sumSizes files;
     color :=
       match categoryConfig with
       | Some cc => orDefault (Config.color cc) "#B2B2B2"
       | None => "#B2B2B2"%string
       end;
     description :=
       match categoryConfig with
       | Some cc => orDefault (Config.description cc) "未分类文件"
       | None => "未分类文件"%string
       end |}.

Definition generateSummary (cats : Js.object (list FileRecord))
  : Js.object CategorySummary :=
  fold_left
    (fun summ kv =>
       let '(c, files) := kv in
       if (0 <? List.length files)%nat then Js.set c (summarize c files) summ
       else summ)
    (Js.entries cats) [].

(** The grouping loop of [findDuplicateFiles]. *)
Definition groupByHash (allFiles : list FileRecord)
  : Js.object (list FileRecord) :=
  fold_left
    (fun hashGroups file =>
       if Js.truthyString (hash file) then
         match hash file with
         | Some h =>
             let hashGroups' :=
               match Js.get h hashGroups with
               | None => Js.set h [] hashGroups
               | Some _ => hashGroups
               end in
             match Js.get h hashGroups' with
             | Some group => Js.set h (group ++ [file]) hashGroups'
             | None => hashGroups'
             end
         | None => hashGroups
         end
       else hashGroups)
    allFiles [].

Definition findDuplicateFiles (cats : Js.object (list FileRecord))
  : list (list FileRecord) :=
  let allFiles := getAllFiles cats in
  let hashGroups := groupByHash allFiles in
  Js.slice0 10
    (filter (fun group => (1 <? List.length group)%nat) (Js.values hashGroups)).

Definition findLargestFiles (cats : Js.object (list FileRecord))
  : list FileRecord :=
  let allFiles := getAllFiles cats in
  Js.slice0 10 (Js.sort (fun a b => size b - size a) allFiles).

Definition findOldestFiles (cats : Js.object (list FileRecord))
  : list FileRecord :=
  let allFiles := getAllFiles cats in
  Js.slice0 10
    (Js.sort (fun a b => createdTime a - createdTime b) allFiles).

Definition findNewestFiles (cats : Js.object (list FileRecord))
  : list FileRecord :=
  let allFiles := getAllFiles cats in
  Js.slice0 10
    (Js.sort (fun a b => createdTime b - createdTime a) allFiles).

Definition generateStatistics (cats : Js.object (list FileRecord))
  : Statistics :=
  {| duplicateFiles := findDuplicateFiles cats;
     largestFiles := findLargestFiles cats;
     oldestFiles := findOldestFiles cats;
     newestFiles := findNewestFiles cats |}.

(** [classifyFiles]. An exception that leaves the loop reaches the
    outer handler, which throws it again. *)
Definition classifyFiles (files : list FileRecord)
  : Js.completion ClassificationResult :=
  match config with
  | None => Js.Throw (Js.TypeError "Cannot read properties of null")
  | Some c =>
      let initial :=
        fold_left (fun cats categoryName => Js.set categoryName [] cats)
          (map fst (Config.fileCategories c)) [] in
      Js.bind (classifyAll files (initial, 0)) (fun st =>
        let '(cats, total) := st in
        Js.Normal
          {| categories := cats;
             summary := generateSummary cats;
             totalFiles := List.length files;
             resultTotalSize := total;
             statistics := generateStatistics cats |})
  end.

End Classifier.

End FileClassifier.

(** ** The sibling size rule of [main.js] *)

Module Main.

(** [getSizeCategory] of the markdown report in [main.js]. *)
Definition getSizeCategory (sz : Z) : string :=
  if sz <? 1024 then "tiny"
  else if sz <? 1024 * 1024 then "small"
  else if sz <? 100 * 1024 * 1024 then "medium"
  else if sz <? 1024 * 1024 * 1024 then "large"
  else "huge".

End Main.

(** ** The rest of FileScanner *)

Module Scanner.

(** The fields [getDetailedFileInfo] adds to a record besides those of
    [FileRecord]. *)
Record Details : Type := {
  mimeType : string;
  relativeAge : string;
  isExecutable : bool;
  isArchive : bool;
  isMedia : bool
}.

Section Rest.

Variable config : option Config.t.
Variable toLowerCase : string -> string.
(** [path.extname]. *)
Variable extname : string -> string.

(** [getScanPaths], for the user name of the environment. *)
Definition getScanPaths (username : string) : list string :=
  match config with
  | None =>
      [("C:\Users\" ++ username ++ "\Desktop")%string;
       ("C:\Users\" ++ username ++ "\Downloads")%string;
       ("C:\Users\" ++ username ++ "\Documents")%string]
  | Some c => Config.scanPaths c
  end.

Definition mimeMap : Js.object string := [
  (".pdf", "application/pdf");
  (".doc", "application/msword");
  (".docx",
   "application/vnd.openxmlformats-officedocument.wordprocessingml.document");
  (".txt", "text/plain");
  (".jpg", "image/jpeg");
  (".jpeg", "image/jpeg");
  (".png", "image/png");
  (".gif", "image/gif");
  (".mp4", "video/mp4");
  (".mp3", "audio/mpeg");
  (".zip", "application/zip");
  (".exe", "application/x-msdownload")
]%string.

Definition getMimeType (filePath : string) : string :=
  let ext := toLowerCase (extname filePath) in
  match Js.get ext mimeMap with
  | Some mime => mime
  | None => "application/octet-stream"%string
  end.

Definition msPerDay : Z := 1000 * 60 * 60 * 24.

(** [getRelativeAge], at the time [now], both times in milliseconds.
    [Math.floor] of the quotient is the floor division of [Z]: the
    rounded quotient of the source has the same floor for every
    difference below 2^27 days. *)
Definition getRelativeAge (now createdTime : Z) : string :=
  let diffMs := now - createdTime in
  let diffDays := diffMs / msPerDay in
  if diffDays =? 0 then "今天"%string
  else if diffDays =? 1 then "昨天"%string
  else if diffDays <=? 7 then (Js.numberToString diffDays ++ "天前")%string
  else if diffDays <=? 30
       then (Js.numberToString (diffDays / 7) ++ "周前")%string
  else (Js.numberToString (diffDays / 30) ++ "月前")%string.

Definition executableExts : list string :=
  [".exe"; ".msi"; ".bat"; ".cmd"; ".com"; ".scr"]%string.

Definition archiveExts : list string :=
  [".zip"; ".rar"; ".7z"; ".tar"; ".gz"; ".bz2"]%string.

Definition mediaExts : list string :=
  [".jpg"; ".jpeg"; ".png"; ".gif"; ".mp4"; ".avi"; ".mp3"; ".wav"]%string.

(** [exts.includes(extension.toLowerCase())], which throws unless the
    extension is a string. *)
Definition includesLowered (exts : list string) (ext : Js.value)
  : Js.completion bool :=
  match ext with
  | Js.Str s => Js.Normal (existsb (String.eqb (toLowerCase s)) exts)
  | _ => Js.Throw (Js.TypeError "extension.toLowerCase is not a function")
  end.

Definition isExecutableFile (ext : Js.value) : Js.completion bool :=
  includesLowered executableExts ext.

Definition isArchiveFile (ext : Js.value) : Js.completion bool :=
  includesLowered archiveExts ext.

Definition isMediaFile (ext : Js.value) : Js.completion bool :=
  includesLowered mediaExts ext.

(** The fields of [getDetailedFileInfo] that [FileRecord] leaves out;
    [None] where the handler returns the basic record. *)
Definition detailsOf (now : Z) (basicFileInfo : FileRecord) : option Details :=
  let mime := getMimeType (path basicFileInfo) in
  let age := getRelativeAge now (createdTime basicFileInfo) in
  match isExecutableFile (extension basicFileInfo),
        isArchiveFile (extension basicFileInfo),
        isMediaFile (extension basicFileInfo) with
  | Js.Normal e, Js.Normal a, Js.Normal m =>
      Some {| mimeType := mime; relativeAge := age; isExecutable := e;
              isArchive := a; isMedia := m |}
  | _, _, _ => None
  end.

End Rest.

End Scanner.

(** ** MCPClient: searching *)

Module MCPClient.

(** The criteria object of a search; [None] is a field left out. The
    two dates are the times of [Date] objects. *)
Record Criteria : Type := {
  extensions : option (list string);
  namePattern : option string;
  sizeMin : option Z;
  sizeMax : option Z;
  modifiedAfter : option Z;
  modifiedBefore : option Z;
  recursive : option bool
}.

(** A search path and the outcome of listing it. *)
Record SearchRoot : Type := {
  searchPath : string;
  searchListing : option (list FileScanner.Entry)
}.

Section Client.

Variable toLowerCase : string -> string.
(** [path.resolve]. *)
Variable resolve : string -> string.
(** [config.security.enablePathValidation] and
    [config.allowedDirectories]. *)
Variable enablePathValidation : bool.
Variable allowedDirectories : list string.

(** [validatePath]: [true] when it returns, [false] when it throws. *)
Definition validatePath (targetPath : string) : bool :=
  if negb enablePathValidation then true
  else
    let normalizedPath := resolve targetPath in
    existsb
      (fun allowedDir => String.prefix (resolve allowedDir) normalizedPath)
      allowedDirectories.

(** [extensions.includes(file.extension)]. *)
Definition includesValue (exts : list string) (v : Js.value) : bool :=
  match v with
  | Js.Str s => existsb (String.eqb s) exts
  | _ => false
  end.

Definition matchesCriteria (file : FileRecord) (criteria : Criteria) : bool :=
  let exts :=
    match extensions criteria with Some l => l | None => [] end in
  let lo := match sizeMin criteria with Some n => n | None => 0 end in
  if (0 <? List.length exts)%nat && negb (includesValue exts (extension file))
  then false
  else if
    match namePattern criteria with
    | Some pattern =>
        Js.truthyString (Some pattern)
        && negb (Js.includes (toLowerCase (name file)) (toLowerCase pattern))
    | None => false
    end
  then false
  else if size file <? lo then false
  else if
    match sizeMax criteria with
    | Some hi => size file >? hi
    | None => false
    end
  then false
  else if
    match modifiedAfter criteria with
    | Some t => modifiedTime file <? t
    | None => false
    end
  then false
  else true.

(** ToBoolean of [criteria.recursive]. *)
Definition isRecursive (criteria : Criteria) : bool :=
  match recursive criteria with
  | Some b => b
  | None => false
  end.

(** The body of [searchFilesRecursive] over a per-item step: nothing
    when the listing throws, else the items in turn. *)
Definition searchItems
  (step : FileScanner.Entry -> list FileRecord -> list FileRecord)
  (listing : option (list FileScanner.Entry)) (results : list FileRecord)
  : list FileRecord :=
  match listing with
  | None => results
  | Some files => fold_left (fun results file => step file results) files results
  end.

(** The body of the loop of [searchFilesRecursive]. *)
Fixpoint searchItem (criteria : Criteria) (file : FileScanner.Entry)
  (results : list FileRecord) {struct file} : list FileRecord :=
  match file with
  | FileScanner.FileEntry info =>
      if matchesCriteria info criteria then results ++ [info] else results
  | FileScanner.DirectoryEntry info listing =>
      if isRecursive criteria
      then searchItems (searchItem criteria) listing results
      else results
  | FileScanner.OtherEntry _ => results
  end.

(** [searchFilesRecursive], returning the array [results] it extends. *)
Definition searchFilesRecursive (listing : option (list FileScanner.Entry))
  (criteria : Criteria) (results : list FileRecord) : list FileRecord :=
  searchItems (searchItem criteria) listing results.

(** [searchFiles]; [None] when [validatePath] throws. *)
Definition searchFiles (root : SearchRoot) (criteria : Criteria)
  : option (list FileRecord) :=
  if validatePath (searchPath root)
  then Some (searchFilesRecursive (searchListing root) criteria [])
  else None.

End Client.

End MCPClient.

(** ** FileScanner: searching *)

Module FileSearch.

(** The search criteria of [FileScanner.searchFiles], without [paths];
    [None] is a field left out, and the two times are numbers of
    milliseconds. *)
Record SearchCriteria : Type := {
  extensions : option (list string);
  namePattern : option string;
  sizeMin : option Z;
  sizeMax : option Z;
  modifiedAfter : option Z;
  modifiedBefore : option Z
}.

(** [t ? new Date(t) : null]. *)
Definition dateOrNull (t : option Z) : option Z :=
  match t with
  | Some n => if n =? 0 then None else Some n
  | None => None
  end.

(** The criteria [searchFiles] hands to the client. *)
Definition clientCriteria (searchCriteria : SearchCriteria)
  : MCPClient.Criteria :=
  {| MCPClient.extensions :=
       Some match extensions searchCriteria with
            | Some l => l
            | None => []
            end;
     MCPClient.namePattern := namePattern searchCriteria;
     MCPClient.sizeMin :=
       Some match sizeMin searchCriteria with
            | Some n => n
            | None => 0
            end;
     MCPClient.sizeMax := sizeMax searchCriteria;
     MCPClient.modifiedAfter := dateOrNull (modifiedAfter searchCriteria);
     MCPClient.modifiedBefore := dateOrNull (modifiedBefore searchCriteria);
     MCPClient.recursive := Some true |}.

Section Search.

Variable toLowerCase : string -> string.
Variable resolve : string -> string.
Variable enablePathValidation : bool.
Variable allowedDirectories : list string.
Variable expandPath : string -> string.

(** [searchFiles] over the search paths [paths], each with the listing
    of its expansion. A path the client rejects adds nothing. *)
Definition searchFiles (searchCriteria : SearchCriteria)
  (paths : list MCPClient.SearchRoot) : list FileRecord :=
  let allResults :=
    fold_left
      (fun allResults root =>
         let expanded :=
           {| MCPClient.searchPath := expandPath (MCPClient.searchPath root);
              MCPClient.searchListing := MCPClient.searchListing root |} in
         match MCPClient.searchFiles toLowerCase resolve enablePathValidation
                 allowedDirectories expanded (clientCriteria searchCriteria)
         with
         | Some results => allResults ++ results
         | None => allResults
         end)
      paths [] in
  FileScanner.removeDuplicates allResults.

End Search.

End FileSearch.

(** ** FileClassifier: the distributions of [generateStatistics] *)

Module SizeDistribution.

(** An entry of [sizeDistribution]. *)
Record Entry : Type := {
  count : nat;
  totalSize : Z;
  files : list FileRecord
}.

(** [file.sizeCategory || '未知']. *)
Definition labelOf (file : FileRecord) : string :=
  if Js.truthyString (sizeCategory file) then
    match sizeCategory file with Some s => s | None => unknownLabel end
  else unknownLabel.

(** The body of the loop of [analyzeSizeDistribution]. *)
Definition addFile (sizeDistribution : Js.object Entry) (file : FileRecord)
  : Js.object Entry :=
  let sizeCategory := labelOf file in
  let sizeDistribution' :=
    match Js.get sizeCategory sizeDistribution with
    | None =>
        Js.set sizeCategory {| count := 0; totalSize := 0; files := [] |}
          sizeDistribution
    | Some _ => sizeDistribution
    end in
  match Js.get sizeCategory sizeDistribution' with
  | Some e =>
      Js.set sizeCategory
        {| count := S (count e);
           totalSize := totalSize e + size file;
           files := files e ++ [file] |}
        sizeDistribution'
  | None => sizeDistribution'
  end.

Definition analyzeSizeDistribution (cats : Js.object (list FileRecord))
  : Js.object Entry :=
  let allFiles := FileClassifier.getAllFiles cats in
  fold_left addFile allFiles [].

End SizeDistribution.

Module ExtensionStats.

Definition categoryOfFile (file : FileRecord) : option string :=
  category file.

(** An entry of [extensionStats]; [category] is that of the first
    record met with the extension. *)
Record Entry : Type := {
  count : nat;
  totalSize : Z;
  category : option string
}.

(** [file.extension || '无扩展名'], as the property key it is used
    for. *)
Definition keyOf (file : FileRecord) : string :=
  if Js.truthy (extension file) then
    match extension file with
    | Js.Str s => s
    | Js.Num n => Js.numberToString n
    | Js.Undefined => "无扩展名"%string
    end
  else "无扩展名"%string.

(** The body of the counting loop of [analyzeExtensions]. *)
Definition addFile (extensionStats : Js.object Entry) (file : FileRecord)
  : Js.object Entry :=
  let ext := keyOf file in
  let extensionStats' :=
    match Js.get ext extensionStats with
    | None =>
        Js.set ext
          {| count := 0; totalSize := 0; category := categoryOfFile file |}
          extensionStats
    | Some _ => extensionStats
    end in
  match Js.get ext extensionStats' with
  | Some e =>
      Js.set ext
        {| count := S (count e);
           totalSize := totalSize e + size file;
           category := category e |}
        extensionStats'
  | None => extensionStats'
  end.

(** [Object.fromEntries]. *)
Definition fromEntries (l : list (string * Entry)) : Js.object Entry :=
  fold_left (fun o kv => Js.set (fst kv) (snd kv) o) l [].

Definition analyzeExtensions (cats : Js.object (list FileRecord))
  : Js.object Entry :=
  let allFiles := FileClassifier.getAllFiles cats in
  let extensionStats := fold_left addFile allFiles [] in
  let sortedExtensions :=
    Js.slice0 20
      (Js.sort
         (fun a b => Z.of_nat (count (snd b)) - Z.of_nat (count (snd a)))
         (Js.entries extensionStats)) in
  fromEntries sortedExtensions.

End ExtensionStats.

(** ** FileClassifier: the policy *)

Module Policy.

(** The configuration handed to [addCustomCategory]; [None] is a field
    left out. *)
Record CustomCategory : Type := {
  extensions : option (list string);
  color : option string;
  description : option string
}.

(** [s || d] for a string that may be absent. *)
Definition stringOr (s : option string) (d : string) : string :=
  if Js.truthyString s then match s with Some x => x | None => d end else d.

(** The entry [addCustomCategory] stores. *)
Definition customEntry (categoryConfig : CustomCategory)
  : Config.CategoryConfig :=
  {| Config.extensions :=
       match extensions categoryConfig with
       | Some l => l
       | None => []
       end;
     Config.color := stringOr (color categoryConfig) "#B2B2B2";
     Config.description :=
       stringOr (description categoryConfig) "自定义分类" |}.

(** [addCustomCategory], returning the configuration it leaves behind.
    The test [!fileCategories[categoryName]] fails for a name that is
    taken and for a name of a member of [Object.prototype]. The
    categories are kept as their [Object.entries], so the new property
    is enumerated with them. *)
Definition addCustomCategory (categoryName : string)
  (categoryConfig : CustomCategory) (config : option Config.t)
  : Js.completion Config.t :=
  match config with
  | None => Js.Throw (Js.TypeError "Cannot read properties of null")
  | Some c =>
      match Js.get categoryName (Config.fileCategories c) with
      | Some _ => Js.Normal c
      | None =>
          if Js.inherited categoryName then Js.Normal c
          else
          Js.Normal
            {| Config.fileCategories :=
                 Js.entries
                   (Js.set categoryName (customEntry categoryConfig)
                      (Config.fileCategories c));
               Config.sizeCategories := Config.sizeCategories c;
               Config.excludePaths := Config.excludePaths c;
               Config.scanPaths := Config.scanPaths c |}
      end
  end.

(** The fields [totalCategories], [categories] and [sizeCategories] of
    [getClassificationInfo]. *)
Definition getClassificationInfo (config : option Config.t)
  : Js.completion (nat * list string * list string) :=
  match config with
  | None => Js.Throw (Js.TypeError "Cannot read properties of null")
  | Some c =>
      Js.Normal
        (List.length (Js.keys (Config.fileCategories c)),
         Js.keys (Config.fileCategories c),
         Js.keys (Config.sizeCategories c))
  end.

End Policy.

(** ** FileClassifier: classification by content *)

Module Content.

Local Open Scope string_scope.

Definition mimeCategories : Js.object string := [
  ("text/", "文档类");
  ("application/pdf", "文档类");
  ("application/msword", "文档类");
  ("application/vnd.openxml", "文档类");
  ("image/", "图片类");
  ("video/", "视频类");
  ("audio/", "音频类");
  ("application/zip", "压缩包");
  ("application/x-rar", "压缩包");
  ("application/x-7z", "压缩包");
  ("application/x-msdownload", "程序类")
].

(** The loop of [classifyByMimeType] over the entries. *)
Fixpoint firstPrefix (mimeType : string) (l : list (string * string))
  : string :=
  match l with
  | [] => otherCategory
  | (mimePrefix, category) :: rest =>
      if String.prefix mimePrefix mimeType then category
      else firstPrefix mimeType rest
  end.

Definition classifyByMimeType (mimeType : string) : string :=
  firstPrefix mimeType (Js.entries mimeCategories).

(** The letters A to Z folded to a to z: the case folding of a regular
    expression with the flag [i] against a pattern of ASCII letters. *)
Definition foldLetter (a : ascii) : ascii :=
  let n := N_of_ascii a in
  if ((65 <=? n) && (n <=? 90))%N then ascii_of_N (n + 32) else a.

Fixpoint foldCase (s : string) : string :=
  match s with
  | EmptyString => EmptyString
  | String a s' => String (foldLetter a) (foldCase s')
  end.

(** [/pattern/i.test(fileName)] for a pattern that is a literal text in
    lower case. *)
Definition test (pattern fileName : string) : bool :=
  Js.includes (foldCase fileName) pattern.

Definition namePatterns : Js.object (list string) := [
  ("文档类", ["readme"; "license"; "changelog"; "doc"; "manual"]);
  ("代码类", ["config"; "src"; "lib"; "script"; ".min."]);
  ("程序类", ["setup"; "install"; "installer"; "launcher"]);
  ("其他类", [])
].

(** The loops of [classifyByFileName] over the entries. *)
Fixpoint firstPattern (fileName : string) (l : list (string * list string))
  : string :=
  match l with
  | [] => otherCategory
  | (category, patterns) :: rest =>
      if existsb (fun pattern => test pattern fileName) patterns
      then category
      else firstPattern fileName rest
  end.

Definition classifyByFileName (fileName : string) : string :=
  firstPattern fileName (Js.entries namePatterns).

(** [s] ends with [t]. *)
Fixpoint endsWith (s t : string) : bool :=
  String.eqb s t
  || match s with
     | EmptyString => false
     | String _ s' => endsWith s' t
     end.

Definition imageSuffixes : list string :=
  [".jpg"; ".jpeg"; ".png"; ".gif"; ".bmp"; ".svg"; ".tiff"; ".ico";
   ".webp"].

(** [extension.match(/\.(jpg|jpeg|png|gif|bmp|svg|tiff|ico|webp)$/i)]
    as a condition. *)
Definition matchesImage (extension : string) : bool :=
  existsb (endsWith (foldCase extension)) imageSuffixes.

Section Classify.

Variable config : option Config.t.
Variable toLowerCase : string -> string.

(** [classifyByContent] on a record and the fields
    [getDetailedFileInfo] added to it, [None] for a basic record. *)
Definition classifyByContent (file : FileRecord)
  (details : option Scanner.Details) : Js.completion string :=
  Js.tryCatch
    match details with
    | Some d =>
        if Scanner.isExecutable d then Js.Normal "程序类"
        else if Scanner.isArchive d then Js.Normal "压缩包"
        else if Scanner.isMedia d then
          match extension file with
          | Js.Str s =>
              Js.Normal (if matchesImage s then "图片类" else "视频类")
          | _ =>
              Js.Throw (Js.TypeError "file.extension.match is not a function")
          end
        else if Js.truthyString (Some (Scanner.mimeType d))
             then Js.Normal (classifyByMimeType (Scanner.mimeType d))
             else Js.Normal (classifyByFileName (name file))
    | None => Js.Normal (classifyByFileName (name file))
    end
    (fun _ => FileClassifier.classifyFile config toLowerCase file).

End Classify.

End Content.

(** ** MarkdownReporter: the analysis of file changes *)

Module Reporter.

(** The object [analyzeFileChanges] fills. *)
Record Analysis : Type := {
  newFiles : list FileRecord;
  modifiedFiles : list FileRecord;
  todayFiles : list FileRecord;
  yesterdayFiles : list FileRecord;
  olderFiles : list FileRecord;
  byCategory : Js.object (list FileRecord);
  bySize : Js.object (list FileRecord);
  pathDistribution : Js.object (list FileRecord)
}.

Definition initial : Analysis :=
  {| newFiles := []; modifiedFiles := []; todayFiles := [];
     yesterdayFiles := []; olderFiles := [];
     byCategory := [];
     bySize :=
       [("tiny", []); ("small", []); ("medium", []); ("large", []);
        ("huge", [])]%string;
     pathDistribution := [] |}.

(** [Math.floor((now - createdTime) / (1000 * 60 * 60 * 24))]. *)
Definition daysDiff (now : Z) (file : FileRecord) : Z :=
  (now - createdTime file) / (1000 * 60 * 60 * 24).

(** [Math.abs(createdTime - modifiedTime) < 60000]. *)
Definition isNew (file : FileRecord) : bool :=
  Z.abs (createdTime file - modifiedTime file) <? 60000.

(** [file.category || '其他类']. *)
Definition categoryKey (file : FileRecord) : string :=
  if Js.truthyString (category file) then
    match category file with Some c => c | None => otherCategory end
  else otherCategory.

(** [if (!o[k]) o[k] = []; o[k].push(file)]. For a key that names a
    member of [Object.prototype] and is no own property, the test finds
    that member, no array is stored, and the call of [push] throws. *)
Definition pushGroup (k : string) (file : FileRecord)
  (o : Js.object (list FileRecord))
  : Js.completion (Js.object (list FileRecord)) :=
  let o' :=
    match Js.get k o with
    | None => if Js.inherited k then o else Js.set k [] o
    | Some _ => o
    end in
  match Js.get k o' with
  | Some l => Js.Normal (Js.set k (l ++ [file]) o')
  | None => Js.Throw (Js.TypeError "push is not a function")
  end.

Section Analyze.

(** [path.dirname]. *)
Variable dirname : string -> string.

(** The body of the loop of [analyzeFileChanges], at the time [now]. *)
Definition addFile (now : Z) (analysis : Analysis) (file : FileRecord)
  : Js.completion Analysis :=
  let days := daysDiff now file in
  let sizeCategory := Main.getSizeCategory (size file) in
  Js.bind (pushGroup (categoryKey file) file (byCategory analysis))
    (fun byCategory' =>
       match Js.get sizeCategory (bySize analysis) with
       | None =>
           Js.Throw (Js.TypeError "Cannot read properties of undefined")
       | Some l =>
           Js.bind
             (pushGroup (dirname (path file)) file
                (pathDistribution analysis))
             (fun pathDistribution' =>
                Js.Normal
                  {| newFiles :=
                       if isNew file then newFiles analysis ++ [file]
                       else newFiles analysis;
                     modifiedFiles :=
                       if isNew file then modifiedFiles analysis
                       else modifiedFiles analysis ++ [file];
                     todayFiles :=
                       if days =? 0 then todayFiles analysis ++ [file]
                       else todayFiles analysis;
                     yesterdayFiles :=
                       if days =? 0 then yesterdayFiles analysis
                       else if days =? 1
                            then yesterdayFiles analysis ++ [file]
                       else yesterdayFiles analysis;
                     olderFiles :=
                       if days =? 0 then olderFiles analysis
                       else if days =? 1 then olderFiles analysis
                       else olderFiles analysis ++ [file];
                     byCategory := byCategory';
                     bySize :=
                       Js.set sizeCategory (l ++ [file]) (bySize analysis);
                     pathDistribution := pathDistribution' |})
       end).

Fixpoint addFiles (now : Z) (files : list FileRecord) (analysis : Analysis)
  : Js.completion Analysis :=
  match files with
  | [] => Js.Normal analysis
  | file :: rest => Js.bind (addFile now analysis file) (addFiles now rest)
  end.

(** [analyzeFileChanges] at the time [now]; an exception leaves the
    function. The argument [days] only sets [cutoffDate], which the
    function does not read. *)
Definition analyzeFileChanges (now : Z) (files : list FileRecord)
  : Js.completion Analysis :=
  addFiles now files initial.

End Analyze.

End Reporter.

(** ** Reports: sizes and CSV *)

Module Format.

Local Open Scope string_scope.

Definition twoDigits (n : Z) : string :=
  if (n <? 10)%Z then "0" ++ Js.numberToString n else Js.numberToString n.

(** [x.toFixed(2)] for the number [x = num / den] with [den > 0]: the
    integer nearest to [100 * |x|], the larger of two such, printed
    with its last two digits as decimals, after the sign of [x]. *)
Definition toFixed2 (num den : Z) : string :=
  let n := ((200 * Z.abs num + den) / (2 * den))%Z in
  (if (num <? 0)%Z then "-" else EmptyString)
    ++ Js.numberToString (n / 100) ++ "." ++ twoDigits (n mod 100).

(** The loop [while (size >= 1024 && unitIndex < units.length - 1)]
    of [formatFileSize], with [size] held as the fraction
    [bytes / den]: dividing a number below 2^53 by 1024 is exact.
    [larger] are the units after the current one. *)
Fixpoint scale (larger : list string) (unit : string) (bytes den : Z)
  : Z * string :=
  match larger with
  | [] => (den, unit)
  | next :: rest =>
      if (bytes >=? 1024 * den)%Z then scale rest next bytes (1024 * den)
      else (den, unit)
  end.

(** [formatFileSize] of [main.js], in [FileAutoArrange] and in
    [MarkdownReporter]. *)
Definition formatFileSize (bytes : Z) : string :=
  let '(den, unit) := scale ["KB"; "MB"; "GB"] "B" bytes 1 in
  toFixed2 bytes den ++ " " ++ unit.

End Format.

Module ExcelReporter.

Local Open Scope string_scope.

(** [formatFileSize] of [excelReporter.js]. *)
Definition formatFileSize (bytes : Z) : string :=
  if (bytes =? 0)%Z then "0 B"
  else
    let '(den, unit) :=
      Format.scale ["KB"; "MB"; "GB"; "TB"] "B" bytes 1 in
    Format.toFixed2 bytes den ++ " " ++ unit.

(** The double quote. *)
Definition quote : ascii := "034"%char.

Definition newline : string := String "010"%char EmptyString.

(** The [replace] of the cell text: every double quote becomes two. *)
Fixpoint escapeQuotes (s : string) : string :=
  match s with
  | EmptyString => EmptyString
  | String c s' =>
      if Ascii.eqb c quote
      then String quote (String quote (escapeQuotes s'))
      else String c (escapeQuotes s')
  end.

(** A cell of the CSV text: the escaped text between quotes. *)
Definition csvCell (cell : string) : string :=
  String quote (escapeQuotes cell ++ String quote EmptyString).

(** [l.join(sep)]. *)
Fixpoint join (sep : string) (l : list string) : string :=
  match l with
  | [] => EmptyString
  | [x] => x
  | x :: rest => x ++ sep ++ join sep rest
  end.

(** [csvContent] of [generateCSVReport], from the rows of [csvData]
    with their cells as strings. *)
Definition csvContent (csvData : list (list string)) : string :=
  join newline (map (fun row => join "," (map csvCell row)) csvData).

End ExcelReporter.

(** ** Sample inputs *)

Module Sample.

Local Open Scope string_scope.

(** [toLowerCase] on ASCII text: the letters A to Z are folded, every
    other byte is kept. *)
Definition lowerAscii (a : ascii) : ascii :=
  let n := N_of_ascii a in
  if ((65 <=? n) && (n <=? 90))%N then ascii_of_N (n + 32) else a.

Fixpoint toLowerCase (s : string) : string :=
  match s with
  | EmptyString => EmptyString
  | String a s' => String (lowerAscii a) (toLowerCase s')
  end.

(** A path already in normal form. *)
Definition normalize (s : string) : string := s.

Definition expandPath (s : string) : string := s.

(** A record as [listDirectory] builds it. *)
Definition basic (nm dir : string) (ext : Js.value) (sz created modified : Z)
  : FileRecord :=
  {| name := nm; path := dir ++ nm; extension := ext; size := sz;
     createdTime := created; modifiedTime := modified;
     accessedTime := modified; hash := None; category := None;
     sizeCategory := None |}.

(** A record as [getDetailedFileInfo] completes it when [fs.stat]
    reports the same size and modification time. *)
Definition detailed (nm dir : string) (ext : string) (sz created modified : Z)
  : FileRecord :=
  {| name := nm; path := dir ++ nm; extension := Js.Str ext; size := sz;
     createdTime := created; modifiedTime := modified;
     accessedTime := modified;
     hash := Some (FileScanner.hashOf (dir ++ nm) sz modified);
     category := None;
     sizeCategory :=
       Some (FileScanner.getSizeCategory (Some Config.shipped) sz) |}.

Definition desktop : string := "C:\Users\u\Desktop\".

Definition e_txt : FileRecord :=
  Eval vm_compute in
  detailed "e.txt" desktop ".txt" 4096 1700000000000 1700000500000.

Definition f_txt : FileRecord :=
  Eval vm_compute in
  detailed "f.txt" desktop ".txt" 4096 1700000000000 1700000500000.

Definition a_jpg : FileRecord :=
  Eval vm_compute in
  detailed "a.jpg" desktop ".jpg" 5 1700000000000 1700000000000.

Definition b_pdf : FileRecord :=
  Eval vm_compute in
  detailed "b.pdf" desktop ".pdf" 5 1700000000000 1700000000000.

(** A record whose extension is not a string. *)
Definition odd : FileRecord :=
  basic "odd" desktop (Js.Num 7) 1 1700000000000 1700000000000.

Definition classify (files : list FileRecord)
  : Js.completion FileClassifier.ClassificationResult :=
  FileClassifier.classifyFiles (Some Config.shipped) toLowerCase files.

End Sample.

(** ** Vocabulary of the properties *)

(** The size ranges of a policy that take a size, by the test of
    [getSizeCategory]. *)
Definition matchingRanges (c : Config.t) (sz : Z) : list string :=
  map fst
    (filter (fun kv => FileScanner.inRange sz (snd kv))
       (Config.sizeCategories c)).

(** The sizes at which two ranges of the shipped table meet. *)
Definition sharedBound (sz : Z) : bool :=
  (sz =? 1024) || (sz =? 1048576) || (sz =? 104857600)
  || (sz =? 1073741824).

(** [c] is the category the rule table gives an extension: the first
    category in order whose extensions hold it, or the fallback when
    none does. *)
Definition FirstDeclared (ext : string)
  (cats : list (string * Config.CategoryConfig)) (c : string) : Prop :=
  (exists before cc after,
      cats = before ++ (c, cc) :: after
      /\ In ext (Config.extensions cc)
      /\ forall kv, In kv before -> ~ In ext (Config.extensions (snd kv)))
  \/ (c = otherCategory
      /\ forall kv, In kv cats -> ~ In ext (Config.extensions (snd kv))).

(** A record meets the cutoff when it was created or modified at or
    after it. *)
Definition Recent (cutoffDate : Z) (file : FileRecord) : Prop :=
  createdTime file >= cutoffDate \/ modifiedTime file >= cutoffDate.

(** [l] is [l'] with some elements left out, the others in their order. *)
Inductive Subseq {A : Type} : list A -> list A -> Prop :=
| Subseq_nil : Subseq [] []
| Subseq_keep (x : A) (l l' : list A) : Subseq l l' -> Subseq (x :: l) (x :: l')
| Subseq_drop (x : A) (l l' : list A) : Subseq l l' -> Subseq l (x :: l').

(** A tree under a scan path: a file created and modified before the
    cutoff 1000, one modified after it, and a directory with one file
    created after it. *)
Definition sampleRoot : FileScanner.Root :=
  {| FileScanner.scanPath := Sample.desktop;
     FileScanner.pathExists := true;
     FileScanner.rootListing :=
       Some [
         FileScanner.FileEntry
           (Sample.basic "old.txt" Sample.desktop (Js.Str ".txt") 10 100 200);
         FileScanner.FileEntry
           (Sample.basic "new.txt" Sample.desktop (Js.Str ".txt") 10 100 2000);
         FileScanner.DirectoryEntry
           (Sample.basic "sub" Sample.desktop (Js.Str EmptyString) 0 100 200)
           (Some [
              FileScanner.FileEntry
                (Sample.basic "made.png" "C:\Users\u\Desktop\sub\"
                   (Js.Str ".png") 7 3000 3000)])
       ] |}.

(** [fs.stat] answering with one size and time for every path. *)
Definition sampleStat (_ : string) : option (Z * Z) := Some (10, 2000).

Definition sampleRandom (_ : nat) : string := "0.4fzyo82mvyr".

Definition sampleScan : list FileRecord :=
  Eval vm_compute in
  FileScanner.scanRecentFiles (Some Config.shipped) Sample.normalize
    Sample.toLowerCase Sample.expandPath sampleStat sampleRandom 1000
    [sampleRoot].

(** The records of a list whose key is neither in [seen] nor the key of
    an earlier record of the list. *)
Fixpoint firstSeen (seen : list string) (files : list FileRecord)
  : list FileRecord :=
  match files with
  | [] => []
  | file :: rest =>
      let key := FileScanner.dedupKey file in
      if existsb (fun k => String.eqb k key) seen then firstSeen seen rest
      else file :: firstSeen (seen ++ [key]) rest
  end.

(** The records of a list that have the key of [file]. *)
Definition sameKey (file other : FileRecord) : bool :=
  String.eqb (FileScanner.dedupKey other) (FileScanner.dedupKey file).

Section Assignment.

Variable cfg : Config.t.
Variable toLowerCase : string -> string.

(** The category a record ends under: the one [classifyFile] returns,
    and "其他类" when it throws. *)
Definition categoryOf (file : FileRecord) : string :=
  match FileClassifier.classifyFile (Some cfg) toLowerCase file with
  | Js.Normal c => c
  | Js.Throw _ => otherCategory
  end.

(** A record once [classifyFiles] has set its [category]. *)
Definition assigned (file : FileRecord) : FileRecord :=
  setCategory (categoryOf file) file.

(** The records of a scan that end under [c], in scan order. *)
Definition membersOf (c : string) (files : list FileRecord)
  : list FileRecord :=
  map assigned (filter (fun file => String.eqb (categoryOf file) c) files).

(** The categories object over the keys [ks] after [files]. *)
Definition categoriesOf (ks : list string) (files : list FileRecord)
  : Js.object (list FileRecord) :=
  map (fun c => (c, membersOf c files)) ks.

End Assignment.



(** The policy has the fallback category. *)
Definition hasOther (cfg : Config.t) : Prop :=
  In otherCategory (map fst (Config.fileCategories cfg)).

(** A policy of one category, without the fallback category. *)
Definition documentsOnly : Config.t :=
  {| Config.fileCategories :=
       [("文档类"%string,
         Config.category [".txt"%string] "#4472C4" "各种文档和文本文件")];
     Config.sizeCategories := Config.sizeCategories Config.shipped;
     Config.excludePaths := [];
     Config.scanPaths := [] |}.

(** [out] is [src] arranged by ascending [key], records of equal key
    keeping the order they have in [src]. *)
Definition StableSortedBy (key : FileRecord -> Z)
  (src out : list FileRecord) : Prop :=
  Permutation out src
  /\ StronglySorted (fun a b => key a <= key b) out
  /\ forall k, filter (fun f => key f =? k) out
               = filter (fun f => key f =? k) src.

(** [top] is the first [n] records of that arrangement of [src]. *)
Definition TopOf (n : nat) (key : FileRecord -> Z)
  (src top : list FileRecord) : Prop :=
  exists out, StableSortedBy key src out /\ top = firstn n out.


(** A result with nothing in it. *)
Definition emptyResult : FileClassifier.ClassificationResult :=
  {| FileClassifier.categories := [];
     FileClassifier.summary := [];
     FileClassifier.totalFiles := 0;
     FileClassifier.resultTotalSize := 0;
     FileClassifier.statistics :=
       {| FileClassifier.duplicateFiles := [];
          FileClassifier.largestFiles := [];
          FileClassifier.oldestFiles := [];
          FileClassifier.newestFiles := [] |} |}.

Definition resultOf (c : Js.completion FileClassifier.ClassificationResult)
  : FileClassifier.ClassificationResult :=
  match c with
  | Js.Normal cr => cr
  | Js.Throw _ => emptyResult
  end.

(** A scan that meets an image before a document of the same size and
    creation time. *)
Definition tieScan : list FileRecord := [Sample.a_jpg; Sample.b_pdf].

Definition tieResult : FileClassifier.ClassificationResult :=
  Eval vm_compute in resultOf (Sample.classify tieScan).

(** The record carries the hash [h]. *)
Definition hashIs (h : string) (file : FileRecord) : bool :=
  match hash file with
  | Some h' => String.eqb h' h
  | None => false
  end.

(** The groups object over the hashes [hs] after [files]. *)
Definition groupsOf (hs : list string) (files : list FileRecord)
  : Js.object (list FileRecord) :=
  map (fun h => (h, filter (hashIs h) files)) hs.

(** The state of the grouping loop after the records [processed]: one
    group for each hash met, in the order the hashes were first met,
    holding the records with that hash in their order. *)
Definition GroupsAfter (processed : list FileRecord)
  (groups : Js.object (list FileRecord)) : Prop :=
  exists hs,
    NoDup hs
    /\ (forall h, In h hs <->
                  h <> EmptyString
                  /\ exists file, In file processed /\ hash file = Some h)
    /\ groups = groupsOf hs processed.

(** Two records of which "e.txt" and "f.txt" are the names: one size,
    one modification time, two paths. *)
Definition twinScan : list FileRecord := [Sample.e_txt; Sample.f_txt].

(** The directory the two lie in, and [fs.stat] reporting 4096 bytes and
    one modification time for each. *)
Definition twinRoot : FileScanner.Root :=
  {| FileScanner.scanPath := Sample.desktop;
     FileScanner.pathExists := true;
     FileScanner.rootListing :=
       Some [
         FileScanner.FileEntry
           (Sample.basic "e.txt" Sample.desktop (Js.Str ".txt") 4096
              1700000000000 1700000500000);
         FileScanner.FileEntry
           (Sample.basic "f.txt" Sample.desktop (Js.Str ".txt") 4096
              1700000000000 1700000500000)
       ] |}.

Definition twinStat (_ : string) : option (Z * Z) :=
  Some (4096, 1700000500000).

Definition twinResult : FileClassifier.ClassificationResult :=
  Eval vm_compute in resultOf (Sample.classify twinScan).

(** A scan in which one record comes twice. *)
Definition repeatScan : list FileRecord :=
  [Sample.e_txt; Sample.f_txt; Sample.e_txt].

Definition repeatResult : FileClassifier.ClassificationResult :=
  Eval vm_compute in resultOf (Sample.classify repeatScan).

(** The value of the polynomial in 31 whose coefficients are the code
    units of a string, first unit highest. *)
Definition polynomialHash (codes : list Z) : Z :=
  fold_left (fun acc code => 31 * acc + code) codes 0.

Definition digitValue (a : ascii) : N :=
  let n := N_of_ascii a in
  if (n <? 58)%N then (n - 48)%N else (n - 87)%N.

Fixpoint decodeFrom (v : N) (s : string) : N :=
  match s with
  | EmptyString => v
  | String a s' => decodeFrom (v * 36 + digitValue a) s'
  end.

(** The integer a numeral of base 36 stands for. *)
Definition parse36 (s : string) : Z :=
  match s with
  | String a rest =>
      if Ascii.eqb a "-"%char then - Z.of_N (decodeFrom 0 rest)
      else Z.of_N (decodeFrom 0 s)
  | EmptyString => 0
  end.

(** An entry with every listing below [k] levels of directories cut. *)
Fixpoint truncate (k : nat) (e : FileScanner.Entry) {struct e}
  : FileScanner.Entry :=
  match e with
  | FileScanner.DirectoryEntry info listing =>
      FileScanner.DirectoryEntry info
        (match k with
         | O => None
         | S k' => option_map (map (truncate k')) listing
         end)
  | _ => e
  end.

(** The record the scanner returns carries the data of a directory
    item. *)
Definition SameFile (file info : FileRecord) : Prop :=
  name file = name info /\ path file = path info
  /\ extension file = extension info /\ size file = size info
  /\ createdTime file = createdTime info
  /\ modifiedTime file = modifiedTime info
  /\ accessedTime file = accessedTime info.

(** The file items the walk comes to from the items of a directory at
    recursion depth [depth]: the files among them, and those it comes to
    in a directory among them that is listed, not excluded, and met at
    a depth below the bound. *)
Inductive Visits (excluded : string -> bool)
  : nat -> list FileScanner.Entry -> FileRecord -> Prop :=
| Visits_here (depth : nat) (items : list FileScanner.Entry)
    (info : FileRecord) :
    In (FileScanner.FileEntry info) items ->
    Visits excluded depth items info
| Visits_below (depth : nat) (items sub : list FileScanner.Entry)
    (dir info : FileRecord) :
    In (FileScanner.DirectoryEntry dir (Some sub)) items ->
    (depth < FileScanner.maxDepth)%nat ->
    excluded (path dir) = false ->
    Visits excluded (S depth) sub info ->
    Visits excluded depth items info.

(** A scan path contributes when it exists, is not excluded and can be
    listed. *)
Definition contributes (excluded : string -> bool)
  (expandPath : string -> string) (root : FileScanner.Root) : bool :=
  FileScanner.pathExists root
  && negb (excluded (expandPath (FileScanner.scanPath root)))
  && match FileScanner.rootListing root with
     | Some _ => true
     | None => false
     end.

(** Two reports of one directory whose names differ in "Aa" against
    "BB" only, as the listing of the directory gives them. *)
Definition reportAa : FileRecord :=
  Sample.basic "reportAa.txt" Sample.desktop (Js.Str ".txt") 4096
    1700000000000 1700000500000.

Definition reportBB : FileRecord :=
  Sample.basic "reportBB.txt" Sample.desktop (Js.Str ".txt") 4096
    1700000000000 1700000500000.


Definition zsum (l : list Z) : Z := fold_right Z.add 0 l.



(** The file items of the tree of an entry, in the order a walk meets
    them; directories that are listed are entered when [deep]. *)
Fixpoint filesOf (deep : bool) (e : FileScanner.Entry) : list FileRecord :=
  match e with
  | FileScanner.FileEntry info => [info]
  | FileScanner.DirectoryEntry _ (Some sub) =>
      if deep then flat_map (filesOf deep) sub else []
  | _ => []
  end.

Definition filesBelow (deep : bool) (items : list FileScanner.Entry)
  : list FileRecord :=
  flat_map (filesOf deep) items.

(** The file items under the search paths that pass [accepted] and can
    be listed. *)
Definition searchPool (accepted : string -> bool)
  (paths : list MCPClient.SearchRoot) : list FileRecord :=
  flat_map
    (fun root =>
       if accepted (MCPClient.searchPath root) then
         match MCPClient.searchListing root with
         | Some items => filesBelow true items
         | None => []
         end
       else [])
    paths.

(** Search criteria with another [modifiedBefore]. *)
Definition withModifiedBefore (t : option Z)
  (searchCriteria : FileSearch.SearchCriteria) : FileSearch.SearchCriteria :=
  {| FileSearch.extensions := FileSearch.extensions searchCriteria;
     FileSearch.namePattern := FileSearch.namePattern searchCriteria;
     FileSearch.sizeMin := FileSearch.sizeMin searchCriteria;
     FileSearch.sizeMax := FileSearch.sizeMax searchCriteria;
     FileSearch.modifiedAfter := FileSearch.modifiedAfter searchCriteria;
     FileSearch.modifiedBefore := t |}.

(** The listing of [sampleRoot], and a search for images in it. *)
Definition sampleItems : list FileScanner.Entry :=
  match FileScanner.rootListing sampleRoot with
  | Some items => items
  | None => []
  end.

Definition imageCriteria : MCPClient.Criteria :=
  {| MCPClient.extensions := Some [".png"%string; ".jpg"%string];
     MCPClient.namePattern := None;
     MCPClient.sizeMin := None;
     MCPClient.sizeMax := None;
     MCPClient.modifiedAfter := None;
     MCPClient.modifiedBefore := None;
     MCPClient.recursive := Some true |}.

Section GroupingLoop.

Context {A V : Type}.
Variable key : A -> string.
Variable init : A -> V.
Variable upd : V -> A -> V.

(** The body the counting loops share: the entry for the key of [x] is
    created when there is none, and then updated with [x]. *)
Definition groupStep (o : Js.object V) (x : A) : Js.object V :=
  let o' :=
    match Js.get (key x) o with
    | None => Js.set (key x) (init x) o
    | Some _ => o
    end in
  match Js.get (key x) o' with
  | Some v => Js.set (key x) (upd v x) o'
  | None => o'
  end.

(** The elements of a list with the key [k], in their order. *)
Definition groupOf (k : string) (l : list A) : list A :=
  filter (fun x => String.eqb (key x) k) l.

(** The entry the loop holds for a group that is not empty. *)
Definition groupEntry (group : list A) : option V :=
  match group with
  | [] => None
  | first :: _ => Some (fold_left upd group (init first))
  end.

End GroupingLoop.

(** The entry of [sizeDistribution] for the records [group]. *)
Definition sizeEntry (group : list FileRecord)
  : option SizeDistribution.Entry :=
  match group with
  | [] => None
  | _ :: _ =>
      Some {| SizeDistribution.count := List.length group;
              SizeDistribution.totalSize := FileClassifier.sumSizes group;
              SizeDistribution.files := group |}
  end.

(** The entry of [extensionStats] for the records [group]. *)
Definition extensionEntry (group : list FileRecord)
  : option ExtensionStats.Entry :=
  match group with
  | [] => None
  | first :: _ =>
      Some {| ExtensionStats.count := List.length group;
              ExtensionStats.totalSize := FileClassifier.sumSizes group;
              ExtensionStats.category := category first |}
  end.

(** Some category of the policy declares the extension. *)
Definition declares (ext : string)
  (fileCategories : list (string * Config.CategoryConfig)) : bool :=
  existsb
    (fun kv => existsb (String.eqb ext) (Config.extensions (snd kv)))
    fileCategories.

(** A custom category for design files, and the shipped policy once it
    is added under a name, under a number and under the name of a
    member of [Object.prototype]. *)
Definition designCategory : Policy.CustomCategory :=
  {| Policy.extensions := Some [".psd"%string; ".pdf"%string];
     Policy.color := None;
     Policy.description := None |}.

Definition configOf (c : Js.completion Config.t) : Config.t :=
  match c with
  | Js.Normal cfg => cfg
  | Js.Throw _ => Config.shipped
  end.

Definition shippedWithDesign : Config.t :=
  Eval vm_compute in
  configOf (Policy.addCustomCategory "设计类" designCategory
              (Some Config.shipped)).

Definition shippedWithNumber : Config.t :=
  Eval vm_compute in
  configOf (Policy.addCustomCategory "7" designCategory
              (Some Config.shipped)).

Definition shippedWithConstructor : Config.t :=
  Eval vm_compute in
  configOf (Policy.addCustomCategory "constructor" designCategory
              (Some Config.shipped)).

(** An audio file as the scanner completes it. *)
Definition song : FileRecord :=
  Eval vm_compute in
  Sample.detailed "song.mp3" Sample.desktop ".mp3" 5 1700000000000
    1700000000000.

(** The extension of a path whose name has a dot at the fourth place
    from the end, as [path.extname] gives it for the sample names. *)
Fixpoint lastFour (s : string) : string :=
  if (String.length s <=? 4)%nat then s
  else match s with
       | EmptyString => EmptyString
       | String _ s' => lastFour s'
       end.

(** A group as an object of groups holds it: absent when empty. *)
Definition nonEmpty {A : Type} (l : list A) : option (list A) :=
  match l with
  | [] => None
  | _ :: _ => Some l
  end.

(** The keys of [bySize]. *)
Definition sizeLabels : list string :=
  ["tiny"; "small"; "medium"; "large"; "huge"]%string.

(** The category or the directory of the record names a member of
    [Object.prototype]. *)
Definition inheritedKey (dirname : string -> string) (file : FileRecord)
  : bool :=
  Js.inherited (Reporter.categoryKey file)
  || Js.inherited (dirname (path file)).

(** The state of the loop of [analyzeFileChanges] after the records
    [processed]. *)
Definition AnalysisAfter (dirname : string -> string) (now : Z)
  (processed : list FileRecord) (a : Reporter.Analysis) : Prop :=
  Reporter.newFiles a = filter Reporter.isNew processed
  /\ Reporter.modifiedFiles a
     = filter (fun f => negb (Reporter.isNew f)) processed
  /\ Reporter.todayFiles a
     = filter (fun f => Reporter.daysDiff now f =? 0) processed
  /\ Reporter.yesterdayFiles a
     = filter (fun f => Reporter.daysDiff now f =? 1) processed
  /\ Reporter.olderFiles a
     = filter
         (fun f =>
            negb (Reporter.daysDiff now f =? 0)
            && negb (Reporter.daysDiff now f =? 1))
         processed
  /\ (forall label,
        Js.get label (Reporter.bySize a)
        = if existsb (String.eqb label) sizeLabels
          then Some (groupOf (fun f => Main.getSizeCategory (size f)) label
                       processed)
          else None)
  /\ (forall c,
        Js.get c (Reporter.byCategory a)
        = nonEmpty (groupOf Reporter.categoryKey c processed))
  /\ (forall d,
        Js.get d (Reporter.pathDistribution a)
        = nonEmpty (groupOf (fun f => dirname (path f)) d processed)).

(** *** Reading the CSV text back *)

(** Where a reader of the CSV text stands: before a cell, inside the
    quotes of one, or after a quote that ends the cell or starts an
    escaped quote. *)
Inductive CsvState : Type :=
| CellStart
| InCell
| AfterQuote.

(** The reader: [cell] is the text of the cell being read, [row] the
    cells of the row before it and [rows] the rows before that. *)
Fixpoint readCsv (state : CsvState) (cell : string) (row : list string)
  (rows : list (list string)) (input : string)
  : option (list (list string)) :=
  match input with
  | EmptyString =>
      match state with
      | AfterQuote => Some (rows ++ [row ++ [cell]])
      | _ => None
      end
  | String c rest =>
      match state with
      | CellStart =>
          if Ascii.eqb c ExcelReporter.quote
          then readCsv InCell EmptyString row rows rest
          else None
      | InCell =>
          if Ascii.eqb c ExcelReporter.quote
          then readCsv AfterQuote cell row rows rest
          else readCsv InCell (cell ++ String c EmptyString) row rows rest
      | AfterQuote =>
          if Ascii.eqb c ExcelReporter.quote
          then readCsv InCell (cell ++ String c EmptyString) row rows rest
          else if Ascii.eqb c ","%char
          then readCsv CellStart EmptyString (row ++ [cell]) rows rest
          else if Ascii.eqb c "010"%char
          then readCsv CellStart EmptyString [] (rows ++ [row ++ [cell]]) rest
          else None
      end
  end.

Definition parseCsv (input : string) : option (list (list string)) :=
  match input with
  | EmptyString => Some []
  | _ => readCsv CellStart EmptyString [] [] input
  end.

(** A table of two rows whose cells hold quotes, commas and a line
    break. *)
Definition sampleTable : list (list string) :=
  [["a,b"%string; String ExcelReporter.quote "quoted"%string];
   [ExcelReporter.newline; EmptyString]].

(** The extensions the categories of a policy declare, in order. *)
Definition declaredExtensions (cfg : Config.t) : list string :=
  concat (map (fun kv => Config.extensions (snd kv))
            (Config.fileCategories cfg)).

(** No string occurs twice in the list. *)
Fixpoint distinct (l : list string) : bool :=
  match l with
  | [] => true
  | x :: rest => negb (existsb (String.eqb x) rest) && distinct rest
  end.

(** The configuration whose policy text declares the categories
    [declared], in that order: parsing keeps the order of the text as
    the insertion order, and the code iterates the [Object.entries] of
    the object. *)
Definition policyOf (declared : Js.object Config.CategoryConfig) : Config.t :=
  {| Config.fileCategories := Js.entries declared;
     Config.sizeCategories := Config.sizeCategories Config.shipped;
     Config.excludePaths := Config.excludePaths Config.shipped;
     Config.scanPaths := Config.scanPaths Config.shipped |}.

(** Array-index names in ascending order. *)
Definition byIndex {V : Type} (a b : string * V) : Prop :=
  (Js.indexOf a <= Js.indexOf b)%N.

(** A policy in which ".pdf" is listed by two categories with names
    that are no array indices. *)
Definition overlapDeclared : Js.object Config.CategoryConfig :=
  [("文档类"%string,
    Config.category [".pdf"%string; ".txt"%string] "#4472C4" "文档");
   ("电子书"%string,
    Config.category [".pdf"%string; ".epub"%string] "#70AD47" "电子书");
   ("其他类"%string, Config.category [] "#B2B2B2" "其他")].

(** A policy in which ".pdf" is listed first by "文档类" and then by a
    category whose name is the numeral 7. *)
Definition numberedDeclared : Js.object Config.CategoryConfig :=
  [("文档类"%string,
    Config.category [".pdf"%string; ".txt"%string] "#4472C4" "文档");
   ("7"%string, Config.category [".pdf"%string] "#70AD47" "第七类");
   ("其他类"%string, Config.category [] "#B2B2B2" "其他")].

(** * Properties *)

(** ** Size ranges *)

Local Ltac settle_comparisons :=
  repeat match goal with
    | |- context [(?a >=? ?b)] => rewrite (Z.geb_leb a b)
    | |- context [(?a <=? ?b)] =>
        first [ rewrite (proj2 (Z.leb_le a b)) by lia
              | rewrite (proj2 (Z.leb_gt a b)) by lia ]
    | |- context [(?a =? ?b)] =>
        first [ rewrite (proj2 (Z.eqb_eq a b)) by lia
              | rewrite (proj2 (Z.eqb_neq a b)) by lia ]
    | |- context [(?a <? ?b)] =>
        first [ rewrite (proj2 (Z.ltb_lt a b)) by lia
              | rewrite (proj2 (Z.ltb_ge a b)) by lia ]
    end.

(** A size lies at a shared bound or strictly between two of them. *)
Lemma size_position (sz : Z) :
  0 <= sz ->
  sz < 1024 \/ sz = 1024 \/ 1024 < sz < 1048576 \/ sz = 1048576
  \/ 1048576 < sz < 104857600 \/ sz = 104857600
  \/ 104857600 < sz < 1073741824 \/ sz = 1073741824 \/ 1073741824 < sz.
Proof. lia. Qed.

(** Every size from 0 on is taken by a range of the shipped table, by
    two of them at a shared bound and by one elsewhere. *)
Lemma shipped_ranges_cover (sz : Z) :
  0 <= sz ->
  List.length (matchingRanges Config.shipped sz)
  = if sharedBound sz then 2%nat else 1%nat.
Proof.
  intros Hsz. unfold matchingRanges, sharedBound, FileScanner.inRange.
  cbn [Config.shipped Config.sizeCategories Config.range filter map fst snd
       Config.min Config.max].
  destruct (size_position sz Hsz) as [H|[H|[H|[H|[H|[H|[H|[H|H]]]]]]]];
    settle_comparisons; reflexivity.
Qed.

(** Away from the shared bounds the rule of [fileScanner.js] and the
    rule of [main.js] pick the range of the same rank. *)
Lemma size_rules_agree_inside (sz : Z) :
  0 <= sz -> sharedBound sz = false ->
  (FileScanner.getSizeCategory (Some Config.shipped) sz,
   Main.getSizeCategory sz)
  = if sz <? 1024 then ("微小"%string, "tiny"%string)
    else if sz <? 1048576 then ("小"%string, "small"%string)
    else if sz <? 104857600 then ("中"%string, "medium"%string)
    else if sz <? 1073741824 then ("大"%string, "large"%string)
    else ("巨大"%string, "huge"%string).
Proof.
  unfold sharedBound, FileScanner.getSizeCategory, Main.getSizeCategory.
  cbn [Config.shipped Config.sizeCategories FileScanner.firstRange].
  unfold FileScanner.inRange.
  cbn [Config.range Config.min Config.max].
  intros Hsz.
  destruct (size_position sz Hsz) as [H|[H|[H|[H|[H|[H|[H|[H|H]]]]]]]];
    settle_comparisons; cbn; intros; try reflexivity; discriminate.
Qed.

(** C2. At size 1024 two ranges of the shipped table match under the
    test of [getSizeCategory], "微小" and "小": the ranges overlap where
    they meet, because the upper bound is tested with [<=]. The rule of
    [main.js] tests it with [<] and has one range there. *)
Theorem two_ranges_match_1024 :
  matchingRanges Config.shipped 1024 = ["微小"; "小"]%string
  /\ FileScanner.getSizeCategory (Some Config.shipped) 1024 = "微小"%string
  /\ Main.getSizeCategory 1024 = "small"%string.
Proof. repeat split; reflexivity. Qed.

(** C3. A file of exactly 1048576 bytes is labelled "小", the range
    whose upper bound is 1048576, and not "中", the range whose lower
    bound is 1048576; the rule of [main.js] puts it in the third range. *)
Theorem boundary_1048576_is_small :
  FileScanner.getSizeCategory (Some Config.shipped) 1048576 = "小"%string
  /\ matchingRanges Config.shipped 1048576 = ["小"; "中"]%string
  /\ Main.getSizeCategory 1048576 = "medium"%string.
Proof. repeat split; reflexivity. Qed.

(** ** The rule table of [classifyFile] *)

Lemma existsb_eqb_In (x : string) (l : list string) :
  existsb (String.eqb x) l = true <-> In x l.
Proof.
  rewrite existsb_exists. split.
  - intros [y [Hy Heq]]. apply String.eqb_eq in Heq. now subst.
  - intros Hin. exists x. split; [assumption | apply String.eqb_refl].
Qed.

Lemma firstCategory_first_declared (ext : string)
  (cats : list (string * Config.CategoryConfig)) :
  FirstDeclared ext cats (FileClassifier.firstCategory ext cats).
Proof.
  induction cats as [|[nm cc] rest IH]; cbn.
  - right. split; [reflexivity | intros kv []].
  - destruct (existsb (String.eqb ext) (Config.extensions cc)) eqn:Hhit.
    + left. exists [], cc, rest. repeat split.
      * now apply existsb_eqb_In.
      * intros kv [].
    + assert (Hmiss : ~ In ext (Config.extensions cc)).
      { intros Hin. apply existsb_eqb_In in Hin. congruence. }
      destruct IH as [(before & cc' & after & Heq & Hin & Hbefore) | [Heq Hnone]].
      * left. exists ((nm, cc) :: before), cc', after. repeat split.
        -- cbn. now rewrite Heq at 1.
        -- assumption.
        -- intros kv [<- | Hkv]; [assumption | now apply Hbefore].
      * right. split; [assumption |].
        intros kv [<- | Hkv]; [assumption | now apply Hnone].
Qed.

(** The rule table gives one category only. *)
Lemma FirstDeclared_unique (ext : string)
  (cats : list (string * Config.CategoryConfig)) (c c' : string) :
  FirstDeclared ext cats c -> FirstDeclared ext cats c' -> c = c'.
Proof.
  revert c c'.
  assert (Hhead : forall before before' (x x' : string * Config.CategoryConfig)
                         after after',
             before ++ x :: after = before' ++ x' :: after' ->
             In ext (Config.extensions (snd x)) ->
             In ext (Config.extensions (snd x')) ->
             (forall kv, In kv before -> ~ In ext (Config.extensions (snd kv))) ->
             (forall kv, In kv before' -> ~ In ext (Config.extensions (snd kv))) ->
             x = x').
  { induction before as [|b before IH]; intros [|b' before'] x x' after after'
      Heq Hx Hx' Hb Hb'; cbn in Heq; injection Heq as Hhd Htl.
    - assumption.
    - subst b'. exfalso. apply (Hb' x); [now left | assumption].
    - subst b. exfalso. apply (Hb x'); [now left | assumption].
    - apply (IH before' x x' after after' Htl Hx Hx').
      + intros kv Hkv. apply Hb. now right.
      + intros kv Hkv. apply Hb'. now right. }
  intros c c' [(b & cc & a & Heq & Hin & Hb) | [-> Hnone]]
    [(b' & cc' & a' & Heq' & Hin' & Hb') | [-> Hnone']].
  - rewrite Heq in Heq'.
    assert (Hx := Hhead b b' (c, cc) (c', cc') a a' Heq' Hin Hin' Hb Hb').
    congruence.
  - exfalso. apply (Hnone' (c, cc)); [|assumption].
    rewrite Heq. apply in_elt.
  - exfalso. apply (Hnone (c', cc')); [|assumption].
    rewrite Heq'. apply in_elt.
  - reflexivity.
Qed.

(** [classifyFile] over the list of categories a configuration holds:
    "其他类" for a record whose extension is absent or empty, and else
    the first category of the list whose extensions hold the
    lower-cased extension, "其他类" when none does. *)
Lemma classifyFile_first_listed (cfg : Config.t)
  (toLowerCase : string -> string) (file : FileRecord) :
  (Js.truthy (extension file) = false ->
   FileClassifier.classifyFile (Some cfg) toLowerCase file
   = Js.Normal otherCategory)
  /\ (forall s, extension file = Js.Str s -> s <> EmptyString ->
      exists c,
        FileClassifier.classifyFile (Some cfg) toLowerCase file = Js.Normal c
        /\ FirstDeclared (toLowerCase s) (Config.fileCategories cfg) c)
  /\ (forall s before first cc1 between second cc2 after,
      extension file = Js.Str s -> s <> EmptyString ->
      Config.fileCategories cfg
      = before ++ (first, cc1) :: between ++ (second, cc2) :: after ->
      In (toLowerCase s) (Config.extensions cc1) ->
      In (toLowerCase s) (Config.extensions cc2) ->
      (forall kv, In kv before ->
                  ~ In (toLowerCase s) (Config.extensions (snd kv))) ->
      FileClassifier.classifyFile (Some cfg) toLowerCase file
      = Js.Normal first).
Proof.
  assert (Hstr : forall s, extension file = Js.Str s -> s <> EmptyString ->
            FileClassifier.classifyFile (Some cfg) toLowerCase file
            = Js.Normal
                (FileClassifier.firstCategory (toLowerCase s)
                   (Config.fileCategories cfg))).
  { intros s Hs Hne. unfold FileClassifier.classifyFile. rewrite Hs. cbn.
    apply String.eqb_neq in Hne. rewrite Hne. reflexivity. }
  split; [|split].
  - intros Hfalsy. unfold FileClassifier.classifyFile. now rewrite Hfalsy.
  - intros s Hs Hne. eexists. split; [exact (Hstr s Hs Hne) |].
    apply firstCategory_first_declared.
  - intros s before first cc1 between second cc2 after Hs Hne Hcats Hin1 _
      Hbefore.
    rewrite (Hstr s Hs Hne). f_equal.
    apply (FirstDeclared_unique (toLowerCase s) (Config.fileCategories cfg)).
    + apply firstCategory_first_declared.
    + left. exists before, cc1, (between ++ (second, cc2) :: after).
      repeat split; assumption.
Qed.

(** ** Deduplication *)

Lemma Subseq_In {A : Type} (l l' : list A) (x : A) :
  Subseq l l' -> In x l -> In x l'.
Proof.
  induction 1 as [|y l l' _ IH|y l l' _ IH]; cbn; intros Hin.
  - assumption.
  - destruct Hin as [-> | Hin]; [now left | right; now apply IH].
  - right. now apply IH.
Qed.

Lemma seen_In (k : string) (seen : list string) :
  existsb (fun k' => String.eqb k' k) seen = true <-> In k seen.
Proof.
  rewrite existsb_exists. split.
  - intros [k' [Hin Heq]]. apply String.eqb_eq in Heq. now subst.
  - intros Hin. exists k. split; [assumption | apply String.eqb_refl].
Qed.

Lemma mapHas_seen (k : string) (m : list (string * FileRecord)) :
  FileScanner.mapHas k m = existsb (fun k' => String.eqb k' k) (map fst m).
Proof.
  unfold FileScanner.mapHas. induction m as [|kv m IH]; cbn; [reflexivity|].
  now rewrite IH.
Qed.

(** The loop of [removeDuplicates] appends the first-seen records. *)
Lemma removeDuplicates_loop (files : list FileRecord)
  (m : list (string * FileRecord)) :
  fold_left
    (fun m file =>
       let key := FileScanner.dedupKey file in
       if FileScanner.mapHas key m then m else m ++ [(key, file)])
    files m
  = m ++ map (fun f => (FileScanner.dedupKey f, f))
           (firstSeen (map fst m) files).
Proof.
  revert m. induction files as [|f rest IH]; intros m; cbn.
  - now rewrite app_nil_r.
  - rewrite mapHas_seen.
    destruct (existsb _ (map fst m)) eqn:Hseen.
    + apply IH.
    + rewrite IH, map_app, <- app_assoc. reflexivity.
Qed.

Lemma removeDuplicates_firstSeen (files : list FileRecord) :
  FileScanner.removeDuplicates files = firstSeen [] files.
Proof.
  unfold FileScanner.removeDuplicates. rewrite removeDuplicates_loop. cbn.
  rewrite map_map. cbn. apply map_id.
Qed.

Lemma firstSeen_Subseq (seen : list string) (files : list FileRecord) :
  Subseq (firstSeen seen files) files.
Proof.
  revert seen. induction files as [|f rest IH]; intros seen; cbn.
  - constructor.
  - destruct (existsb _ seen); constructor; apply IH.
Qed.

Lemma firstSeen_fresh (seen : list string) (files : list FileRecord) :
  NoDup (map FileScanner.dedupKey (firstSeen seen files))
  /\ forall f, In f (firstSeen seen files) ->
               ~ In (FileScanner.dedupKey f) seen.
Proof.
  revert seen. induction files as [|f rest IH]; intros seen; cbn.
  - split; [constructor | intros f []].
  - destruct (existsb _ seen) eqn:Hseen; [apply IH|].
    destruct (IH (seen ++ [FileScanner.dedupKey f])) as [Hnd Hfresh].
    assert (Hf : ~ In (FileScanner.dedupKey f) seen).
    { intros Hin. apply seen_In in Hin. congruence. }
    split.
    + cbn. constructor; [|assumption].
      intros Hin. apply in_map_iff in Hin. destruct Hin as [g [Hk Hg]].
      apply (Hfresh g Hg). rewrite Hk. apply in_or_app. right. now left.
    + intros g [<- | Hg]; [assumption|].
      intros Hin. apply (Hfresh g Hg). apply in_or_app. now left.
Qed.

Lemma firstSeen_skips_seen (seen : list string) (files : list FileRecord)
  (file : FileRecord) :
  In (FileScanner.dedupKey file) seen ->
  filter (sameKey file) (firstSeen seen files) = [].
Proof.
  intros Hin.
  destruct (filter (sameKey file) (firstSeen seen files)) as [|g l] eqn:Hf;
    [reflexivity|].
  assert (Hg : In g (filter (sameKey file) (firstSeen seen files))).
  { rewrite Hf. now left. }
  apply filter_In in Hg. destruct Hg as [Hg Hkey].
  apply String.eqb_eq in Hkey.
  destruct (firstSeen_fresh seen files) as [_ Hfresh].
  exfalso. apply (Hfresh g Hg). now rewrite Hkey.
Qed.

(** Of the records with one key, the first of the list is the one kept. *)
Lemma firstSeen_keeps_first (seen : list string) (files : list FileRecord)
  (file : FileRecord) :
  In file files -> ~ In (FileScanner.dedupKey file) seen ->
  exists first,
    find (sameKey file) files = Some first
    /\ filter (sameKey file) (firstSeen seen files) = [first].
Proof.
  revert seen. induction files as [|f rest IH]; intros seen Hin Hfresh;
    [destruct Hin|].
  cbn [find firstSeen].
  destruct (sameKey file f) eqn:Hsame.
  - exists f. split; [reflexivity|].
    unfold sameKey in Hsame. apply String.eqb_eq in Hsame.
    destruct (existsb _ seen) eqn:Hseen.
    + apply seen_In in Hseen. rewrite Hsame in Hseen. contradiction.
    + cbn [filter]. unfold sameKey at 1. rewrite Hsame, String.eqb_refl.
      f_equal. apply firstSeen_skips_seen.
      apply in_or_app. right. left. reflexivity.
  - assert (Hrest : In file rest).
    { destruct Hin as [-> | Hin]; [|assumption].
      unfold sameKey in Hsame. rewrite String.eqb_refl in Hsame.
      discriminate. }
    destruct (existsb _ seen) eqn:Hseen.
    + apply IH; assumption.
    + cbn [filter]. rewrite Hsame. apply IH; [assumption|].
      intros Hin'. apply in_app_or in Hin'. destruct Hin' as [Hin' | [Hk | []]].
      * contradiction.
      * unfold sameKey in Hsame. rewrite Hk, String.eqb_refl in Hsame.
        discriminate.
Qed.

Lemma firstSeen_all_distinct (seen : list string) (files : list FileRecord) :
  NoDup (map FileScanner.dedupKey files) ->
  (forall f, In f files -> ~ In (FileScanner.dedupKey f) seen) ->
  firstSeen seen files = files.
Proof.
  revert seen. induction files as [|f rest IH]; intros seen Hnd Hfresh; cbn;
    [reflexivity|].
  cbn in Hnd. apply NoDup_cons_iff in Hnd. destruct Hnd as [Hf Hnd].
  destruct (existsb _ seen) eqn:Hseen.
  - apply seen_In in Hseen. exfalso. apply (Hfresh f); [now left | assumption].
  - f_equal. apply IH; [assumption|].
    intros g Hg Hin. apply in_app_or in Hin. destruct Hin as [Hin | [Hk | []]].
    + apply (Hfresh g); [now right | assumption].
    + apply Hf. rewrite Hk. now apply in_map.
Qed.

Lemma removeDuplicates_Subseq (files : list FileRecord) :
  Subseq (FileScanner.removeDuplicates files) files.
Proof. rewrite removeDuplicates_firstSeen. apply firstSeen_Subseq. Qed.



(** ** The cutoff filter of the walker *)

(** Induction on an entry with the entries of its listing. *)
Lemma Entry_listing_ind (P : FileScanner.Entry -> Prop) :
  (forall item, P (FileScanner.FileEntry item)) ->
  (forall item listing,
      match listing with
      | Some items => Forall P items
      | None => True
      end ->
      P (FileScanner.DirectoryEntry item listing)) ->
  (forall item, P (FileScanner.OtherEntry item)) ->
  forall e, P e.
Proof.
  intros Hfile Hdir Hother.
  fix IH 1. intros [item | item listing | item].
  - apply Hfile.
  - apply Hdir. destruct listing as [items|]; [|exact I].
    induction items as [|x items IHitems]; constructor.
    + apply IH.
    + apply IHitems.
  - apply Hother.
Qed.

Lemma isRecentFile_Recent (file : FileRecord) (cutoffDate : Z) :
  FileScanner.isRecentFile file cutoffDate = true <-> Recent cutoffDate file.
Proof.
  unfold FileScanner.isRecentFile, Recent.
  rewrite orb_true_iff, !Z.geb_leb, !Z.leb_le. lia.
Qed.

Section Walker.

Variable config : option Config.t.
Variables normalize toLowerCase expandPath : string -> string.
Variable fsStat : string -> option (Z * Z).
Variable mathRandom : nat -> string.
Variable cutoffDate : Z.

Let detail := FileScanner.getDetailedFileInfo config fsStat mathRandom.
Let step := FileScanner.scanItem config normalize toLowerCase fsStat
              mathRandom cutoffDate.
Let listing_scan :=
  FileScanner.scanListing config normalize toLowerCase.

(** [getDetailedFileInfo] keeps the times of the basic record. *)
Lemma getDetailedFileInfo_times (info : FileRecord) (draws : nat) :
  createdTime (fst (detail info draws)) = createdTime info
  /\ modifiedTime (fst (detail info draws)) = modifiedTime info.
Proof.
  unfold detail, FileScanner.getDetailedFileInfo.
  destruct (FileScanner.calculateFileHash fsStat mathRandom (path info) draws)
    as [h draws'].
  destruct (extension info); cbn; split; reflexivity.
Qed.

Lemma scanListing_recent
  (one : FileScanner.Entry ->
         list FileRecord * nat -> list FileRecord * nat)
  (directoryPath : string) (listing : option (list FileScanner.Entry))
  (draws : nat) :
  match listing with
  | Some items =>
      Forall (fun item => forall files n,
                  Forall (Recent cutoffDate) files ->
                  Forall (Recent cutoffDate) (fst (one item (files, n))))
        items
  | None => True
  end ->
  Forall (Recent cutoffDate)
    (fst (listing_scan one directoryPath listing draws)).
Proof.
  unfold listing_scan, FileScanner.scanListing. intros Hitems.
  destruct (FileScanner.shouldExcludePath _ _ _ _); [constructor|].
  destruct listing as [items|]; [|constructor].
  assert (Hgen : forall st,
             Forall (Recent cutoffDate) (fst st) ->
             Forall (Recent cutoffDate)
               (fst (fold_left (fun st item => one item st) items st))).
  { induction Hitems as [|item items Hitem _ IH]; intros [files n] Hst; cbn.
    - assumption.
    - apply IH. now apply Hitem. }
  apply Hgen. constructor.
Qed.

Lemma scanItem_recent (item : FileScanner.Entry) :
  forall depth files draws,
    Forall (Recent cutoffDate) files ->
    Forall (Recent cutoffDate) (fst (step depth item (files, draws))).
Proof.
  induction item as [info | info listing IH | info] using Entry_listing_ind;
    intros depth files draws Hfiles; cbn.
  - destruct (FileScanner.isRecentFile info cutoffDate) eqn:Hrecent;
      [|assumption].
    pose proof (getDetailedFileInfo_times info draws) as [Hc Hm].
    fold detail. destruct (detail info draws) as [fileInfo draws'].
    cbn in *. apply Forall_app. split; [assumption|].
    constructor; [|constructor].
    apply isRecentFile_Recent in Hrecent. unfold Recent in *.
    rewrite Hc, Hm. assumption.
  - match goal with
    | |- context [if ?b then _ else _] => destruct b; [|assumption]
    end.
    pose proof (scanListing_recent (step (S depth)) (path info) listing draws)
      as Hsub.
    unfold listing_scan, step in Hsub.
    destruct (FileScanner.scanListing _ _ _ _ _ _ _) as [subFiles draws'].
    cbn in *. apply Forall_app. split; [assumption|].
    apply Hsub. destruct listing as [items|]; [|exact I].
    eapply Forall_impl; [|exact IH].
    intros item Hitem fs n. apply Hitem.
  - assumption.
Qed.

Lemma scanDirectory_recent (directoryPath : string)
  (listing : option (list FileScanner.Entry)) (depth draws : nat) :
  Forall (Recent cutoffDate)
    (fst (FileScanner.scanDirectory config normalize toLowerCase fsStat
            mathRandom directoryPath listing cutoffDate depth draws)).
Proof.
  unfold FileScanner.scanDirectory. apply scanListing_recent.
  destruct listing as [items|]; [|exact I].
  apply Forall_forall. intros item _ files n. apply scanItem_recent.
Qed.

(** C6. Every record that [scanDirectory] or [scanRecentFiles] returns
    was created or modified at or after the cutoff date; so no record
    both created and modified before the cutoff is returned. *)
Theorem scanned_files_are_recent (directoryPath : string)
  (listing : option (list FileScanner.Entry)) (depth draws : nat)
  (scanPaths : list FileScanner.Root) (file : FileRecord) :
  In file
    (fst (FileScanner.scanDirectory config normalize toLowerCase fsStat
            mathRandom directoryPath listing cutoffDate depth draws))
  \/ In file
       (FileScanner.scanRecentFiles config normalize toLowerCase expandPath
          fsStat mathRandom cutoffDate scanPaths) ->
  (createdTime file >= cutoffDate \/ modifiedTime file >= cutoffDate)
  /\ ~ (createdTime file < cutoffDate /\ modifiedTime file < cutoffDate).
Proof.
  intros Hin.
  assert (Hrecent : Recent cutoffDate file).
  { destruct Hin as [Hin | Hin].
    - pose proof (scanDirectory_recent directoryPath listing depth draws) as H.
      rewrite Forall_forall in H. now apply H.
    - unfold FileScanner.scanRecentFiles in Hin.
      assert (Hall : forall roots st,
                 Forall (Recent cutoffDate) (fst st) ->
                 Forall (Recent cutoffDate)
                   (fst (fold_left
                           (fun st root =>
                              let '(allFiles, n) := st in
                              let expandedPath :=
                                expandPath (FileScanner.scanPath root) in
                              if FileScanner.pathExists root then
                                let '(files, n') :=
                                  FileScanner.scanDirectory config normalize
                                    toLowerCase fsStat mathRandom expandedPath
                                    (FileScanner.rootListing root) cutoffDate
                                    0 n in
                                (allFiles ++ files, n')
                              else st)
                           roots st))).
      { induction roots as [|root roots IH]; intros [allFiles n] Hst; cbn;
          [assumption|].
        apply IH. destruct (FileScanner.pathExists root); [|assumption].
        pose proof (scanDirectory_recent
                      (expandPath (FileScanner.scanPath root))
                      (FileScanner.rootListing root) 0 n) as Hsub.
        destruct (FileScanner.scanDirectory _ _ _ _ _ _ _ _ _ _)
          as [files n'].
        cbn in *. apply Forall_app. now split. }
      specialize (Hall scanPaths ([], O) (Forall_nil _)).
      destruct (fold_left _ scanPaths _) as [allFiles n]. cbn in Hall.
      rewrite Forall_forall in Hall. apply Hall.
      eapply Subseq_In; [|exact Hin].
      apply removeDuplicates_Subseq. }
  split; [exact Hrecent|]. unfold Recent in Hrecent. lia.
Qed.

End Walker.

(** The scan of the sample tree returns "made.png", created after the
    cutoff 1000. *)
Lemma scanned_files_are_recent_witness :
  (createdTime (nth 1 sampleScan Sample.e_txt) >= 1000
   \/ modifiedTime (nth 1 sampleScan Sample.e_txt) >= 1000)
  /\ ~ (createdTime (nth 1 sampleScan Sample.e_txt) < 1000
        /\ modifiedTime (nth 1 sampleScan Sample.e_txt) < 1000).
Proof.
  apply (scanned_files_are_recent (Some Config.shipped) Sample.normalize
           Sample.toLowerCase Sample.expandPath sampleStat sampleRandom 1000
           EmptyString None 0 0 [sampleRoot]).
  right. vm_compute. right. left. reflexivity.
Defined.

(** ** Plain objects *)

Section ObjectFacts.

Context {V : Type}.
Implicit Types (o : Js.object V) (k : string) (v : V).

Lemma get_None_iff k o : Js.get k o = None <-> ~ In k (map fst o).
Proof.
  induction o as [|[k' v'] o IH]; cbn.
  - split; [intros _ [] | reflexivity].
  - destruct (String.eqb_spec k k') as [-> | Hne].
    + split; [discriminate | intros H; exfalso; apply H; now left].
    + rewrite IH. split.
      * intros H [Heq | Hin]; [congruence | contradiction].
      * intros H Hin. apply H. now right.
Qed.

Lemma set_absent k v o :
  ~ In k (map fst o) -> Js.set k v o = o ++ [(k, v)].
Proof.
  induction o as [|[k' v'] o IH]; cbn; intros Hnot; [reflexivity|].
  destruct (String.eqb_spec k k') as [-> | Hne].
  - exfalso. apply Hnot. now left.
  - f_equal. apply IH. intros Hin. apply Hnot. now right.
Qed.

(** Writing a key of an object built over distinct keys changes the
    value at that key alone. *)
Lemma set_over_keys k v (g : string -> V) (ks : list string) :
  NoDup ks -> In k ks ->
  Js.set k v (map (fun c => (c, g c)) ks)
  = map (fun c => (c, if String.eqb c k then v else g c)) ks.
Proof.
  induction ks as [|c ks IH]; cbn; intros Hnd Hin; [destruct Hin|].
  apply NoDup_cons_iff in Hnd. destruct Hnd as [Hc Hnd].
  rewrite (String.eqb_sym c k).
  destruct (String.eqb_spec k c) as [-> | Hne].
  - f_equal. apply map_ext_in. intros c' Hc'.
    destruct (String.eqb_spec c' c) as [-> | _]; [contradiction | reflexivity].
  - f_equal. apply IH; [assumption|].
    destruct Hin as [Heq | Hin]; [congruence | assumption].
Qed.

Lemma get_over_keys k (g : string -> V) (ks : list string) :
  Js.get k (map (fun c => (c, g c)) ks)
  = if existsb (String.eqb k) ks then Some (g k) else None.
Proof.
  induction ks as [|c ks IH]; cbn; [reflexivity|].
  destruct (String.eqb_spec k c) as [-> | Hne]; cbn; [reflexivity | exact IH].
Qed.

Lemma insertByIndex_Permutation (kv : string * V) (l : list (string * V)) :
  Permutation (Js.insertByIndex kv l) (kv :: l).
Proof.
  induction l as [|kv' l IH]; cbn; [reflexivity|].
  destruct (Js.indexOf kv <=? Js.indexOf kv')%N; [reflexivity|].
  rewrite IH. apply perm_swap.
Qed.

Lemma sortByIndex_Permutation (l : list (string * V)) :
  Permutation (Js.sortByIndex l) l.
Proof.
  induction l as [|kv l IH]; cbn; [reflexivity|].
  rewrite insertByIndex_Permutation. now apply perm_skip.
Qed.

Lemma filter_split_Permutation {A : Type} (f : A -> bool) (l : list A) :
  Permutation (filter f l ++ filter (fun x => negb (f x)) l) l.
Proof.
  induction l as [|x l IH]; cbn; [reflexivity|].
  destruct (f x); cbn.
  - now apply perm_skip.
  - rewrite <- Permutation_middle. now apply perm_skip.
Qed.

(** [Object.entries] lists the own properties, each once. *)
Lemma entries_Permutation o : Permutation (Js.entries o) o.
Proof.
  unfold Js.entries. rewrite sortByIndex_Permutation.
  apply filter_split_Permutation.
Qed.

End ObjectFacts.

Lemma concat_Permutation {A : Type} (l l' : list (list A)) :
  Permutation l l' -> Permutation (concat l) (concat l').
Proof.
  induction 1 as [|x l l' _ IH|x y l|l l' l'' _ IH1 _ IH2]; cbn.
  - reflexivity.
  - now apply Permutation_app_head.
  - rewrite !app_assoc. apply Permutation_app_tail, Permutation_app_comm.
  - now transitivity (concat l').
Qed.

(** Appending a record to one value of an object adds it to the
    concatenation of the values. *)
Lemma concat_set_append {A : Type} (k : string) (l : list A) (x : A)
  (o : Js.object (list A)) :
  Js.get k o = Some l ->
  Permutation (concat (map snd (Js.set k (l ++ [x]) o)))
    (x :: concat (map snd o)).
Proof.
  induction o as [|[k' v'] o IH]; cbn; [discriminate|].
  destruct (String.eqb_spec k k') as [-> | Hne]; cbn.
  - intros [= ->]. rewrite <- app_assoc. cbn.
    symmetry. apply Permutation_middle.
  - intros Hget. rewrite (IH Hget). symmetry. apply Permutation_middle.
Qed.

(** ** The loop of [classifyFiles] *)

Section Classification.

Variable cfg : Config.t.
Variable toLowerCase : string -> string.

Let names := map fst (Config.fileCategories cfg).
Let catOf := categoryOf cfg toLowerCase.
Let objectOf := categoriesOf cfg toLowerCase.

Lemma firstCategory_declared (ext : string)
  (cats : list (string * Config.CategoryConfig)) :
  FileClassifier.firstCategory ext cats = otherCategory
  \/ In (FileClassifier.firstCategory ext cats) (map fst cats).
Proof.
  induction cats as [|[nm cc] rest IH]; cbn; [now left|].
  destruct (existsb _ _); [right; now left|].
  destruct IH as [IH | IH]; [now left | right; now right].
Qed.

Lemma classifyFile_declared (file : FileRecord) (c : string) :
  FileClassifier.classifyFile (Some cfg) toLowerCase file = Js.Normal c ->
  c = otherCategory \/ In c names.
Proof.
  unfold FileClassifier.classifyFile.
  destruct (negb (Js.truthy (extension file))); [intros [= <-]; now left|].
  destruct (extension file) as [|s|n]; try discriminate.
  intros [= <-]. apply firstCategory_declared.
Qed.

(** The object [classifyFiles] starts from holds an empty list under
    every category name of the policy, each name once. *)
Lemma initial_categories (ns ks0 : list string) :
  NoDup ks0 ->
  exists ks,
    NoDup ks
    /\ (forall k, In k ks <-> In k ks0 \/ In k ns)
    /\ fold_left (fun cats categoryName => Js.set categoryName [] cats) ns
         (map (fun c => (c, @nil FileRecord)) ks0)
       = map (fun c => (c, [])) ks.
Proof.
  revert ks0. induction ns as [|n ns IH]; intros ks0 Hnd; cbn.
  - exists ks0. repeat split; try assumption; tauto.
  - destruct (in_dec string_dec n ks0) as [Hin | Hnot].
    + rewrite (set_over_keys n [] (fun _ => []) ks0 Hnd Hin).
      rewrite (map_ext _ (fun c => (c, @nil FileRecord)))
        by (intros c; now destruct (String.eqb c n)).
      destruct (IH ks0 Hnd) as (ks & Hks & Hiff & Heq).
      exists ks. repeat split; try assumption.
      * intros Hk. apply Hiff in Hk. tauto.
      * intros [Hk | [<- | Hk]]; apply Hiff; tauto.
    + rewrite set_absent by (now rewrite map_map, map_id).
      assert (Hnd' : NoDup (ks0 ++ [n])).
      { apply NoDup_app; [assumption | repeat constructor; intros [] |].
        intros k Hk [<- | []]. contradiction. }
      destruct (IH (ks0 ++ [n]) Hnd') as (ks & Hks & Hiff & Heq).
      exists ks. repeat split.
      * assumption.
      * intros Hk. apply Hiff in Hk. rewrite in_app_iff in Hk. cbn in Hk.
        tauto.
      * intros Hk. apply Hiff. rewrite in_app_iff. cbn. tauto.
      * rewrite <- Heq, map_app. reflexivity.
Qed.

Lemma membersOf_snoc (c : string) (processed : list FileRecord)
  (file : FileRecord) :
  membersOf cfg toLowerCase c (processed ++ [file])
  = membersOf cfg toLowerCase c processed
      ++ (if String.eqb c (catOf file) then [assigned cfg toLowerCase file]
          else []).
Proof.
  unfold membersOf, catOf. rewrite filter_app, map_app. cbn.
  rewrite (String.eqb_sym c). now destruct (String.eqb _ c).
Qed.

Lemma objectOf_snoc (ks : list string) (processed : list FileRecord)
  (file : FileRecord) :
  NoDup ks -> In (catOf file) ks ->
  Js.set (catOf file)
    (membersOf cfg toLowerCase (catOf file) processed
       ++ [assigned cfg toLowerCase file])
    (objectOf ks processed)
  = objectOf ks (processed ++ [file]).
Proof.
  intros Hnd Hin. unfold objectOf, categoriesOf.
  rewrite (set_over_keys _ _ (fun c => membersOf cfg toLowerCase c processed)
             ks Hnd Hin).
  apply map_ext. intros c. rewrite membersOf_snoc. fold catOf.
  destruct (String.eqb_spec c (catOf file)) as [-> | Hne];
    [reflexivity | now rewrite app_nil_r].
Qed.

Lemma get_objectOf (ks : list string) (processed : list FileRecord)
  (c : string) :
  Js.get c (objectOf ks processed)
  = if existsb (String.eqb c) ks
    then Some (membersOf cfg toLowerCase c processed) else None.
Proof.
  unfold objectOf, categoriesOf.
  apply (get_over_keys c (fun c => membersOf cfg toLowerCase c processed)).
Qed.

Lemma pushTo_objectOf (ks : list string) (processed : list FileRecord)
  (file : FileRecord) :
  NoDup ks ->
  FileClassifier.pushTo (catOf file) (assigned cfg toLowerCase file)
    (objectOf ks processed)
  = if existsb (String.eqb (catOf file)) ks
    then Js.Normal (objectOf ks (processed ++ [file]))
    else Js.Throw (Js.TypeError "Cannot read properties of undefined").
Proof.
  intros Hnd. unfold FileClassifier.pushTo. rewrite get_objectOf.
  destruct (existsb (String.eqb (catOf file)) ks) eqn:Hin; [|reflexivity].
  apply existsb_eqb_In in Hin. now rewrite objectOf_snoc.
Qed.

(** One round of the loop: the record goes under its category when the
    object has that key, and the round throws when it has not. *)
Lemma classifyOne_objectOf (ks : list string) (processed : list FileRecord)
  (file : FileRecord) (total : Z) :
  NoDup ks -> (forall n, In n names -> In n ks) ->
  (In (catOf file) ks ->
   exists total',
     FileClassifier.classifyOne (Some cfg) toLowerCase file
       (objectOf ks processed, total)
     = Js.Normal (objectOf ks (processed ++ [file]), total'))
  /\ (~ In (catOf file) ks ->
      exists e,
        FileClassifier.classifyOne (Some cfg) toLowerCase file
          (objectOf ks processed, total)
        = Js.Throw e).
Proof.
  intros Hnd Hnames.
  pose proof (pushTo_objectOf ks processed file Hnd) as Hpush.
  unfold FileClassifier.classifyOne.
  unfold catOf, assigned, categoryOf in *.
  pose proof (classifyFile_declared file) as Hdecl.
  destruct (FileClassifier.classifyFile (Some cfg) toLowerCase file)
    as [c | e]; cbn -[otherCategory].
  - split; intros Hin.
    + apply existsb_eqb_In in Hin. rewrite Hpush, Hin. cbn. eauto.
    + assert (Hc : c = otherCategory).
      { destruct (Hdecl c eq_refl) as [Hc | Hc]; [assumption|].
        exfalso. apply Hin. now apply Hnames. }
      subst c.
      assert (Hmiss : existsb (String.eqb otherCategory) ks = false).
      { destruct (existsb _ ks) eqn:Hex; [|reflexivity].
        apply existsb_eqb_In in Hex. contradiction. }
      rewrite Hpush, Hmiss. cbn. eauto.
  - split; intros Hin.
    + apply existsb_eqb_In in Hin. rewrite Hpush, Hin. cbn. eauto.
    + assert (Hmiss : existsb (String.eqb otherCategory) ks = false).
      { destruct (existsb _ ks) eqn:Hex; [|reflexivity].
        apply existsb_eqb_In in Hex. contradiction. }
      rewrite Hpush, Hmiss. cbn. eauto.
Qed.

Lemma classifyAll_objectOf (ks : list string) :
  NoDup ks -> (forall n, In n names -> In n ks) ->
  forall rest processed total,
    ((forall file, In file rest -> In (catOf file) ks) ->
     exists total',
       FileClassifier.classifyAll (Some cfg) toLowerCase rest
         (objectOf ks processed, total)
       = Js.Normal (objectOf ks (processed ++ rest), total'))
    /\ (forall st,
         FileClassifier.classifyAll (Some cfg) toLowerCase rest
           (objectOf ks processed, total) = Js.Normal st ->
         forall file, In file rest -> In (catOf file) ks).
Proof.
  intros Hnd Hnames. induction rest as [|f rest IH]; intros processed total.
  - split.
    + intros _. exists total. cbn. now rewrite app_nil_r.
    + intros st _ file [].
  - destruct (classifyOne_objectOf ks processed f total Hnd Hnames)
      as [Hok Hthrow].
    cbn [FileClassifier.classifyAll].
    destruct (in_dec string_dec (catOf f) ks) as [Hin | Hnot].
    + destruct (Hok Hin) as [total1 Hone]. rewrite Hone.
      cbn [Js.bind]. destruct (IH (processed ++ [f]) total1) as [IHok IHst].
      split.
      * intros Hall.
        destruct IHok as [total' Hrest].
        { intros file Hfile. apply Hall. now right. }
        exists total'. rewrite Hrest, <- app_assoc. reflexivity.
      * intros st Hst file [<- | Hfile]; [assumption|].
        now apply (IHst st).
    + destruct (Hthrow Hnot) as [e Hone]. rewrite Hone. cbn [Js.bind].
      split.
      * intros Hall. exfalso. apply Hnot. apply Hall. now left.
      * intros st [=].
Qed.

(** What a result of [classifyFiles] holds: under each category name of
    the policy, the records of that category in scan order. *)
Lemma classifyFiles_Normal (files : list FileRecord)
  (cr : FileClassifier.ClassificationResult) :
  FileClassifier.classifyFiles (Some cfg) toLowerCase files = Js.Normal cr ->
  exists ks,
    NoDup ks
    /\ (forall k, In k ks <-> In k names)
    /\ (forall file, In file files -> In (catOf file) ks)
    /\ FileClassifier.categories cr = objectOf ks files
    /\ FileClassifier.summary cr
       = FileClassifier.generateSummary (Some cfg)
           (FileClassifier.categories cr)
    /\ FileClassifier.totalFiles cr = List.length files
    /\ FileClassifier.statistics cr
       = FileClassifier.generateStatistics (FileClassifier.categories cr).
Proof.
  unfold FileClassifier.classifyFiles.
  destruct (initial_categories names [] (NoDup_nil _)) as (ks & Hnd & Hiff & Hini).
  cbn [map] in Hini. fold names. rewrite Hini.
  assert (Hnames : forall n, In n names -> In n ks).
  { intros n Hn. apply Hiff. now right. }
  destruct (classifyAll_objectOf ks Hnd Hnames files [] 0) as [_ Hst].
  change (map (fun c => (c, [])) ks) with (objectOf ks []).
  destruct (FileClassifier.classifyAll _ _ files _) as [[cats total] | e] eqn:Hall;
    [|discriminate].
  pose proof (Hst _ eq_refl) as Hcats.
  destruct (classifyAll_objectOf ks Hnd Hnames files [] 0) as [Hok _].
  destruct (Hok Hcats) as [total' Heq]. rewrite Heq in Hall.
  injection Hall as <- <-. cbn. intros [= <-]. cbn.
  exists ks. repeat split; try assumption.
  - intros Hk. apply Hiff in Hk. destruct Hk as [[] | Hk]. assumption.
  - intros Hk. apply Hiff. now right.
Qed.

(** With "其他类" among the categories of the policy, [classifyFiles]
    returns a result for every list of records. *)
Lemma classifyFiles_returns (files : list FileRecord) :
  In otherCategory names ->
  exists cr,
    FileClassifier.classifyFiles (Some cfg) toLowerCase files = Js.Normal cr.
Proof.
  intros Hother. unfold FileClassifier.classifyFiles.
  destruct (initial_categories names [] (NoDup_nil _)) as (ks & Hnd & Hiff & Hini).
  cbn [map] in Hini. fold names. rewrite Hini.
  assert (Hnames : forall n, In n names -> In n ks).
  { intros n Hn. apply Hiff. now right. }
  destruct (classifyAll_objectOf ks Hnd Hnames files [] 0) as [Hok _].
  change (map (fun c => (c, [])) ks) with (objectOf ks []).
  destruct Hok as [total' Heq].
  { intros file _. unfold catOf, categoryOf.
    pose proof (classifyFile_declared file) as Hdecl.
    destruct (FileClassifier.classifyFile _ _ file) as [c | e].
    - destruct (Hdecl c eq_refl) as [-> | Hc]; now apply Hnames.
    - now apply Hnames. }
  rewrite Heq. cbn. eauto.
Qed.

End Classification.

(** ** The result of [classifyFiles] *)

Section Partition.

Variable cfg : Config.t.
Variable toLowerCase : string -> string.

Let catOf := categoryOf cfg toLowerCase.
Let objectOf := categoriesOf cfg toLowerCase.

Lemma objectOf_flat (ks : list string) (files : list FileRecord) :
  NoDup ks -> (forall file, In file files -> In (catOf file) ks) ->
  Permutation (concat (map snd (objectOf ks files)))
    (map (assigned cfg toLowerCase) files).
Proof.
  intros Hnd. induction files as [|f files IH] using rev_ind; intros Hall.
  - unfold objectOf, categoriesOf. cbn. clear.
    induction ks as [|c ks IHks]; cbn; [reflexivity | exact IHks].
  - assert (Hf : In (catOf f) ks) by (apply Hall, in_or_app; right; now left).
    unfold objectOf. rewrite <- (objectOf_snoc cfg toLowerCase ks files f Hnd Hf).
    rewrite concat_set_append.
    + rewrite map_app. cbn. rewrite <- Permutation_cons_append.
      apply perm_skip. apply IH. intros file Hfile. apply Hall, in_or_app.
      now left.
    + rewrite get_objectOf.
      apply existsb_eqb_In in Hf. fold catOf. now rewrite Hf.
Qed.

Lemma getAllFiles_flat (cats : Js.object (list FileRecord)) :
  Permutation (FileClassifier.getAllFiles cats) (concat (map snd cats)).
Proof.
  unfold FileClassifier.getAllFiles, Js.values.
  apply concat_Permutation, Permutation_map, entries_Permutation.
Qed.







(** C9. Under a policy with the fallback category, [classifyFiles]
    returns a result and throws nothing, whatever the records; and in
    every result it returns, a record on which [classifyFile] throws
    lies, with its category set to "其他类", in the sequence of
    "其他类". *)
Theorem classifyFiles_catches_failures (files : list FileRecord) :
  (hasOther cfg ->
   exists cr,
     FileClassifier.classifyFiles (Some cfg) toLowerCase files = Js.Normal cr)
  /\ forall cr file e,
      FileClassifier.classifyFiles (Some cfg) toLowerCase files
      = Js.Normal cr ->
      In file files ->
      FileClassifier.classifyFile (Some cfg) toLowerCase file = Js.Throw e ->
      exists l,
        Js.get otherCategory (FileClassifier.categories cr) = Some l
        /\ In (setCategory otherCategory file) l.
Proof.
  split; [apply classifyFiles_returns|].
  intros cr file e Hcr Hfile Hthrow.
  destruct (classifyFiles_Normal cfg toLowerCase files cr Hcr)
    as (ks & Hnd & Hiff & Hall & Hcats & _).
  assert (Hcat : catOf file = otherCategory).
  { unfold catOf, categoryOf. now rewrite Hthrow. }
  exists (membersOf cfg toLowerCase otherCategory files). split.
  - rewrite Hcats, get_objectOf.
    pose proof (Hall file Hfile) as Hin. fold catOf in Hin.
    rewrite Hcat in Hin.
    apply existsb_eqb_In in Hin. now rewrite Hin.
  - unfold membersOf. apply in_map_iff. exists file. split.
    + unfold assigned. fold catOf. now rewrite Hcat.
    + apply filter_In. split; [assumption|].
      fold catOf. rewrite Hcat. apply String.eqb_refl.
Qed.

End Partition.

(** Without the fallback category the handler of the loop throws in
    turn, and [classifyFiles] throws to its caller, as soon as a record
    matches no category. *)
Lemma classifyFiles_throws_without_fallback :
  exists e,
    FileClassifier.classifyFiles (Some documentsOnly) Sample.toLowerCase
      [Sample.a_jpg] = Js.Throw e.
Proof. eexists. vm_compute. reflexivity. Qed.


(** [classifyFile] throws on the record with a numeric extension, and
    the shipped policy puts that record under "其他类". *)
Lemma classifyFiles_catches_failures_witness :
  hasOther Config.shipped
  /\ exists cr,
      Sample.classify [Sample.a_jpg; Sample.odd] = Js.Normal cr
      /\ exists l,
          Js.get otherCategory (FileClassifier.categories cr) = Some l
          /\ In (setCategory otherCategory Sample.odd) l.
Proof.
  assert (Hother : hasOther Config.shipped).
  { vm_compute. do 10 right. left. reflexivity. }
  split; [exact Hother|].
  destruct (classifyFiles_catches_failures Config.shipped Sample.toLowerCase
              [Sample.a_jpg; Sample.odd]) as [Hreturns Hfail].
  destruct (Hreturns Hother) as [cr Hcr].
  exists cr. split; [exact Hcr|].
  apply (Hfail cr Sample.odd
           (Js.TypeError "file.extension.toLowerCase is not a function")).
  - exact Hcr.
  - right. left. reflexivity.
  - reflexivity.
Defined.

(** ** Sorting *)

Section SortFacts.

Variable key : FileRecord -> Z.
Variable cmp : FileRecord -> FileRecord -> Z.
Hypothesis cmp_key : forall x y, (cmp x y >? 0) = (key y <? key x).










End SortFacts.




(** The first records of a sorted arrangement are those of least key. *)
Lemma TopOf_least (n : nat) (key : FileRecord -> Z)
  (src top : list FileRecord) :
  TopOf n key src top ->
  (List.length top = Nat.min n (List.length src))
  /\ exists rest,
      Permutation (top ++ rest) src
      /\ forall a b, In a top -> In b rest -> key a <= key b.
Proof.
  intros (out & (Hperm & Hsorted & _) & ->). split.
  - rewrite length_firstn. now rewrite (Permutation_length Hperm).
  - exists (skipn n out). split; [now rewrite firstn_skipn|].
    clear Hperm. revert n.
    induction Hsorted as [|x out Hs IH Hx]; intros n a b Ha Hb.
    + destruct n; destruct Ha.
    + destruct n as [|n]; [destruct Ha|]. cbn in Ha, Hb.
      destruct Ha as [<- | Ha].
      * rewrite Forall_forall in Hx. apply Hx.
        rewrite <- (firstn_skipn n out). apply in_or_app. now right.
      * now apply (IH n).
Qed.

(** ** The order of the categories *)

Lemma filter_none {A : Type} (f : A -> bool) (l : list A) :
  (forall x, In x l -> f x = false) -> filter f l = [].
Proof.
  induction l as [|x l IH]; cbn; intros H; [reflexivity|].
  rewrite (H x) by now left. apply IH. intros y Hy. apply H. now right.
Qed.

Lemma filter_all {A : Type} (f : A -> bool) (l : list A) :
  (forall x, In x l -> f x = true) -> filter f l = l.
Proof.
  induction l as [|x l IH]; cbn; intros H; [reflexivity|].
  rewrite (H x) by now left. f_equal. apply IH. intros y Hy. apply H.
  now right.
Qed.

Lemma distinct_NoDup (l : list string) : distinct l = true -> NoDup l.
Proof.
  induction l as [|x l IH]; cbn; [constructor|].
  intros H. apply andb_true_iff in H. destruct H as [Hx Hl].
  constructor; [|now apply IH].
  intros Hin. apply existsb_eqb_In in Hin. rewrite Hin in Hx. discriminate.
Qed.

Section EnumerationFacts.

Context {V : Type}.

Lemma insertByIndex_sorted (kv : string * V) (l : list (string * V)) :
  StronglySorted byIndex l -> StronglySorted byIndex (Js.insertByIndex kv l).
Proof.
  induction 1 as [|kv' l Hsorted IH Hkv']; cbn [Js.insertByIndex].
  - repeat constructor.
  - destruct (N.leb_spec (Js.indexOf kv) (Js.indexOf kv')) as [Hle | Hgt].
    + constructor; [now constructor|].
      constructor; [exact Hle|].
      eapply Forall_impl; [|exact Hkv']. unfold byIndex. intros z Hz. lia.
    + constructor; [exact IH|].
      apply Forall_forall. intros z Hz.
      apply (Permutation_in _ (insertByIndex_Permutation kv l)) in Hz.
      destruct Hz as [<- | Hz]; [unfold byIndex; lia|].
      rewrite Forall_forall in Hkv'. now apply Hkv'.
Qed.

Lemma sortByIndex_sorted (l : list (string * V)) :
  StronglySorted byIndex (Js.sortByIndex l).
Proof.
  induction l as [|kv l IH]; cbn; [constructor|].
  now apply insertByIndex_sorted.
Qed.


(** How [Object.entries] arranges the properties: those with an
    array-index key first, in ascending order of the index, then the
    others in insertion order. *)
Lemma entries_arrangement (o : Js.object V) :
  exists numbered,
    Js.entries o
    = numbered ++ filter (fun kv => negb (Js.isIndexKey kv)) o
    /\ Permutation numbered (filter Js.isIndexKey o)
    /\ StronglySorted byIndex numbered.
Proof.
  exists (Js.sortByIndex (filter Js.isIndexKey o)).
  split; [reflexivity|]. split.
  - apply sortByIndex_Permutation.
  - apply sortByIndex_sorted.
Qed.


(** An object without array-index keys is enumerated in insertion
    order. *)
Lemma entries_named (o : Js.object V) :
  (forall kv, In kv o -> Js.arrayIndex (fst kv) = None) ->
  Js.entries o = o.
Proof.
  intros Hplain.
  assert (Hnamed : forall kv, In kv o -> Js.isIndexKey kv = false).
  { intros kv Hkv. unfold Js.isIndexKey. now rewrite (Hplain kv Hkv). }
  unfold Js.entries. rewrite (filter_none Js.isIndexKey o Hnamed).
  cbn. apply filter_all. intros kv Hkv. now rewrite (Hnamed kv Hkv).
Qed.

End EnumerationFacts.


(** C5, as the code has it. [classifyFile] returns "其他类" for a
    record whose extension is absent or empty. For a record with an
    extension it returns the first category, in the order in which
    [Object.entries] enumerates the categories the policy declares,
    whose extensions hold the lower-cased extension, and "其他类" when
    none does; so of two categories that list the extension, the one
    enumerated first is returned. The enumeration lists the categories
    whose names are array indices first, in ascending order of the
    index, and then the other categories in declared order; for a
    policy without such names it is the declared order. *)
Theorem classifyFile_first_enumerated
  (declared : Js.object Config.CategoryConfig) (cfg : Config.t)
  (toLowerCase : string -> string) (file : FileRecord) :
  Config.fileCategories cfg = Js.entries declared ->
  (Js.truthy (extension file) = false ->
   FileClassifier.classifyFile (Some cfg) toLowerCase file
   = Js.Normal otherCategory)
  /\ (forall s, extension file = Js.Str s -> s <> EmptyString ->
      exists c,
        FileClassifier.classifyFile (Some cfg) toLowerCase file = Js.Normal c
        /\ FirstDeclared (toLowerCase s) (Js.entries declared) c)
  /\ (forall s before first cc1 between second cc2 after,
      extension file = Js.Str s -> s <> EmptyString ->
      Js.entries declared
      = before ++ (first, cc1) :: between ++ (second, cc2) :: after ->
      In (toLowerCase s) (Config.extensions cc1) ->
      In (toLowerCase s) (Config.extensions cc2) ->
      (forall kv, In kv before ->
                  ~ In (toLowerCase s) (Config.extensions (snd kv))) ->
      FileClassifier.classifyFile (Some cfg) toLowerCase file
      = Js.Normal first)
  /\ (exists numbered,
        Js.entries declared
        = numbered ++ filter (fun kv => negb (Js.isIndexKey kv)) declared
        /\ Permutation numbered (filter Js.isIndexKey declared)
        /\ StronglySorted byIndex numbered)
  /\ ((forall kv, In kv declared -> Js.arrayIndex (fst kv) = None) ->
      Js.entries declared = declared).
Proof.
  intros Hcfg.
  destruct (classifyFile_first_listed cfg toLowerCase file)
    as (Habsent & Hfirst & Htwice).
  rewrite Hcfg in Hfirst, Htwice.
  split; [exact Habsent|]. split; [exact Hfirst|]. split; [exact Htwice|].
  split; [apply entries_arrangement | apply entries_named].
Qed.

(** In a policy that lists ".pdf" under "文档类" and then under
    "电子书", "b.pdf" goes to "文档类", the first declared. *)
Lemma classifyFile_first_enumerated_witness :
  FileClassifier.classifyFile (Some (policyOf overlapDeclared))
    Sample.toLowerCase Sample.b_pdf
  = Js.Normal "文档类"%string
  /\ Js.entries overlapDeclared = overlapDeclared.
Proof.
  pose proof (classifyFile_first_enumerated overlapDeclared
                (policyOf overlapDeclared) Sample.toLowerCase Sample.b_pdf
                eq_refl) as (_ & _ & Htwice & _ & Hnamed).
  split.
  - apply (Htwice ".pdf"%string []
             "文档类"%string
             (Config.category [".pdf"%string; ".txt"%string] "#4472C4" "文档")
             []
             "电子书"%string
             (Config.category [".pdf"%string; ".epub"%string] "#70AD47"
                "电子书")
             [("其他类"%string, Config.category [] "#B2B2B2" "其他")]).
    + reflexivity.
    + discriminate.
    + vm_compute. reflexivity.
    + left. reflexivity.
    + left. reflexivity.
    + intros kv [].
  - apply Hnamed. intros kv Hkv.
    repeat (destruct Hkv as [<- | Hkv]; [vm_compute; reflexivity|]).
    destruct Hkv.
Defined.

(** C5, as stated, fails. The policy declares "文档类" with ".pdf"
    before the category "7" with ".pdf"; in declared order the first
    category that lists ".pdf" is "文档类", and [classifyFile] returns
    "7", which [Object.entries] enumerates first. *)
Lemma declared_first_category_loses :
  FirstDeclared (Sample.toLowerCase ".pdf") numberedDeclared "文档类"%string
  /\ FileClassifier.classifyFile (Some (policyOf numberedDeclared))
       Sample.toLowerCase Sample.b_pdf
     = Js.Normal "7"%string
  /\ ~ (exists c,
          FileClassifier.classifyFile (Some (policyOf numberedDeclared))
            Sample.toLowerCase Sample.b_pdf = Js.Normal c
          /\ FirstDeclared (Sample.toLowerCase ".pdf") numberedDeclared c).
Proof.
  assert (Hfirst : FirstDeclared (Sample.toLowerCase ".pdf")
                     numberedDeclared "文档类"%string).
  { left.
    exists [],
      (Config.category [".pdf"%string; ".txt"%string] "#4472C4" "文档"),
      [("7"%string, Config.category [".pdf"%string] "#70AD47" "第七类");
       ("其他类"%string, Config.category [] "#B2B2B2" "其他")].
    split; [reflexivity|]. split; [left; reflexivity | intros kv []]. }
  assert (Hcode : FileClassifier.classifyFile (Some (policyOf numberedDeclared))
                    Sample.toLowerCase Sample.b_pdf
                  = Js.Normal "7"%string).
  { vm_compute. reflexivity. }
  split; [exact Hfirst|]. split; [exact Hcode|].
  intros (c & Hc & Hdeclared). rewrite Hcode in Hc. injection Hc as <-.
  pose proof (FirstDeclared_unique _ _ _ _ Hdeclared Hfirst) as Heq.
  discriminate Heq.
Qed.

(** ** The top-ten lists *)







(** ** Duplicate groups *)

Lemma hashIs_truthy (h : string) (file : FileRecord) :
  hashIs h file = true -> h <> EmptyString ->
  Js.truthyString (hash file) = true /\ hash file = Some h.
Proof.
  unfold hashIs, Js.truthyString. destruct (hash file) as [h'|]; [|discriminate].
  intros Heq Hne. apply String.eqb_eq in Heq. subst h'. split; [|reflexivity].
  apply String.eqb_neq in Hne. now rewrite Hne.
Qed.

Lemma GroupsAfter_step (processed : list FileRecord) (file : FileRecord)
  (groups : Js.object (list FileRecord)) :
  GroupsAfter processed groups ->
  GroupsAfter (processed ++ [file])
    (if Js.truthyString (hash file) then
       match hash file with
       | Some h =>
           let groups' :=
             match Js.get h groups with
             | None => Js.set h [] groups
             | Some _ => groups
             end in
           match Js.get h groups' with
           | Some group => Js.set h (group ++ [file]) groups'
           | None => groups'
           end
       | None => groups
       end
     else groups).
Proof.
  intros (hs & Hnd & Hiff & ->).
  destruct (Js.truthyString (hash file)) eqn:Htruthy.
  - destruct (hash file) as [h|] eqn:Hhash; [|discriminate].
    assert (Hne : h <> EmptyString).
    { cbn in Htruthy. intros ->. discriminate. }
    (* the keys once [h] has its group *)
    set (hs' := if in_dec string_dec h hs then hs else hs ++ [h]).
    assert (Hnd' : NoDup hs').
    { unfold hs'. destruct (in_dec string_dec h hs) as [Hin | Hnot];
        [assumption|].
      apply NoDup_app; [assumption | repeat constructor; intros [] |].
      intros k Hk [<- | []]. contradiction. }
    assert (Hin' : In h hs').
    { unfold hs'. destruct (in_dec string_dec h hs); [assumption|].
      apply in_or_app. right. now left. }
    assert (Hgroups' :
              match Js.get h (groupsOf hs processed) with
              | None => Js.set h [] (groupsOf hs processed)
              | Some _ => groupsOf hs processed
              end = groupsOf hs' processed).
    { unfold hs'. destruct (in_dec string_dec h hs) as [Hin | Hnot].
      - unfold groupsOf.
        rewrite (get_over_keys h (fun k => filter (hashIs k) processed)).
        apply existsb_eqb_In in Hin. now rewrite Hin.
      - assert (Hget : Js.get h (groupsOf hs processed) = None).
        { apply get_None_iff. unfold groupsOf. now rewrite map_map, map_id. }
        rewrite Hget, set_absent
          by (unfold groupsOf; now rewrite map_map, map_id).
        unfold groupsOf. rewrite map_app. cbn. do 3 f_equal.
        destruct (filter (hashIs h) processed) as [|g l] eqn:Hf;
          [reflexivity|].
        assert (Hg : In g (filter (hashIs h) processed))
          by (rewrite Hf; now left).
        apply filter_In in Hg. destruct Hg as [Hg Hh].
        destruct (hashIs_truthy h g Hh Hne) as [_ Hgh].
        exfalso. apply Hnot, Hiff. split; [assumption|]. now exists g. }
    cbn zeta. rewrite Hgroups'.
    unfold groupsOf at 1.
    rewrite (get_over_keys h (fun k => filter (hashIs k) processed)).
    pose proof Hin' as Hex. apply existsb_eqb_In in Hex. rewrite Hex.
    unfold groupsOf.
    rewrite (set_over_keys h _ (fun k => filter (hashIs k) processed) hs'
               Hnd' Hin').
    exists hs'. split; [assumption|]. split.
    + intros k. unfold hs'. split.
      * intros Hk.
        assert (Hcases : In k hs \/ k = h).
        { destruct (in_dec string_dec h hs); [now left|].
          apply in_app_or in Hk. destruct Hk as [Hk | [<- | []]]; auto. }
        destruct Hcases as [Hk' | ->].
        -- apply Hiff in Hk'. destruct Hk' as [Hkne (g & Hg & Hgh)].
           split; [assumption|]. exists g. split; [|assumption].
           apply in_or_app. now left.
        -- split; [assumption|]. exists file. split; [|assumption].
           apply in_or_app. right. now left.
      * intros [Hkne (g & Hg & Hgh)].
        apply in_app_or in Hg. destruct Hg as [Hg | [<- | []]].
        -- assert (Hk : In k hs) by (apply Hiff; split; [assumption|]; eauto).
           destruct (in_dec string_dec h hs); [assumption|].
           apply in_or_app. now left.
        -- assert (k = h) by congruence. subst k. exact Hin'.
    + unfold groupsOf. apply map_ext. intros k.
      rewrite filter_app. cbn [filter].
      assert (Hfile : hashIs k file = String.eqb k h).
      { unfold hashIs. rewrite Hhash. apply String.eqb_sym. }
      rewrite Hfile.
      destruct (String.eqb k h) eqn:Hkh; [|now rewrite app_nil_r].
      apply String.eqb_eq in Hkh. now rewrite Hkh.
  - exists hs. split; [assumption|]. split.
    + intros k. rewrite Hiff. split.
      * intros [Hkne (g & Hg & Hgh)]. split; [assumption|].
        exists g. split; [|assumption]. apply in_or_app. now left.
      * intros [Hkne (g & Hg & Hgh)]. split; [assumption|].
        apply in_app_or in Hg. destruct Hg as [Hg | [<- | []]]; [eauto|].
        exfalso. unfold Js.truthyString in Htruthy. rewrite Hgh in Htruthy.
        apply String.eqb_neq in Hkne. rewrite Hkne in Htruthy. discriminate.
    + unfold groupsOf. apply map_ext_in. intros k Hk.
      rewrite filter_app. cbn [filter].
      destruct (hashIs k file) eqn:Hh; [|now rewrite app_nil_r].
      apply Hiff in Hk. destruct Hk as [Hkne _].
      destruct (hashIs_truthy k file Hh Hkne) as [Ht _]. congruence.
Qed.

Lemma groupByHash_GroupsAfter (allFiles : list FileRecord) :
  GroupsAfter allFiles (FileClassifier.groupByHash allFiles).
Proof.
  unfold FileClassifier.groupByHash.
  assert (Hgen : forall rest processed groups,
             GroupsAfter processed groups ->
             GroupsAfter (processed ++ rest)
               (fold_left
                  (fun hashGroups file =>
                     if Js.truthyString (hash file) then
                       match hash file with
                       | Some h =>
                           let hashGroups' :=
                             match Js.get h hashGroups with
                             | None => Js.set h [] hashGroups
                             | Some _ => hashGroups
                             end in
                           match Js.get h hashGroups' with
                           | Some group =>
                               Js.set h (group ++ [file]) hashGroups'
                           | None => hashGroups'
                           end
                       | None => hashGroups
                       end
                     else hashGroups)
                  rest groups)).
  { induction rest as [|f rest IH]; intros processed groups Hinv; cbn.
    - now rewrite app_nil_r.
    - replace (processed ++ f :: rest) with ((processed ++ [f]) ++ rest)
        by (now rewrite <- app_assoc).
      apply IH. now apply GroupsAfter_step. }
  apply (Hgen allFiles [] []).
  exists []. split; [constructor|]. split; [|reflexivity].
  intros h. split; [intros [] | intros [_ (f & [] & _)]].
Qed.

Lemma firstn_In {A : Type} (n : nat) (l : list A) (x : A) :
  In x (firstn n l) -> In x l.
Proof.
  intros Hin. rewrite <- (firstn_skipn n l). apply in_or_app. now left.
Qed.

Lemma firstn_NoDup {A : Type} (n : nat) (l : list A) :
  NoDup l -> NoDup (firstn n l).
Proof.
  intros Hnd. rewrite <- (firstn_skipn n l) in Hnd.
  now apply NoDup_app_remove_r in Hnd.
Qed.

Lemma firstn_short {A : Type} (n : nat) (l : list A) :
  (List.length (firstn n l) < n)%nat -> firstn n l = l.
Proof.
  intros Hlen. rewrite length_firstn in Hlen. apply firstn_all2. lia.
Qed.

Lemma filter_two_positions {A : Type} (p : A -> bool) (l : list A) :
  forall i j a b,
    i <> j -> nth_error l i = Some a -> nth_error l j = Some b ->
    p a = true -> p b = true ->
    (2 <= List.length (filter p l))%nat.
Proof.
  assert (Hone : forall l' j b, nth_error l' j = Some b -> p b = true ->
                   (1 <= List.length (filter p l'))%nat).
  { intros l' j b Hj Hb. apply nth_error_In in Hj.
    assert (Hin : In b (filter p l')) by (apply filter_In; now split).
    destruct (filter p l'); [destruct Hin | cbn; lia]. }
  induction l as [|x l IH]; intros i j a b Hij Hi Hj Ha Hb.
  - destruct i; discriminate.
  - destruct i as [|i], j as [|j]; cbn in Hi, Hj; cbn [filter].
    + congruence.
    + injection Hi as ->. rewrite Ha. cbn.
      pose proof (Hone l j b Hj Hb). lia.
    + injection Hj as ->. rewrite Hb. cbn.
      pose proof (Hone l i a Hi Ha). lia.
    + assert (Hle : (2 <= List.length (filter p l))%nat)
        by (apply (IH i j a b); congruence).
      destruct (p x); cbn; lia.
Qed.

(** The groups [Object.values] yields: one for each hash met, holding
    the records with that hash; no two of them equal. *)
Lemma hash_groups_values (allFiles : list FileRecord) :
  exists hs,
    (forall h, In h hs <->
               h <> EmptyString
               /\ exists file, In file allFiles /\ hash file = Some h)
    /\ (forall g, In g (Js.values (FileClassifier.groupByHash allFiles)) <->
                  exists h, In h hs /\ g = filter (hashIs h) allFiles)
    /\ NoDup (Js.values (FileClassifier.groupByHash allFiles)).
Proof.
  destruct (groupByHash_GroupsAfter allFiles) as (hs & Hnd & Hiff & Heq).
  exists hs. split; [exact Hiff|].
  assert (Hperm : Permutation
                    (Js.values (FileClassifier.groupByHash allFiles))
                    (map (fun h => filter (hashIs h) allFiles) hs)).
  { unfold Js.values. rewrite Heq.
    rewrite (Permutation_map snd (entries_Permutation _)).
    unfold groupsOf. now rewrite map_map. }
  split.
  - intros g. split.
    + intros Hg. apply (Permutation_in _ Hperm) in Hg.
      apply in_map_iff in Hg. destruct Hg as (h & <- & Hh). eauto.
    + intros (h & Hh & ->). apply (Permutation_in _ (Permutation_sym Hperm)).
      apply in_map_iff. exists h. split; [reflexivity | assumption].
  - apply (Permutation_NoDup (Permutation_sym Hperm)).
    apply NoDup_map_NoDup_ForallPairs; [|exact Hnd].
    intros h h' Hh Hh' Hsame.
    apply Hiff in Hh. destruct Hh as [Hne (f & Hf & Hfh)].
    assert (Hin : In f (filter (hashIs h) allFiles)).
    { apply filter_In. split; [assumption|].
      unfold hashIs. rewrite Hfh. apply String.eqb_refl. }
    rewrite Hsame in Hin. apply filter_In in Hin. destruct Hin as [_ Hin].
    unfold hashIs in Hin. rewrite Hfh in Hin. now apply String.eqb_eq in Hin.
Qed.

(** Among records with pairwise distinct keys, at most one carries a
    given hash. *)
Lemma distinct_keys_single_hash (h : string) (files : list FileRecord) :
  h <> EmptyString ->
  NoDup (map FileScanner.dedupKey files) ->
  (List.length (filter (hashIs h) files) <= 1)%nat.
Proof.
  intros Hne.
  assert (Hkey : forall f, hashIs h f = true -> FileScanner.dedupKey f = h).
  { intros f Hf. destruct (hashIs_truthy h f Hf Hne) as [Ht Hh].
    unfold FileScanner.dedupKey. now rewrite Ht, Hh. }
  induction files as [|f files IH]; cbn; intros Hnd; [lia|].
  apply NoDup_cons_iff in Hnd. destruct Hnd as [Hf Hnd].
  destruct (hashIs h f) eqn:Hhf; [|now apply IH].
  destruct (filter (hashIs h) files) as [|g l] eqn:Hfilter; [cbn; lia|].
  exfalso. apply Hf.
  assert (Hg : In g (filter (hashIs h) files)) by (rewrite Hfilter; now left).
  apply filter_In in Hg. destruct Hg as [Hg Hhg].
  rewrite (Hkey f Hhf), <- (Hkey g Hhg). now apply in_map.
Qed.

Lemma findDuplicateFiles_distinct_keys (cats : Js.object (list FileRecord)) :
  NoDup (map FileScanner.dedupKey (FileClassifier.getAllFiles cats)) ->
  FileClassifier.findDuplicateFiles cats = [].
Proof.
  intros Hnd. unfold FileClassifier.findDuplicateFiles, Js.slice0.
  destruct (hash_groups_values (FileClassifier.getAllFiles cats))
    as (hs & Hiff & Hvalues & _).
  assert (Hnone : filter (fun group => (1 <? List.length group)%nat)
                    (Js.values
                       (FileClassifier.groupByHash
                          (FileClassifier.getAllFiles cats))) = []).
  { destruct (filter _ _) as [|g l] eqn:Hfilter; [reflexivity|].
    assert (Hg : In g (filter (fun group => (1 <? List.length group)%nat)
                         (Js.values
                            (FileClassifier.groupByHash
                               (FileClassifier.getAllFiles cats)))))
      by (rewrite Hfilter; now left).
    apply filter_In in Hg. destruct Hg as [Hg Hlen].
    apply Hvalues in Hg. destruct Hg as (h & Hh & ->).
    apply Hiff in Hh. destruct Hh as [Hne _].
    pose proof (distinct_keys_single_hash h _ Hne Hnd) as Hle.
    apply Nat.ltb_lt in Hlen. lia. }
  rewrite Hnone. reflexivity.
Qed.

Lemma dedupKey_assigned (cfg : Config.t) (toLowerCase : string -> string)
  (files : list FileRecord) :
  map FileScanner.dedupKey (map (assigned cfg toLowerCase) files)
  = map FileScanner.dedupKey files.
Proof. rewrite map_map. apply map_ext. reflexivity. Qed.

(** C1, as the code has it. In a result of [classifyFiles],
    [duplicateFiles] holds at most ten groups, no group twice; each
    group is the list of all records that carry one non-empty hash, and
    has two members or more; records of one group have the same hash;
    and two records at different places that carry the same non-empty
    hash lie together in one group and no other, when fewer than ten
    groups are reported. Size and modification time do not enter. *)
Theorem duplicate_groups_share_hash (cfg : Config.t)
  (toLowerCase : string -> string) (files : list FileRecord)
  (cr : FileClassifier.ClassificationResult) :
  FileClassifier.classifyFiles (Some cfg) toLowerCase files = Js.Normal cr ->
  let allFiles := FileClassifier.getAllFiles (FileClassifier.categories cr) in
  let groups := FileClassifier.duplicateFiles (FileClassifier.statistics cr) in
  (List.length groups <= 10)%nat
  /\ NoDup groups
  /\ (forall g, In g groups ->
        (2 <= List.length g)%nat
        /\ exists h, h <> EmptyString /\ g = filter (hashIs h) allFiles)
  /\ (forall g a b, In g groups -> In a g -> In b g -> hash a = hash b)
  /\ (forall i j a b h,
        i <> j ->
        nth_error allFiles i = Some a -> nth_error allFiles j = Some b ->
        hash a = Some h -> hash b = Some h -> h <> EmptyString ->
        (List.length groups < 10)%nat ->
        exists g,
          In g groups /\ In a g /\ In b g
          /\ forall g', In g' groups -> In a g' -> g' = g).
Proof.
  intros Hcr allFiles groups.
  destruct (classifyFiles_Normal cfg toLowerCase files cr Hcr)
    as (_ & _ & _ & _ & _ & _ & _ & Hstats).
  assert (Hgroups : groups
                    = firstn 10
                        (filter (fun group => (1 <? List.length group)%nat)
                           (Js.values (FileClassifier.groupByHash allFiles)))).
  { unfold groups. rewrite Hstats. reflexivity. }
  destruct (hash_groups_values allFiles) as (hs & Hiff & Hvalues & Hnd).
  assert (Hmember : forall g, In g groups ->
            (2 <= List.length g)%nat
            /\ exists h, h <> EmptyString /\ g = filter (hashIs h) allFiles).
  { intros g Hg. rewrite Hgroups in Hg. apply firstn_In, filter_In in Hg.
    destruct Hg as [Hg Hlen]. apply Nat.ltb_lt in Hlen. split; [lia|].
    apply Hvalues in Hg. destruct Hg as (h & Hh & ->).
    apply Hiff in Hh. destruct Hh as [Hne _]. eauto. }
  assert (Hhash : forall g a h, In g groups -> In a g -> hash a = Some h ->
            g = filter (hashIs h) allFiles).
  { intros g a h Hg Ha Hah. destruct (Hmember g Hg) as [_ (h' & Hne & ->)].
    apply filter_In in Ha. destruct Ha as [_ Ha].
    unfold hashIs in Ha. rewrite Hah in Ha. apply String.eqb_eq in Ha.
    now subst h'. }
  split; [rewrite Hgroups; apply firstn_le_length|].
  split; [rewrite Hgroups; now apply firstn_NoDup, NoDup_filter|].
  split; [exact Hmember|]. split.
  - intros g a b Hg Ha Hb. destruct (Hmember g Hg) as [_ (h & Hne & ->)].
    apply filter_In in Ha, Hb. destruct Ha as [_ Ha], Hb as [_ Hb].
    destruct (hashIs_truthy h a Ha Hne) as [_ ->].
    destruct (hashIs_truthy h b Hb Hne) as [_ ->]. reflexivity.
  - intros i j a b h Hij Hi Hj Ha Hb Hne Hlen.
    assert (Hpa : hashIs h a = true)
      by (unfold hashIs; rewrite Ha; apply String.eqb_refl).
    assert (Hpb : hashIs h b = true)
      by (unfold hashIs; rewrite Hb; apply String.eqb_refl).
    exists (filter (hashIs h) allFiles). repeat split.
    + rewrite Hgroups in Hlen |- *. rewrite (firstn_short _ _ Hlen).
      apply filter_In. split.
      * apply Hvalues. exists h. split; [|reflexivity].
        apply Hiff. split; [assumption|]. exists a. split; [|assumption].
        now apply nth_error_In in Hi.
      * apply Nat.ltb_lt.
        pose proof (filter_two_positions (hashIs h) allFiles i j a b Hij Hi Hj
                      Hpa Hpb). lia.
    + apply filter_In. split; [now apply nth_error_In in Hi | assumption].
    + apply filter_In. split; [now apply nth_error_In in Hj | assumption].
    + intros g' Hg' Hag'. now apply (Hhash g' a h).
Qed.

(** A scan that holds "e.txt" twice reports the two as one group. *)
Lemma duplicate_groups_share_hash_witness :
  Sample.classify repeatScan = Js.Normal repeatResult
  /\ exists g,
      In g (FileClassifier.duplicateFiles
              (FileClassifier.statistics repeatResult))
      /\ In (assigned Config.shipped Sample.toLowerCase Sample.e_txt) g
      /\ (2 <= List.length g)%nat.
Proof.
  assert (Hcr : Sample.classify repeatScan = Js.Normal repeatResult)
    by (vm_compute; reflexivity).
  split; [exact Hcr|].
  pose proof (duplicate_groups_share_hash Config.shipped Sample.toLowerCase
                repeatScan repeatResult Hcr) as H.
  cbv zeta in H. destruct H as (_ & _ & Hmember & _ & Hpair).
  destruct (Hpair 0%nat 2%nat
              (assigned Config.shipped Sample.toLowerCase Sample.e_txt)
              (assigned Config.shipped Sample.toLowerCase Sample.e_txt)
              "q43iev"%string)
    as (g & Hg & Ha & _).
  - lia.
  - vm_compute. reflexivity.
  - vm_compute. reflexivity.
  - vm_compute. reflexivity.
  - vm_compute. reflexivity.
  - discriminate.
  - vm_compute. lia.
  - exists g. split; [exact Hg|]. split; [exact Ha|]. apply Hmember, Hg.
Defined.

(** C1, as stated, fails. The scan of a directory with "e.txt" and
    "f.txt" yields two records of one size and one modification time
    and two paths; their hashes, which are computed from the path as
    well, differ, and [duplicateFiles] is empty: no group holds the
    two. *)
Lemma same_size_and_time_not_grouped :
  FileScanner.scanRecentFiles (Some Config.shipped) Sample.normalize
    Sample.toLowerCase Sample.expandPath twinStat sampleRandom 1690000000000
    [twinRoot] = twinScan
  /\ Sample.classify twinScan = Js.Normal twinResult
  /\ size Sample.e_txt = size Sample.f_txt
  /\ modifiedTime Sample.e_txt = modifiedTime Sample.f_txt
  /\ path Sample.e_txt <> path Sample.f_txt
  /\ FileClassifier.duplicateFiles (FileClassifier.statistics twinResult) = []
  /\ ~ exists g,
        In g (FileClassifier.duplicateFiles
                (FileClassifier.statistics twinResult))
        /\ In (assigned Config.shipped Sample.toLowerCase Sample.e_txt) g
        /\ In (assigned Config.shipped Sample.toLowerCase Sample.f_txt) g.
Proof.
  assert (Hempty : FileClassifier.duplicateFiles
                     (FileClassifier.statistics twinResult) = [])
    by (vm_compute; reflexivity).
  split; [vm_compute; reflexivity|].
  split; [vm_compute; reflexivity|].
  split; [reflexivity|]. split; [reflexivity|].
  split; [vm_compute; discriminate|].
  split; [exact Hempty|].
  intros (g & Hg & _). rewrite Hempty in Hg. destruct Hg.
Qed.

(** C10. In every result [classifyFiles] returns for a list of records
    with pairwise distinct keys, [duplicateFiles] is empty; so it is for
    every output of [removeDuplicates] and for every output of
    [scanRecentFiles]. Under a policy with the fallback category such a
    result is returned. *)
Theorem deduplicated_records_have_no_duplicate_groups (cfg : Config.t)
  (toLowerCase : string -> string) (files : list FileRecord) :
  (forall cr,
      NoDup (map FileScanner.dedupKey files) ->
      FileClassifier.classifyFiles (Some cfg) toLowerCase files
      = Js.Normal cr ->
      FileClassifier.duplicateFiles (FileClassifier.statistics cr) = [])
  /\ (forall cr,
        FileClassifier.classifyFiles (Some cfg) toLowerCase
          (FileScanner.removeDuplicates files) = Js.Normal cr ->
        FileClassifier.duplicateFiles (FileClassifier.statistics cr) = [])
  /\ (forall config normalize lower expandPath fsStat mathRandom cutoffDate
             scanPaths cr,
        FileClassifier.classifyFiles (Some cfg) toLowerCase
          (FileScanner.scanRecentFiles config normalize lower expandPath
             fsStat mathRandom cutoffDate scanPaths) = Js.Normal cr ->
        FileClassifier.duplicateFiles (FileClassifier.statistics cr) = [])
  /\ (hasOther cfg ->
      exists cr,
        FileClassifier.classifyFiles (Some cfg) toLowerCase
          (FileScanner.removeDuplicates files) = Js.Normal cr
        /\ FileClassifier.duplicateFiles (FileClassifier.statistics cr) = []).
Proof.
  assert (Hdistinct : forall l cr,
             NoDup (map FileScanner.dedupKey l) ->
             FileClassifier.classifyFiles (Some cfg) toLowerCase l
             = Js.Normal cr ->
             FileClassifier.duplicateFiles (FileClassifier.statistics cr)
             = []).
  { intros l cr Hnd Hcr.
    destruct (classifyFiles_Normal cfg toLowerCase l cr Hcr)
      as (ks & Hks & _ & Hall & Hcats & _ & _ & Hstats).
    rewrite Hstats. cbn.
    apply findDuplicateFiles_distinct_keys.
    assert (Hperm : Permutation
                      (FileClassifier.getAllFiles
                         (FileClassifier.categories cr))
                      (map (assigned cfg toLowerCase) l)).
    { rewrite getAllFiles_flat, Hcats. now apply objectOf_flat. }
    apply (Permutation_NoDup
             (Permutation_sym (Permutation_map FileScanner.dedupKey Hperm))).
    now rewrite dedupKey_assigned. }
  assert (Hdedup : forall l,
             NoDup (map FileScanner.dedupKey (FileScanner.removeDuplicates l))).
  { intros l. rewrite removeDuplicates_firstSeen. apply firstSeen_fresh. }
  split; [intros cr; apply Hdistinct|]. split; [|split].
  - intros cr. apply Hdistinct, Hdedup.
  - intros config normalize lower expandPath fsStat mathRandom cutoffDate
      scanPaths cr.
    apply Hdistinct. unfold FileScanner.scanRecentFiles.
    destruct (fold_left _ scanPaths _) as [allFiles n]. apply Hdedup.
  - intros Hother.
    destruct (classifyFiles_returns cfg toLowerCase
                (FileScanner.removeDuplicates files) Hother) as [cr Hcr].
    exists cr. split; [exact Hcr|]. now apply (Hdistinct _ cr (Hdedup files)).
Qed.

(** What [removeDuplicates] leaves of a scan that holds "e.txt" twice is
    classified with no duplicate group. *)
Lemma deduplicated_records_have_no_duplicate_groups_witness :
  hasOther Config.shipped
  /\ exists cr,
      Sample.classify (FileScanner.removeDuplicates repeatScan) = Js.Normal cr
      /\ FileClassifier.duplicateFiles (FileClassifier.statistics cr) = [].
Proof.
  assert (Hother : hasOther Config.shipped).
  { vm_compute. do 10 right. left. reflexivity. }
  split; [exact Hother|].
  exact (proj2 (proj2 (proj2 (deduplicated_records_have_no_duplicate_groups
                                Config.shipped Sample.toLowerCase repeatScan)))
           Hother).
Defined.

(** * Further properties *)

(** ** The hash of [calculateFileHash] *)

Lemma toInt32_range (n : Z) : - 2 ^ 31 <= Js.toInt32 n < 2 ^ 31.
Proof.
  unfold Js.toInt32.
  pose proof (Z.mod_pos_bound (n + 2 ^ 31) (2 ^ 32) ltac:(lia)). lia.
Qed.

Lemma toInt32_small (n : Z) : - 2 ^ 31 <= n < 2 ^ 31 -> Js.toInt32 n = n.
Proof.
  intros Hn. unfold Js.toInt32. rewrite Z.mod_small by lia. lia.
Qed.

Lemma toInt32_shift (n : Z) : exists k, Js.toInt32 n = n + 2 ^ 32 * k.
Proof.
  exists (- ((n + 2 ^ 31) / 2 ^ 32)). unfold Js.toInt32.
  pose proof (Z.div_mod (n + 2 ^ 31) (2 ^ 32) ltac:(lia)). lia.
Qed.

Lemma toInt32_periodic (n k : Z) : Js.toInt32 (n + 2 ^ 32 * k) = Js.toInt32 n.
Proof.
  unfold Js.toInt32.
  replace (n + 2 ^ 32 * k + 2 ^ 31) with (n + 2 ^ 31 + k * 2 ^ 32) by lia.
  now rewrite Z_mod_plus_full.
Qed.

Lemma toInt32_congruent (a b : Z) :
  Js.toInt32 a = Js.toInt32 b <-> a mod 2 ^ 32 = b mod 2 ^ 32.
Proof.
  assert (Hmod : forall n, Js.toInt32 n mod 2 ^ 32 = n mod 2 ^ 32).
  { intros n. destruct (toInt32_shift n) as [k ->].
    replace (n + 2 ^ 32 * k) with (n + k * 2 ^ 32) by lia.
    apply Z_mod_plus_full. }
  split; intros H.
  - now rewrite <- (Hmod a), <- (Hmod b), H.
  - pose proof (Z.div_mod a (2 ^ 32) ltac:(lia)) as Ha.
    pose proof (Z.div_mod b (2 ^ 32) ltac:(lia)) as Hb.
    replace a with (b + 2 ^ 32 * (a / 2 ^ 32 - b / 2 ^ 32)) by lia.
    apply toInt32_periodic.
Qed.

(** One round of the hash loop multiplies by 31 and adds the code unit,
    in 32-bit two's complement. *)
Lemma hashStep_times_31 (h c : Z) :
  FileScanner.hashStep h c = Js.toInt32 (31 * h + c).
Proof.
  unfold FileScanner.hashStep. rewrite Z.land_diag, Z.shiftl_mul_pow2 by lia.
  destruct (toInt32_shift h) as [k1 ->].
  destruct (toInt32_shift ((h + 2 ^ 32 * k1) * 2 ^ 5)) as [k2 ->].
  replace ((h + 2 ^ 32 * k1) * 2 ^ 5 + 2 ^ 32 * k2 - h + c)
    with (31 * h + c + 2 ^ 32 * (32 * k1 + k2)) by lia.
  apply toInt32_periodic.
Qed.

Lemma fold_left_cons {A B : Type} (f : A -> B -> A) (x : B) (l : list B)
  (a : A) :
  fold_left f (x :: l) a = fold_left f l (f a x).
Proof. reflexivity. Qed.

Lemma hash_loop_polynomial (codes : list Z) (h : Z) :
  fold_left FileScanner.hashStep codes (Js.toInt32 h)
  = Js.toInt32 (fold_left (fun acc code => 31 * acc + code) codes h).
Proof.
  assert (Hstep : forall x c,
             Js.toInt32 (31 * Js.toInt32 x + c) = Js.toInt32 (31 * x + c)).
  { intros x c. destruct (toInt32_shift x) as [k Hk]. rewrite Hk.
    replace (31 * (x + 2 ^ 32 * k) + c) with (31 * x + c + 2 ^ 32 * (31 * k))
      by lia.
    apply toInt32_periodic. }
  revert h. induction codes as [|c codes IH]; intros h; [reflexivity|].
  rewrite !fold_left_cons, hashStep_times_31, Hstep. apply IH.
Qed.

Lemma digitValue_digit36 (d : N) :
  (d < 36)%N -> digitValue (Js.digit36 d) = d.
Proof.
  intros Hd. unfold digitValue, Js.digit36.
  destruct (N.ltb_spec d 10) as [Hlt | Hge];
    rewrite N_ascii_embedding by lia.
  - destruct (N.ltb_spec (48 + d) 58); lia.
  - destruct (N.ltb_spec (87 + d) 58); lia.
Qed.

Lemma digit36_not_minus (d : N) :
  (d < 36)%N -> Ascii.eqb (Js.digit36 d) "-"%char = false.
Proof.
  intros Hd. apply Ascii.eqb_neq. intros Heq.
  apply (f_equal N_of_ascii) in Heq. unfold Js.digit36 in Heq.
  change (N_of_ascii "-") with 45%N in Heq.
  destruct (N.ltb_spec d 10); rewrite N_ascii_embedding in Heq by lia; lia.
Qed.

(** Reading the digits back gives the number, with fuel to spare. *)
Lemma decode_digits36 (fuel : nat) :
  forall n acc,
    (n < 2 ^ N.of_nat fuel)%N ->
    decodeFrom 0 (Js.digits36 fuel n acc) = decodeFrom n acc.
Proof.
  induction fuel as [|fuel IH]; intros n acc Hn.
  - cbn in Hn. assert (n = 0%N) by lia. subst n. reflexivity.
  - cbn [Js.digits36].
    assert (Hd : (n mod 36 < 36)%N) by (apply N.mod_lt; lia).
    assert (Hstep : decodeFrom (n / 36) (String (Js.digit36 (n mod 36)) acc)
                    = decodeFrom n acc).
    { cbn [decodeFrom]. rewrite digitValue_digit36 by exact Hd. f_equal.
      rewrite (N.div_mod n 36) at 3 by lia. lia. }
    destruct (N.eqb_spec (n / 36) 0) as [Hz | Hnz].
    + rewrite <- Hstep, Hz. reflexivity.
    + rewrite IH; [exact Hstep|].
      rewrite Nat2N.inj_succ, N.pow_succ_r' in Hn.
      apply N.Div0.div_lt_upper_bound.
      lia.
Qed.

Lemma digits36_head (fuel : nat) :
  forall n acc,
    exists d rest,
      (d < 36)%N /\ Js.digits36 (S fuel) n acc = String (Js.digit36 d) rest.
Proof.
  induction fuel as [|fuel IH]; intros n acc.
  - exists (n mod 36)%N, acc. split; [apply N.mod_lt; lia|].
    cbn. now destruct (n / 36 =? 0)%N.
  - cbn [Js.digits36]. destruct (n / 36 =? 0)%N.
    + exists (n mod 36)%N, acc. split; [apply N.mod_lt; lia | reflexivity].
    + apply (IH (n / 36)%N).
Qed.

(** [toString(36)] loses nothing: the numeral read back is the number. *)
Lemma parse36_toString36 (n : Z) : parse36 (Js.toString36 n) = n.
Proof.
  unfold Js.toString36.
  assert (Hm : Z.of_N (Z.abs_N n) = Z.abs n) by apply N2Z.inj_abs_N.
  set (m := Z.abs_N n) in *.
  assert (Hfuel : (m < 2 ^ N.of_nat (S (N.to_nat (N.log2 m))))%N).
  { rewrite Nat2N.inj_succ, N2Nat.id.
    destruct (N.eq_dec m 0) as [Hz | Hpos]; [rewrite Hz; reflexivity|].
    apply N.log2_spec. lia. }
  pose proof (decode_digits36 _ _ EmptyString Hfuel) as Hdec.
  change (decodeFrom m EmptyString) with m in Hdec.
  destruct (digits36_head (N.to_nat (N.log2 m)) m EmptyString)
    as (d & rest & Hd & Hhead).
  destruct (Z.ltb_spec n 0) as [Hneg | Hpos].
  - cbn [parse36]. rewrite Ascii.eqb_refl, Hdec. lia.
  - rewrite Hhead in *. cbn [parse36]. rewrite digit36_not_minus by exact Hd.
    rewrite Hdec. lia.
Qed.

Lemma toString36_nonempty (n : Z) : Js.toString36 n <> EmptyString.
Proof.
  unfold Js.toString36.
  destruct (digits36_head (N.to_nat (N.log2 (Z.abs_N n))) (Z.abs_N n)
              EmptyString) as (d & rest & _ & Hhead).
  rewrite Hhead. destruct (n <? 0); discriminate.
Qed.

Lemma hashOf_polynomial (filePath : string) (sz mtime : Z) :
  FileScanner.hashOf filePath sz mtime
  = Js.toString36
      (Js.toInt32
         (polynomialHash
            (Js.charCodes (FileScanner.hashInput filePath sz mtime)))).
Proof.
  unfold FileScanner.hashOf, polynomialHash.
  rewrite <- hash_loop_polynomial. reflexivity.
Qed.

(** X1. Two files get the same hash string exactly when the polynomial
    hashes (base 31) of their strings path:size:mtime agree modulo
    2^32. *)
Theorem hashes_equal_iff_polynomials_congruent
  (path1 path2 : string) (size1 size2 mtime1 mtime2 : Z) :
  FileScanner.hashOf path1 size1 mtime1 = FileScanner.hashOf path2 size2 mtime2
  <-> polynomialHash
        (Js.charCodes (FileScanner.hashInput path1 size1 mtime1)) mod 2 ^ 32
      = polynomialHash
          (Js.charCodes (FileScanner.hashInput path2 size2 mtime2)) mod 2 ^ 32.
Proof.
  rewrite !hashOf_polynomial, <- toInt32_congruent. split.
  - intros H. apply (f_equal parse36) in H.
    now rewrite !parse36_toString36 in H.
  - intros H. now rewrite H.
Qed.

Lemma charCodes_append (a b : string) :
  Js.charCodes (a ++ b) = Js.charCodes a ++ Js.charCodes b.
Proof.
  unfold Js.charCodes. induction a as [|c a IH]; cbn; [reflexivity|].
  now rewrite IH.
Qed.

Lemma string_append_assoc (a b c : string) :
  ((a ++ b) ++ c)%string = (a ++ b ++ c)%string.
Proof. induction a as [|x a IH]; cbn; [reflexivity | now rewrite IH]. Qed.

(** The names "Aa" and "BB" weigh the same under the polynomial in 31,
    in whatever path they stand. *)
Lemma Aa_BB_same_hash (dir rest : string) (sz mtime : Z) :
  FileScanner.hashOf (dir ++ "Aa" ++ rest) sz mtime
  = FileScanner.hashOf (dir ++ "BB" ++ rest) sz mtime.
Proof.
  rewrite !hashOf_polynomial. do 2 f_equal.
  unfold FileScanner.hashInput, polynomialHash.
  rewrite !string_append_assoc, !charCodes_append, !fold_left_app.
  do 5 f_equal.
  generalize (fold_left (fun acc code => 31 * acc + code) (Js.charCodes dir) 0).
  intros x.
  change (Js.charCodes "Aa") with [65; 97].
  change (Js.charCodes "BB") with [66; 66].
  cbn [fold_left]. lia.
Qed.

(** X2. Two files of one directory whose names differ only in "Aa"
    against "BB", of the same size and modification time, get the same
    hash, and [removeDuplicates] keeps the first of the two records
    only. *)
Theorem colliding_names_are_merged (config : option Config.t)
  (fsStat : string -> option (Z * Z)) (mathRandom : nat -> string)
  (dir rest : string) (sz mtime : Z) (a b : FileRecord) (n n' : nat) :
  path a = (dir ++ "Aa" ++ rest)%string ->
  path b = (dir ++ "BB" ++ rest)%string ->
  fsStat (path a) = Some (sz, mtime) ->
  fsStat (path b) = Some (sz, mtime) ->
  (exists s, extension a = Js.Str s) -> (exists s, extension b = Js.Str s) ->
  let fa := fst (FileScanner.getDetailedFileInfo config fsStat mathRandom a n) in
  let fb := fst (FileScanner.getDetailedFileInfo config fsStat mathRandom b n') in
  path fa <> path fb
  /\ hash fa = hash fb
  /\ FileScanner.removeDuplicates [fa; fb] = [fa].
Proof.
  intros Ha Hb Hsa Hsb [ea Hea] [eb Heb] fa fb.
  assert (Hfa : hash fa = Some (FileScanner.hashOf (path a) sz mtime)
                /\ path fa = path a).
  { unfold fa, FileScanner.getDetailedFileInfo, FileScanner.calculateFileHash.
    rewrite Hsa, Hea. split; reflexivity. }
  assert (Hfb : hash fb = Some (FileScanner.hashOf (path b) sz mtime)
                /\ path fb = path b).
  { unfold fb, FileScanner.getDetailedFileInfo, FileScanner.calculateFileHash.
    rewrite Hsb, Heb. split; reflexivity. }
  destruct Hfa as [Hha Hpa], Hfb as [Hhb Hpb].
  assert (Hsame : hash fa = hash fb).
  { rewrite Hha, Hhb, Ha, Hb. f_equal. apply Aa_BB_same_hash. }
  split; [|split; [exact Hsame|]].
  - rewrite Hpa, Hpb, Ha, Hb. intros Heq.
    assert (Hcut : forall d x y : string,
               (d ++ x)%string = (d ++ y)%string -> x = y).
    { induction d as [|c d IH]; cbn; intros x y H; [exact H|].
      injection H as H. now apply IH. }
    apply Hcut in Heq. discriminate Heq.
  - assert (Hkey : FileScanner.dedupKey fb = FileScanner.dedupKey fa).
    { assert (Htruthy : Js.truthyString (hash fb) = true).
      { rewrite Hhb. unfold Js.truthyString, FileScanner.hashOf.
        destruct (String.eqb_spec
                    (Js.toString36
                       (fold_left FileScanner.hashStep
                          (Js.charCodes
                             (FileScanner.hashInput (path b) sz mtime)) 0))
                    EmptyString) as [Hempty | _]; [|reflexivity].
        now apply toString36_nonempty in Hempty. }
      unfold FileScanner.dedupKey. rewrite Hsame, Htruthy, Hhb. reflexivity. }
    unfold FileScanner.removeDuplicates. cbn [fold_left].
    unfold FileScanner.mapHas at 2. cbn [existsb app].
    rewrite Hkey. unfold FileScanner.mapHas. cbn [existsb fst].
    rewrite String.eqb_refl. reflexivity.
Qed.

Lemma colliding_names_are_merged_witness :
  let fa := fst (FileScanner.getDetailedFileInfo (Some Config.shipped)
                   twinStat sampleRandom reportAa 0) in
  let fb := fst (FileScanner.getDetailedFileInfo (Some Config.shipped)
                   twinStat sampleRandom reportBB 0) in
  path fa <> path fb
  /\ hash fa = hash fb
  /\ FileScanner.removeDuplicates [fa; fb] = [fa].
Proof.
  apply (colliding_names_are_merged (Some Config.shipped) twinStat
           sampleRandom (Sample.desktop ++ "report")%string ".txt"%string
           4096 1700000500000 reportAa reportBB 0%nat 0%nat).
  - reflexivity.
  - reflexivity.
  - reflexivity.
  - reflexivity.
  - eexists. reflexivity.
  - eexists. reflexivity.
Defined.

(** ** The walk of [scanDirectory] *)

Lemma fold_left_map_pointwise {A B C : Type} (f : A -> C -> A) (g : B -> C)
  (h : A -> B -> A) (l : list B) :
  Forall (fun x => forall a, h a x = f a (g x)) l ->
  forall a, fold_left h l a = fold_left f (map g l) a.
Proof.
  induction 1 as [|x l Hx _ IH]; intros a; cbn; [reflexivity|].
  rewrite Hx. apply IH.
Qed.

Section Walk.

Variable config : option Config.t.
Variables normalize toLowerCase : string -> string.
Variable fsStat : string -> option (Z * Z).
Variable mathRandom : nat -> string.
Variable cutoffDate : Z.

Let excluded := FileScanner.shouldExcludePath config normalize toLowerCase.
Let scanItem :=
  FileScanner.scanItem config normalize toLowerCase fsStat mathRandom
    cutoffDate.
Let scanDirectory :=
  FileScanner.scanDirectory config normalize toLowerCase fsStat mathRandom.

Lemma scanItem_truncate (item : FileScanner.Entry) :
  forall depth st,
    scanItem depth item st
    = scanItem depth (truncate (FileScanner.maxDepth - depth) item) st.
Proof.
  unfold scanItem.
  induction item as [info | info listing IH | info] using Entry_listing_ind;
    intros depth [files draws]; [reflexivity | | reflexivity].
  cbn [truncate FileScanner.scanItem].
  destruct (Nat.ltb_spec depth FileScanner.maxDepth) as [Hlt | Hge];
    [|reflexivity].
  replace (FileScanner.maxDepth - depth)%nat
    with (S (FileScanner.maxDepth - S depth)) by lia.
  unfold FileScanner.scanListing.
  destruct (FileScanner.shouldExcludePath config normalize toLowerCase
              (path info)); [reflexivity|].
  destruct listing as [items|]; [|reflexivity].
  cbn [option_map].
  rewrite (fold_left_map_pointwise
             (fun st item =>
                FileScanner.scanItem config normalize toLowerCase fsStat
                  mathRandom cutoffDate (S depth) item st)
             (truncate (FileScanner.maxDepth - S depth))
             (fun st item =>
                FileScanner.scanItem config normalize toLowerCase fsStat
                  mathRandom cutoffDate (S depth) item st) items);
    [reflexivity|].
  eapply Forall_impl; [|exact IH].
  intros item Hitem st. apply Hitem.
Qed.

(** X3. The result of [scanDirectory] at recursion depth [depth] does
    not depend on what lies under a directory met at depth 10: cutting
    every listing below that level leaves the records and the count of
    random draws as they are. *)
Theorem scanDirectory_ignores_below_depth_bound (directoryPath : string)
  (listing : option (list FileScanner.Entry)) (depth draws : nat) :
  scanDirectory directoryPath listing cutoffDate depth draws
  = scanDirectory directoryPath
      (option_map (map (truncate (FileScanner.maxDepth - depth))) listing)
      cutoffDate depth draws.
Proof.
  unfold scanDirectory, FileScanner.scanDirectory, FileScanner.scanListing.
  destruct (FileScanner.shouldExcludePath config normalize toLowerCase
              directoryPath); [reflexivity|].
  destruct listing as [items|]; [|reflexivity].
  cbn [option_map].
  apply (fold_left_map_pointwise
           (fun st item => scanItem depth item st)
           (truncate (FileScanner.maxDepth - depth))
           (fun st item => scanItem depth item st) items).
  apply Forall_forall. intros item _ st. apply scanItem_truncate.
Qed.

Lemma getDetailedFileInfo_SameFile (info : FileRecord) (draws : nat) :
  SameFile
    (fst (FileScanner.getDetailedFileInfo config fsStat mathRandom info draws))
    info.
Proof.
  unfold FileScanner.getDetailedFileInfo.
  destruct (FileScanner.calculateFileHash fsStat mathRandom (path info) draws)
    as [h draws'].
  destruct (extension info) eqn:Hext; cbn; repeat split; auto.
Qed.

(** What a part of the walk adds to the records: a record for each
    recent file item it comes to, and nothing else. *)
Let Adds (P : FileRecord -> Prop) (new : list FileRecord) : Prop :=
  (forall file, In file new ->
     exists info,
       P info /\ FileScanner.isRecentFile info cutoffDate = true
       /\ SameFile file info)
  /\ (forall info,
        P info -> FileScanner.isRecentFile info cutoffDate = true ->
        exists file, In file new /\ SameFile file info).

Lemma Visits_cons (depth : nat) (item : FileScanner.Entry)
  (items : list FileScanner.Entry) (info : FileRecord) :
  Visits excluded depth (item :: items) info
  <-> Visits excluded depth [item] info \/ Visits excluded depth items info.
Proof.
  split.
  - intros H. inversion H as [d its i Hin | d its sub dir i Hin Hlt Hex Hsub];
      subst.
    + destruct Hin as [Heq | Hin].
      * left. apply Visits_here. left. exact Heq.
      * right. apply Visits_here. exact Hin.
    + destruct Hin as [Heq | Hin].
      * left. apply (Visits_below _ _ _ sub dir); try assumption.
        left. exact Heq.
      * right. apply (Visits_below _ _ _ sub dir); assumption.
  - intros [H | H];
      inversion H as [d its i Hin | d its sub dir i Hin Hlt Hex Hsub]; subst.
    + apply Visits_here. destruct Hin as [Heq | []]. left. exact Heq.
    + apply (Visits_below _ _ _ sub dir); try assumption.
      destruct Hin as [Heq | []]. left. exact Heq.
    + apply Visits_here. right. exact Hin.
    + apply (Visits_below _ _ _ sub dir); try assumption. right. exact Hin.
Qed.

Lemma Visits_nil (depth : nat) (info : FileRecord) :
  ~ Visits excluded depth [] info.
Proof.
  intros H. inversion H as [d its i Hin | d its sub dir i Hin Hlt Hex Hsub];
    destruct Hin.
Qed.

Lemma scanItems_walk (one : FileScanner.Entry ->
                           list FileRecord * nat -> list FileRecord * nat)
  (depth : nat) (items : list FileScanner.Entry) :
  Forall (fun item => forall files n,
              exists new n',
                one item (files, n) = (files ++ new, n')
                /\ Adds (Visits excluded depth [item]) new) items ->
  forall files n,
  exists new n',
    fold_left (fun st item => one item st) items (files, n)
    = (files ++ new, n')
    /\ Adds (Visits excluded depth items) new.
Proof.
  induction 1 as [|item items Hitem _ IH]; intros files n.
  - exists [], n. cbn. rewrite app_nil_r. split; [reflexivity|]. split.
    + intros file [].
    + intros info Hv. now apply Visits_nil in Hv.
  - destruct (Hitem files n) as (new1 & n1 & Heq1 & [Hsound1 Hcomplete1]).
    destruct (IH (files ++ new1) n1) as (new2 & n2 & Heq2 & [Hsound2 Hcomplete2]).
    exists (new1 ++ new2), n2. cbn [fold_left]. rewrite Heq1, Heq2.
    split; [now rewrite app_assoc|]. split.
    + intros file Hin. apply in_app_or in Hin. destruct Hin as [Hin | Hin].
      * destruct (Hsound1 file Hin) as (info & Hv & Hr & Hs).
        exists info. split; [|now split]. apply Visits_cons. now left.
      * destruct (Hsound2 file Hin) as (info & Hv & Hr & Hs).
        exists info. split; [|now split]. apply Visits_cons. now right.
    + intros info Hv Hr. apply Visits_cons in Hv. destruct Hv as [Hv | Hv].
      * destruct (Hcomplete1 info Hv Hr) as (file & Hin & Hs).
        exists file. split; [|exact Hs]. apply in_or_app. now left.
      * destruct (Hcomplete2 info Hv Hr) as (file & Hin & Hs).
        exists file. split; [|exact Hs]. apply in_or_app. now right.
Qed.

Lemma Visits_file (depth : nat) (info i : FileRecord) :
  Visits excluded depth [FileScanner.FileEntry info] i -> i = info.
Proof.
  intros H. inversion H as [d its i' Hin | d its sub dir i' Hin Hlt Hex Hsub];
    subst; destruct Hin as [Hin | []]; [|discriminate Hin].
  now injection Hin.
Qed.

Lemma Visits_other (depth : nat) (info i : FileRecord) :
  ~ Visits excluded depth [FileScanner.OtherEntry info] i.
Proof.
  intros H. inversion H as [d its i' Hin | d its sub dir i' Hin Hlt Hex Hsub];
    subst; destruct Hin as [Hin | []]; discriminate Hin.
Qed.

Lemma Visits_directory (depth : nat) (info i : FileRecord)
  (listing : option (list FileScanner.Entry)) :
  Visits excluded depth [FileScanner.DirectoryEntry info listing] i ->
  (depth < FileScanner.maxDepth)%nat
  /\ excluded (path info) = false
  /\ exists sub, listing = Some sub /\ Visits excluded (S depth) sub i.
Proof.
  intros H. inversion H as [d its i' Hin | d its sub dir i' Hin Hlt Hex Hsub];
    subst; destruct Hin as [Hin | []]; [discriminate Hin|].
  injection Hin as Hdir Hlisting. subst dir.
  split; [exact Hlt|]. split; [exact Hex|]. exists sub. now split.
Qed.

Lemma scanItem_walk (item : FileScanner.Entry) :
  forall depth files n,
  exists new n',
    scanItem depth item (files, n) = (files ++ new, n')
    /\ Adds (Visits excluded depth [item]) new.
Proof.
  unfold scanItem.
  assert (Hskip : forall (files : list FileRecord) (n : nat)
                         (P : FileRecord -> Prop),
             (forall i, P i -> False) ->
             exists new n',
               (files, n) = (files ++ new, n') /\ Adds P new).
  { intros files n P HP. exists [], n. rewrite app_nil_r.
    split; [reflexivity|].
    split; [intros file [] | intros i Hi; now apply HP in Hi]. }
  induction item as [info | info listing IH | info] using Entry_listing_ind;
    intros depth files n; cbn [FileScanner.scanItem].
  - destruct (FileScanner.isRecentFile info cutoffDate) eqn:Hrecent.
    + pose proof (getDetailedFileInfo_SameFile info n) as Hsame.
      destruct (FileScanner.getDetailedFileInfo config fsStat mathRandom
                  info n) as [fileInfo n'].
      exists [fileInfo], n'. split; [reflexivity|]. split.
      * intros file [<- | []]. exists info. split; [|now split].
        apply Visits_here. now left.
      * intros i Hv _. apply Visits_file in Hv. subst i.
        exists fileInfo. split; [now left | exact Hsame].
    + exists [], n. rewrite app_nil_r. split; [reflexivity|]. split.
      * intros file [].
      * intros i Hv Hr. apply Visits_file in Hv. subst i. congruence.
  - destruct (Nat.ltb_spec depth FileScanner.maxDepth) as [Hlt | Hge].
    + unfold FileScanner.scanListing.
      destruct (FileScanner.shouldExcludePath config normalize toLowerCase
                  (path info)) eqn:Hex.
      * rewrite app_nil_r. apply Hskip. intros i Hv.
        apply Visits_directory in Hv. destruct Hv as (_ & Hex' & _).
        unfold excluded in Hex'. congruence.
      * destruct listing as [items|].
        -- destruct (scanItems_walk
                       (FileScanner.scanItem config normalize toLowerCase
                          fsStat mathRandom cutoffDate (S depth))
                       (S depth) items) with (files := @nil FileRecord)
                                             (n := n)
             as (new & n' & Heq & [Hsound Hcomplete]).
           { eapply Forall_impl; [|exact IH]. intros item Hitem fs m.
             apply Hitem. }
           rewrite Heq. cbn [app]. exists new, n'. split; [reflexivity|].
           split.
           ++ intros file Hin. destruct (Hsound file Hin) as (i & Hv & Hr & Hs).
              exists i. split; [|now split].
              apply (Visits_below _ _ _ items info); try assumption.
              now left.
           ++ intros i Hv Hr. apply Hcomplete; [|exact Hr].
              apply Visits_directory in Hv.
              destruct Hv as (_ & _ & sub & [= <-] & Hsub). exact Hsub.
        -- rewrite app_nil_r. apply Hskip. intros i Hv.
           apply Visits_directory in Hv.
           destruct Hv as (_ & _ & sub & [=] & _).
    + apply Hskip. intros i Hv. apply Visits_directory in Hv. lia.
  - apply Hskip. intros i Hv. now apply Visits_other in Hv.
Qed.

(** X4. [scanDirectory] returns nothing for an excluded path and for a
    listing that throws. Otherwise every record it returns carries the
    name, path, extension, size and times of a recent file item the walk
    comes to, and every such item has its record: the walk comes to the
    files of the listing and to those of the listed directories that are
    not excluded and are met at a depth below 10. *)
Theorem scanDirectory_returns_visited_recent_files (directoryPath : string)
  (listing : option (list FileScanner.Entry)) (depth draws : nat) :
  let result :=
    fst (scanDirectory directoryPath listing cutoffDate depth draws) in
  (excluded directoryPath = true -> result = [])
  /\ (listing = None -> result = [])
  /\ (forall items,
        listing = Some items -> excluded directoryPath = false ->
        (forall file, In file result ->
           exists info,
             Visits excluded depth items info
             /\ FileScanner.isRecentFile info cutoffDate = true
             /\ SameFile file info)
        /\ (forall info,
              Visits excluded depth items info ->
              FileScanner.isRecentFile info cutoffDate = true ->
              exists file, In file result /\ SameFile file info)).
Proof.
  unfold scanDirectory, FileScanner.scanDirectory, FileScanner.scanListing,
    excluded.
  cbv zeta. split; [|split].
  - intros ->. reflexivity.
  - intros ->. now destruct (FileScanner.shouldExcludePath _ _ _ _).
  - intros items -> ->.
    destruct (scanItems_walk (scanItem depth) depth items)
      with (files := @nil FileRecord) (n := draws)
      as (new & n' & Heq & Hadds).
    { apply Forall_forall. intros item _ files n. apply scanItem_walk. }
    unfold scanItem in Heq. rewrite Heq. exact Hadds.
Qed.

End Walk.

(** ** Scan paths and the order of deduplication *)

Lemma fold_left_filter_skip {A B : Type} (f : A -> B -> A) (p : B -> bool)
  (l : list B) :
  (forall a x, p x = false -> f a x = a) ->
  forall a, fold_left f (filter p l) a = fold_left f l a.
Proof.
  intros Hskip. induction l as [|x l IH]; intros a; cbn; [reflexivity|].
  destruct (p x) eqn:Hp; cbn.
  - apply IH.
  - now rewrite (Hskip a x Hp).
Qed.

(** X5. Scan paths that do not exist, are excluded, or cannot be listed
    add nothing to a scan: [scanRecentFiles] returns the same records
    when they are left out. *)
Theorem scanRecentFiles_skips_dead_paths (config : option Config.t)
  (normalize toLowerCase expandPath : string -> string)
  (fsStat : string -> option (Z * Z)) (mathRandom : nat -> string)
  (cutoffDate : Z) (scanPaths : list FileScanner.Root) :
  FileScanner.scanRecentFiles config normalize toLowerCase expandPath fsStat
    mathRandom cutoffDate
    (filter
       (contributes
          (FileScanner.shouldExcludePath config normalize toLowerCase)
          expandPath)
       scanPaths)
  = FileScanner.scanRecentFiles config normalize toLowerCase expandPath fsStat
      mathRandom cutoffDate scanPaths.
Proof.
  unfold FileScanner.scanRecentFiles.
  rewrite fold_left_filter_skip; [reflexivity|].
  intros [allFiles draws] root Hdead. unfold contributes in Hdead.
  destruct (FileScanner.pathExists root); [|reflexivity].
  unfold FileScanner.scanDirectory, FileScanner.scanListing.
  destruct (FileScanner.shouldExcludePath config normalize toLowerCase
              (expandPath (FileScanner.scanPath root)));
    [now rewrite app_nil_r|].
  destruct (FileScanner.rootListing root); [discriminate|].
  now rewrite app_nil_r.
Qed.

Lemma firstSeen_app (l1 l2 : list FileRecord) :
  forall seen,
    firstSeen seen (l1 ++ l2)
    = firstSeen seen l1
        ++ firstSeen (seen ++ map FileScanner.dedupKey (firstSeen seen l1)) l2.
Proof.
  induction l1 as [|f l1 IH]; intros seen; cbn.
  - now rewrite app_nil_r.
  - destruct (existsb _ seen); [apply IH|].
    cbn. rewrite IH, <- app_assoc. reflexivity.
Qed.

(** X6. [removeDuplicates] changes nothing in its own output, and over
    two lists in a row it keeps what it keeps of the first list, in
    place, followed by records of the second list whose keys the first
    list does not have. *)
Theorem removeDuplicates_composes (files more : list FileRecord) :
  FileScanner.removeDuplicates (FileScanner.removeDuplicates files)
  = FileScanner.removeDuplicates files
  /\ exists rest,
      FileScanner.removeDuplicates (files ++ more)
      = FileScanner.removeDuplicates files ++ rest
      /\ Subseq rest more
      /\ forall file, In file rest ->
           ~ In (FileScanner.dedupKey file)
               (map FileScanner.dedupKey files).
Proof.
  split.
  - rewrite (removeDuplicates_firstSeen (FileScanner.removeDuplicates files)).
    apply firstSeen_all_distinct; [|intros f _ []].
    rewrite removeDuplicates_firstSeen. apply firstSeen_fresh.
  - rewrite !removeDuplicates_firstSeen, firstSeen_app. cbn [app].
    eexists. split; [reflexivity|]. split; [apply firstSeen_Subseq|].
    intros file Hfile Hkey.
    destruct (firstSeen_fresh
                (map FileScanner.dedupKey (firstSeen [] files)) more)
      as [_ Hfresh].
    apply (Hfresh file Hfile).
    apply in_map_iff in Hkey. destruct Hkey as (g & Hg & Hgin).
    destruct (firstSeen_keeps_first [] files g Hgin) as (first & _ & Hkept);
      [intros []|].
    assert (Hin : In first (filter (sameKey g) (firstSeen [] files)))
      by (rewrite Hkept; now left).
    apply filter_In in Hin. destruct Hin as [Hin Hsame].
    unfold sameKey in Hsame. apply String.eqb_eq in Hsame.
    rewrite <- Hg, <- Hsame. now apply in_map.
Qed.

(** ** Size labels and relative ages *)

(** X7. Under the shipped table [getSizeCategory] labels a negative
    size "未知" and every other size with one of the five range names:
    up to 1024 "微小", up to 1048576 "小", up to 104857600 "中", up to
    1073741824 "大", above that "巨大", each upper bound included. *)
Theorem getSizeCategory_shipped_labels (sz : Z) :
  FileScanner.getSizeCategory (Some Config.shipped) sz
  = if sz <? 0 then unknownLabel
    else if sz <=? 1024 then "微小"%string
    else if sz <=? 1048576 then "小"%string
    else if sz <=? 104857600 then "中"%string
    else if sz <=? 1073741824 then "大"%string
    else "巨大"%string.
Proof.
  unfold FileScanner.getSizeCategory.
  cbn [Config.shipped Config.sizeCategories FileScanner.firstRange].
  unfold FileScanner.inRange.
  cbn [Config.range Config.min Config.max].
  destruct (Z.ltb_spec sz 0) as [Hneg | Hpos].
  - settle_comparisons. reflexivity.
  - destruct (size_position sz Hpos) as [H|[H|[H|[H|[H|[H|[H|[H|H]]]]]]]];
      settle_comparisons; reflexivity.
Qed.

(** X8. [getRelativeAge] labels a file created within the last day
    "今天" and one created the day before "昨天"; a file whose creation
    time lies in the future gets a negative number of days; from the
    eighth day on the label counts whole weeks, one to four, and from
    the thirty-first day whole months of thirty days, one or more. *)
Theorem getRelativeAge_ranges (now createdTime : Z) :
  let age := Scanner.getRelativeAge now createdTime in
  let diff := now - createdTime in
  (0 <= diff < Scanner.msPerDay -> age = "今天"%string)
  /\ (Scanner.msPerDay <= diff < 2 * Scanner.msPerDay -> age = "昨天"%string)
  /\ (diff < 0 ->
      exists d, d < 0 /\ age = (Js.numberToString d ++ "天前")%string)
  /\ (2 * Scanner.msPerDay <= diff < 8 * Scanner.msPerDay ->
      exists d, 2 <= d <= 7 /\ age = (Js.numberToString d ++ "天前")%string)
  /\ (8 * Scanner.msPerDay <= diff < 31 * Scanner.msPerDay ->
      exists w, 1 <= w <= 4 /\ age = (Js.numberToString w ++ "周前")%string)
  /\ (31 * Scanner.msPerDay <= diff ->
      exists m, 1 <= m /\ age = (Js.numberToString m ++ "月前")%string).
Proof.
  cbv zeta. unfold Scanner.getRelativeAge.
  change Scanner.msPerDay with 86400000.
  pose proof (Z.div_mod (now - createdTime) 86400000 ltac:(lia)) as Hdiv.
  pose proof (Z.mod_pos_bound (now - createdTime) 86400000 ltac:(lia)) as Hmod.
  set (d := (now - createdTime) / 86400000) in *.
  repeat split; intros Hrange.
  - settle_comparisons. reflexivity.
  - settle_comparisons. reflexivity.
  - exists d. split; [lia|]. settle_comparisons. reflexivity.
  - exists d. split; [lia|]. settle_comparisons. reflexivity.
  - exists (d / 7). split; [|settle_comparisons; reflexivity].
    pose proof (Z.div_mod d 7 ltac:(lia)).
    pose proof (Z.mod_pos_bound d 7 ltac:(lia)). lia.
  - exists (d / 30). split; [|settle_comparisons; reflexivity].
    pose proof (Z.div_mod d 30 ltac:(lia)).
    pose proof (Z.mod_pos_bound d 30 ltac:(lia)). lia.
Qed.

(** ** The flags of [getDetailedFileInfo] *)

Lemma In_literal_disjoint (x : string) (l1 l2 : list string) :
  forallb (fun a => negb (existsb (String.eqb a) l2)) l1 = true ->
  existsb (String.eqb x) l1 = true ->
  existsb (String.eqb x) l2 = false.
Proof.
  intros Hdis Hin. apply existsb_eqb_In in Hin.
  rewrite forallb_forall in Hdis. specialize (Hdis x Hin).
  now apply negb_true_iff in Hdis.
Qed.

(** X9. For an extension that is a string, at most one of the flags
    [isExecutable], [isArchive] and [isMedia] is set; for any other
    extension the three tests throw and [getDetailedFileInfo] adds no
    flags. *)
Theorem file_flags_exclusive
  (toLowerCase extname : string -> string) (now : Z) (file : FileRecord) :
  (forall s, extension file = Js.Str s ->
     exists e a m,
       Scanner.detailsOf toLowerCase extname now file
       = Some {| Scanner.mimeType :=
                   Scanner.getMimeType toLowerCase extname (path file);
                 Scanner.relativeAge :=
                   Scanner.getRelativeAge now (createdTime file);
                 Scanner.isExecutable := e;
                 Scanner.isArchive := a;
                 Scanner.isMedia := m |}
       /\ Scanner.isExecutableFile toLowerCase (Js.Str s) = Js.Normal e
       /\ Scanner.isArchiveFile toLowerCase (Js.Str s) = Js.Normal a
       /\ Scanner.isMediaFile toLowerCase (Js.Str s) = Js.Normal m
       /\ e && a = false /\ e && m = false /\ a && m = false)
  /\ ((forall s, extension file <> Js.Str s) ->
      Scanner.detailsOf toLowerCase extname now file = None).
Proof.
  split.
  - intros s Hs. unfold Scanner.detailsOf. rewrite Hs.
    unfold Scanner.isExecutableFile, Scanner.isArchiveFile,
      Scanner.isMediaFile, Scanner.includesLowered.
    do 3 eexists. split; [reflexivity|]. repeat split.
    + destruct (existsb _ Scanner.executableExts) eqn:He; [|reflexivity].
      cbn [andb]. now apply (In_literal_disjoint _ Scanner.executableExts).
    + destruct (existsb _ Scanner.executableExts) eqn:He; [|reflexivity].
      cbn [andb]. now apply (In_literal_disjoint _ Scanner.executableExts).
    + destruct (existsb _ Scanner.archiveExts) eqn:Ha; [|reflexivity].
      cbn [andb]. now apply (In_literal_disjoint _ Scanner.archiveExts).
  - intros Hnot. unfold Scanner.detailsOf, Scanner.isExecutableFile,
      Scanner.includesLowered.
    destruct (extension file) as [|s|n]; try reflexivity.
    now destruct (Hnot s).
Qed.

(** ** The totals of a classification result *)



Lemma sumSizes_zsum (files : list FileRecord) :
  FileClassifier.sumSizes files = zsum (map size files).
Proof.
  unfold FileClassifier.sumSizes.
  assert (H : forall acc,
             fold_left (fun sum file => sum + size file) files acc
             = acc + zsum (map size files)).
  { induction files as [|f files IH]; intros acc; cbn; [lia|].
    rewrite IH. fold (zsum (map size files)). lia. }
  rewrite H. lia.
Qed.





Section Totals.

Variable cfg : Config.t.
Variable toLowerCase : string -> string.

Let names := map fst (Config.fileCategories cfg).




End Totals.




(** ** Searching *)

Section SearchFacts.

Variable toLowerCase : string -> string.

Lemma searchItems_collect (criteria : MCPClient.Criteria)
  (items : list FileScanner.Entry) :
  Forall
    (fun item => forall results,
         MCPClient.searchItem toLowerCase criteria item results
         = results
             ++ filter
                  (fun f => MCPClient.matchesCriteria toLowerCase f criteria)
                  (filesOf (MCPClient.isRecursive criteria) item))
    items ->
  forall results,
    fold_left
      (fun results file =>
         MCPClient.searchItem toLowerCase criteria file results)
      items results
    = results
        ++ filter (fun f => MCPClient.matchesCriteria toLowerCase f criteria)
             (filesBelow (MCPClient.isRecursive criteria) items).
Proof.
  induction 1 as [|item items Hitem _ IH]; intros results.
  - cbn. now rewrite app_nil_r.
  - cbn [fold_left filesBelow flat_map]. rewrite Hitem, IH.
    unfold filesBelow. now rewrite filter_app, app_assoc.
Qed.

Lemma searchItem_collect (criteria : MCPClient.Criteria)
  (item : FileScanner.Entry) :
  forall results,
    MCPClient.searchItem toLowerCase criteria item results
    = results
        ++ filter (fun f => MCPClient.matchesCriteria toLowerCase f criteria)
             (filesOf (MCPClient.isRecursive criteria) item).
Proof.
  induction item as [info | info listing IH | info] using Entry_listing_ind;
    intros results; cbn [MCPClient.searchItem filesOf].
  - cbn [filter].
    now destruct (MCPClient.matchesCriteria toLowerCase info criteria);
      [|rewrite app_nil_r].
  - destruct (MCPClient.isRecursive criteria) eqn:Hrec.
    + destruct listing as [items|]; cbn [MCPClient.searchItems].
      * pose proof (searchItems_collect criteria items) as Hitems.
        rewrite Hrec in Hitems. now rewrite (Hitems IH).
      * now rewrite app_nil_r.
    + destruct listing; now rewrite app_nil_r.
  - now rewrite app_nil_r.
Qed.

End SearchFacts.

(** X11. [searchFilesRecursive] appends to [results] the file items of
    the listing that match the criteria, in the order of the listing,
    each file of a listed subdirectory at the place of that directory;
    it enters subdirectories, to any depth, exactly when
    [criteria.recursive] is given and true, and adds nothing when the
    listing fails. *)
Theorem searchFilesRecursive_collects_matches
  (toLowerCase : string -> string)
  (listing : option (list FileScanner.Entry))
  (criteria : MCPClient.Criteria) (results : list FileRecord) :
  MCPClient.searchFilesRecursive toLowerCase listing criteria results
  = results
      ++ filter (fun f => MCPClient.matchesCriteria toLowerCase f criteria)
           match listing with
           | Some items => filesBelow (MCPClient.isRecursive criteria) items
           | None => []
           end.
Proof.
  unfold MCPClient.searchFilesRecursive, MCPClient.searchItems.
  destruct listing as [items|]; [|now rewrite app_nil_r].
  apply searchItems_collect, Forall_forall. intros item _.
  apply searchItem_collect.
Qed.

Lemma search_loop_pool (toLowerCase resolve : string -> string)
  (enablePathValidation : bool) (allowedDirectories : list string)
  (expandPath : string -> string) (criteria : MCPClient.Criteria)
  (paths : list MCPClient.SearchRoot) :
  MCPClient.isRecursive criteria = true ->
  forall allResults,
    fold_left
      (fun allResults root =>
         let expanded :=
           {| MCPClient.searchPath := expandPath (MCPClient.searchPath root);
              MCPClient.searchListing := MCPClient.searchListing root |} in
         match MCPClient.searchFiles toLowerCase resolve enablePathValidation
                 allowedDirectories expanded criteria
         with
         | Some results => allResults ++ results
         | None => allResults
         end)
      paths allResults
    = allResults
        ++ filter (fun f => MCPClient.matchesCriteria toLowerCase f criteria)
             (searchPool
                (fun p =>
                   MCPClient.validatePath resolve enablePathValidation
                     allowedDirectories (expandPath p))
                paths).
Proof.
  intros Hrec. induction paths as [|root paths IH]; intros allResults.
  - cbn. now rewrite app_nil_r.
  - cbn [fold_left searchPool flat_map]. cbv zeta. rewrite IH.
    unfold MCPClient.searchFiles. cbn [MCPClient.searchPath
                                        MCPClient.searchListing].
    fold (searchPool
            (fun p =>
               MCPClient.validatePath resolve enablePathValidation
                 allowedDirectories (expandPath p)) paths).
    rewrite filter_app.
    destruct (MCPClient.validatePath resolve enablePathValidation
                allowedDirectories (expandPath (MCPClient.searchPath root))).
    + unfold MCPClient.searchFilesRecursive, MCPClient.searchItems.
      destruct (MCPClient.searchListing root) as [items|].
      * rewrite (searchItems_collect toLowerCase criteria items).
        -- rewrite Hrec. cbn [app]. now rewrite app_assoc.
        -- apply Forall_forall. intros item _. apply searchItem_collect.
      * cbn. now rewrite app_nil_r.
    + reflexivity.
Qed.

(** X12. [FileScanner.searchFiles] returns [removeDuplicates] of the
    matching file items found under the search paths that the client
    accepts and can list, in the order of the paths and of the walk:
    subdirectories are entered to any depth, no path is excluded, and
    a path that is rejected or fails to list adds nothing. The
    criterion [modifiedBefore] has no effect on the result. *)
Theorem searchFiles_returns_matching_files
  (toLowerCase resolve : string -> string) (enablePathValidation : bool)
  (allowedDirectories : list string) (expandPath : string -> string)
  (searchCriteria : FileSearch.SearchCriteria)
  (paths : list MCPClient.SearchRoot) :
  let searchFiles :=
    FileSearch.searchFiles toLowerCase resolve enablePathValidation
      allowedDirectories expandPath in
  searchFiles searchCriteria paths
  = FileScanner.removeDuplicates
      (filter
         (fun f =>
            MCPClient.matchesCriteria toLowerCase f
              (FileSearch.clientCriteria searchCriteria))
         (searchPool
            (fun p =>
               MCPClient.validatePath resolve enablePathValidation
                 allowedDirectories (expandPath p))
            paths))
  /\ forall t,
      searchFiles (withModifiedBefore t searchCriteria) paths
      = searchFiles searchCriteria paths.
Proof.
  cbv zeta.
  assert (Heq : forall sc,
             FileSearch.searchFiles toLowerCase resolve enablePathValidation
               allowedDirectories expandPath sc paths
             = FileScanner.removeDuplicates
                 (filter
                    (fun f =>
                       MCPClient.matchesCriteria toLowerCase f
                         (FileSearch.clientCriteria sc))
                    (searchPool
                       (fun p =>
                          MCPClient.validatePath resolve enablePathValidation
                            allowedDirectories (expandPath p))
                       paths))).
  { intros sc. unfold FileSearch.searchFiles.
    f_equal.
    exact (search_loop_pool toLowerCase resolve enablePathValidation
             allowedDirectories expandPath (FileSearch.clientCriteria sc)
             paths eq_refl []). }
  split; [apply Heq|].
  intros t. rewrite !Heq. reflexivity.
Qed.

Lemma Visits_filesBelow (excluded : string -> bool) (depth : nat)
  (items : list FileScanner.Entry) (info : FileRecord) :
  Visits excluded depth items info -> In info (filesBelow true items).
Proof.
  induction 1 as [depth items info Hin
                 | depth items sub dir info Hin _ _ _ IH];
    apply in_flat_map.
  - exists (FileScanner.FileEntry info). split; [exact Hin | now left].
  - exists (FileScanner.DirectoryEntry dir (Some sub)).
    split; [exact Hin | exact IH].
Qed.

(** X13. Every record [scanDirectory] returns for a listing carries the
    data of a file item of that listing which a recursive search of
    the same listing reaches, and which [searchFilesRecursive] returns
    whenever the item matches the criteria of the search: the scan
    sees no file that a recursive search cannot find. *)
Theorem scanned_files_are_searchable (config : option Config.t)
  (normalize toLowerCase : string -> string)
  (fsStat : string -> option (Z * Z)) (mathRandom : nat -> string)
  (cutoffDate : Z) (directoryPath : string)
  (items : list FileScanner.Entry) (depth draws : nat)
  (criteria : MCPClient.Criteria) (file : FileRecord) :
  MCPClient.isRecursive criteria = true ->
  In file
    (fst (FileScanner.scanDirectory config normalize toLowerCase fsStat
            mathRandom directoryPath (Some items) cutoffDate depth draws)) ->
  exists info,
    SameFile file info
    /\ FileScanner.isRecentFile info cutoffDate = true
    /\ In info (filesBelow true items)
    /\ (MCPClient.matchesCriteria toLowerCase info criteria = true ->
        In info
          (MCPClient.searchFilesRecursive toLowerCase (Some items) criteria
             [])).
Proof.
  intros Hrec. unfold FileScanner.scanDirectory, FileScanner.scanListing.
  destruct (FileScanner.shouldExcludePath config normalize toLowerCase
              directoryPath); [intros []|].
  destruct (scanItems_walk config normalize toLowerCase cutoffDate
              (FileScanner.scanItem config normalize toLowerCase fsStat
                 mathRandom cutoffDate depth)
              depth items) with (files := @nil FileRecord) (n := draws)
    as (new & n' & Heq & Hsound & _).
  { apply Forall_forall. intros item _ files n. apply scanItem_walk. }
  rewrite Heq. cbn [fst app]. intros Hin.
  destruct (Hsound file Hin) as (info & Hvisit & Hrecent & Hsame).
  exists info. apply Visits_filesBelow in Hvisit.
  repeat split; try assumption; try apply Hsame.
  intros Hmatch.
  unfold MCPClient.searchFilesRecursive, MCPClient.searchItems.
  rewrite (searchItems_collect toLowerCase criteria items).
  - rewrite Hrec. cbn [app]. apply filter_In. now split.
  - apply Forall_forall. intros item _. apply searchItem_collect.
Qed.

Lemma scanned_files_are_searchable_witness :
  exists info,
    SameFile (nth 1 sampleScan Sample.e_txt) info
    /\ FileScanner.isRecentFile info 1000 = true
    /\ In info (filesBelow true sampleItems)
    /\ (MCPClient.matchesCriteria Sample.toLowerCase info imageCriteria = true ->
        In info
          (MCPClient.searchFilesRecursive Sample.toLowerCase
             (Some sampleItems) imageCriteria [])).
Proof.
  apply (scanned_files_are_searchable (Some Config.shipped) Sample.normalize
           Sample.toLowerCase sampleStat sampleRandom 1000 Sample.desktop
           sampleItems 0 0 imageCriteria (nth 1 sampleScan Sample.e_txt)).
  - reflexivity.
  - vm_compute. right. left. reflexivity.
Defined.

(** ** The counting loops of the statistics *)

Lemma get_set_same {V : Type} (k : string) (v : V) (o : Js.object V) :
  Js.get k (Js.set k v o) = Some v.
Proof.
  induction o as [|[k' v'] o IH]; cbn.
  - now rewrite String.eqb_refl.
  - destruct (String.eqb_spec k k') as [-> | Hne]; cbn.
    + now rewrite String.eqb_refl.
    + apply String.eqb_neq in Hne. now rewrite Hne.
Qed.

Lemma get_set_other {V : Type} (k k' : string) (v : V) (o : Js.object V) :
  k <> k' -> Js.get k (Js.set k' v o) = Js.get k o.
Proof.
  intros Hne. induction o as [|[k'' v''] o IH]; cbn.
  - apply String.eqb_neq in Hne. now rewrite Hne.
  - destruct (String.eqb_spec k' k'') as [-> | Hne']; cbn.
    + apply String.eqb_neq in Hne. now rewrite Hne.
    + now rewrite IH.
Qed.

Lemma set_present_keys {V : Type} (k : string) (v : V) (o : Js.object V) :
  In k (map fst o) -> map fst (Js.set k v o) = map fst o.
Proof.
  induction o as [|[k' v'] o IH]; cbn; [intros []|].
  destruct (String.eqb_spec k k') as [-> | Hne]; cbn; [reflexivity|].
  intros [Heq | Hin]; [congruence|]. now rewrite IH.
Qed.

Lemma set_NoDup {V : Type} (k : string) (v : V) (o : Js.object V) :
  NoDup (map fst o) -> NoDup (map fst (Js.set k v o)).
Proof.
  intros Hnd. destruct (in_dec string_dec k (map fst o)) as [Hin | Hnot].
  - now rewrite set_present_keys.
  - rewrite (set_absent k v o Hnot), map_app. cbn.
    apply NoDup_app; [assumption | repeat constructor; intros [] |].
    intros k' Hk' [<- | []]. contradiction.
Qed.

Lemma In_get {V : Type} (k : string) (v : V) (o : Js.object V) :
  NoDup (map fst o) -> In (k, v) o -> Js.get k o = Some v.
Proof.
  induction o as [|[k' v'] o IH]; cbn; [intros _ []|].
  intros Hnd [Heq | Hin].
  - injection Heq as -> ->. now rewrite String.eqb_refl.
  - apply NoDup_cons_iff in Hnd. destruct Hnd as [Hk' Hnd].
    destruct (String.eqb_spec k k') as [-> | _].
    + exfalso. apply Hk'. apply in_map_iff. now exists (k', v).
    + now apply IH.
Qed.

Lemma get_In {V : Type} (k : string) (v : V) (o : Js.object V) :
  Js.get k o = Some v -> In (k, v) o.
Proof.
  induction o as [|[k' v'] o IH]; cbn; [discriminate|].
  destruct (String.eqb_spec k k') as [-> | _].
  - intros [= ->]. now left.
  - intros H. right. now apply IH.
Qed.

Section GroupingFacts.

Context {A V : Type}.
Variable key : A -> string.
Variable init : A -> V.
Variable upd : V -> A -> V.

Lemma groupStep_get (o : Js.object V) (x : A) (k : string) :
  Js.get k (groupStep key init upd o x)
  = if String.eqb (key x) k
    then Some (upd match Js.get k o with
                   | Some v => v
                   | None => init x
                   end x)
    else Js.get k o.
Proof.
  unfold groupStep.
  destruct (String.eqb_spec (key x) k) as [<- | Hne].
  - destruct (Js.get (key x) o) as [v|] eqn:Hget.
    + rewrite Hget. apply get_set_same.
    + rewrite get_set_same. apply get_set_same.
  - assert (Hne' : k <> key x) by congruence.
    destruct (Js.get (key x) o) as [v|] eqn:Hget.
    + rewrite Hget. now apply get_set_other.
    + rewrite get_set_same, !get_set_other by assumption. reflexivity.
Qed.

Lemma groupStep_NoDup (o : Js.object V) (x : A) :
  NoDup (map fst o) -> NoDup (map fst (groupStep key init upd o x)).
Proof.
  intros Hnd. unfold groupStep.
  destruct (Js.get (key x) o) as [v|] eqn:Hget.
  - rewrite Hget. now apply set_NoDup.
  - rewrite get_set_same. now apply set_NoDup, set_NoDup.
Qed.

Lemma groupEntry_snoc (processed : list A) (x : A) (k : string)
  (o : Js.object V) :
  Js.get k o = groupEntry init upd (groupOf key k processed) ->
  (if String.eqb (key x) k
   then Some (upd match Js.get k o with
                  | Some v => v
                  | None => init x
                  end x)
   else Js.get k o)
  = groupEntry init upd (groupOf key k (processed ++ [x])).
Proof.
  intros Hget. unfold groupOf in *. rewrite filter_app. cbn [filter].
  destruct (String.eqb (key x) k); [|now rewrite app_nil_r].
  rewrite Hget.
  destruct (filter (fun y => String.eqb (key y) k) processed)
    as [|first group]; [reflexivity|].
  change (groupEntry init upd ((first :: group) ++ [x]))
    with (Some (fold_left upd ((first :: group) ++ [x]) (init first))).
  rewrite fold_left_app. reflexivity.
Qed.

(** The loop keeps, for every key, the entry of the elements met so
    far that have the key. *)
Lemma group_loop (l : list A) :
  forall processed o,
    NoDup (map fst o) ->
    (forall k, Js.get k o
               = groupEntry init upd (groupOf key k processed)) ->
    NoDup (map fst (fold_left (groupStep key init upd) l o))
    /\ forall k,
        Js.get k (fold_left (groupStep key init upd) l o)
        = groupEntry init upd (groupOf key k (processed ++ l)).
Proof.
  induction l as [|x l IH]; intros processed o Hnd Hget.
  - cbn. rewrite app_nil_r. now split.
  - cbn [fold_left].
    replace (processed ++ x :: l) with ((processed ++ [x]) ++ l)
      by (now rewrite <- app_assoc).
    apply IH; [now apply groupStep_NoDup|].
    intros k. rewrite groupStep_get. now apply groupEntry_snoc.
Qed.

Lemma group_fold (l : list A) :
  NoDup (map fst (fold_left (groupStep key init upd) l []))
  /\ forall k,
      Js.get k (fold_left (groupStep key init upd) l [])
      = groupEntry init upd (groupOf key k l).
Proof.
  apply (group_loop l [] []); [constructor | reflexivity].
Qed.

End GroupingFacts.

Lemma sizeEntry_fold (group : list FileRecord) (e : SizeDistribution.Entry) :
  fold_left
    (fun e file =>
       {| SizeDistribution.count := S (SizeDistribution.count e);
          SizeDistribution.totalSize :=
            SizeDistribution.totalSize e + size file;
          SizeDistribution.files := SizeDistribution.files e ++ [file] |})
    group e
  = {| SizeDistribution.count :=
         (SizeDistribution.count e + List.length group)%nat;
       SizeDistribution.totalSize :=
         SizeDistribution.totalSize e + FileClassifier.sumSizes group;
       SizeDistribution.files := SizeDistribution.files e ++ group |}.
Proof.
  revert e. induction group as [|f group IH]; intros e.
  - cbn [fold_left]. change (FileClassifier.sumSizes []) with 0.
    destruct e. cbn. f_equal; [lia | lia | now rewrite app_nil_r].
  - cbn [fold_left]. rewrite IH. cbn [SizeDistribution.count
      SizeDistribution.totalSize SizeDistribution.files].
    rewrite !sumSizes_zsum. cbn [map List.length].
    change (zsum (?a :: ?r)) with (a + zsum r).
    f_equal; [lia | lia | now rewrite <- app_assoc].
Qed.

(** X14. [analyzeSizeDistribution] holds one entry for each size label
    that a record of the result carries ("未知" standing for a record
    without label) and none for any other label; the entry of a label
    has the number of the records with that label as [count], the sum
    of their sizes as [totalSize], and these records, in the order of
    [getAllFiles], as [files]. *)
Theorem analyzeSizeDistribution_groups_by_label
  (cats : Js.object (list FileRecord)) (label : string) :
  let allFiles := FileClassifier.getAllFiles cats in
  Js.get label (SizeDistribution.analyzeSizeDistribution cats)
  = sizeEntry (groupOf SizeDistribution.labelOf label allFiles)
  /\ NoDup (map fst (SizeDistribution.analyzeSizeDistribution cats)).
Proof.
  cbv zeta. unfold SizeDistribution.analyzeSizeDistribution.
  destruct (group_fold SizeDistribution.labelOf
              (fun _ => {| SizeDistribution.count := 0;
                           SizeDistribution.totalSize := 0;
                           SizeDistribution.files := [] |})
              (fun e file =>
                 {| SizeDistribution.count := S (SizeDistribution.count e);
                    SizeDistribution.totalSize :=
                      SizeDistribution.totalSize e + size file;
                    SizeDistribution.files :=
                      SizeDistribution.files e ++ [file] |})
              (FileClassifier.getAllFiles cats)) as [Hnd Hget].
  split; [|exact Hnd].
  etransitivity; [apply Hget|].
  destruct (groupOf SizeDistribution.labelOf label
              (FileClassifier.getAllFiles cats)) as [|first group];
    [reflexivity|].
  unfold groupEntry, sizeEntry. now rewrite sizeEntry_fold.
Qed.

(** ** The extension statistics *)

Section SortAny.

Context {A : Type}.
Variable key : A -> Z.
Variable cmp : A -> A -> Z.
Hypothesis cmp_key : forall x y, (cmp x y >? 0) = (key y <? key x).

Lemma insertSorted_any_Permutation (x : A) (l : list A) :
  Permutation (Js.insertSorted cmp x l) (x :: l).
Proof.
  induction l as [|y l IH]; cbn; [reflexivity|].
  destruct (cmp x y >? 0); [|reflexivity].
  rewrite IH. apply perm_swap.
Qed.

Lemma sort_any_Permutation (l : list A) : Permutation (Js.sort cmp l) l.
Proof.
  induction l as [|x l IH]; cbn; [reflexivity|].
  rewrite insertSorted_any_Permutation. now apply perm_skip.
Qed.

Lemma insertSorted_any_sorted (x : A) (l : list A) :
  StronglySorted (fun a b => key a <= key b) l ->
  StronglySorted (fun a b => key a <= key b) (Js.insertSorted cmp x l).
Proof.
  induction 1 as [|y l Hsorted IH Hy]; cbn.
  - repeat constructor.
  - rewrite cmp_key. destruct (Z.ltb_spec (key y) (key x)) as [Hlt | Hge].
    + constructor; [exact IH|].
      apply Forall_forall. intros z Hz.
      apply (Permutation_in _ (insertSorted_any_Permutation x l)) in Hz.
      destruct Hz as [<- | Hz]; [lia|].
      rewrite Forall_forall in Hy. now apply Hy.
    + constructor; [now constructor|].
      constructor; [exact Hge|].
      eapply Forall_impl; [|exact Hy]. cbn. intros z Hz. lia.
Qed.

Lemma sort_any_sorted (l : list A) :
  StronglySorted (fun a b => key a <= key b) (Js.sort cmp l).
Proof.
  induction l as [|x l IH]; cbn; [constructor|].
  now apply insertSorted_any_sorted.
Qed.

(** An element of a sorted list that is not among the first [n] comes
    after each of them. *)
Lemma firstn_sorted_least (n : nat) (l : list A) (x y : A) :
  StronglySorted (fun a b => key a <= key b) l ->
  In x (firstn n l) -> In y (skipn n l) -> key x <= key y.
Proof.
  revert n. induction l as [|z l IH]; intros n Hsorted Hx Hy.
  - rewrite firstn_nil in Hx. destruct Hx.
  - destruct n as [|n]; [destruct Hx|].
    apply StronglySorted_inv in Hsorted. destruct Hsorted as [Hsorted Hz].
    cbn in Hx, Hy. destruct Hx as [<- | Hx].
    + rewrite Forall_forall in Hz. apply Hz.
      rewrite <- (firstn_skipn n l). apply in_or_app. now right.
    + now apply (IH n).
Qed.

End SortAny.

Lemma fromEntries_distinct (l : list (string * ExtensionStats.Entry)) :
  NoDup (map fst l) -> ExtensionStats.fromEntries l = l.
Proof.
  unfold ExtensionStats.fromEntries.
  assert (Hgen : forall acc,
             NoDup (map fst acc ++ map fst l) ->
             fold_left (fun o kv => Js.set (fst kv) (snd kv) o) l acc
             = acc ++ l).
  { induction l as [|[k v] l IH]; intros acc Hnd; cbn [fold_left].
    - now rewrite app_nil_r.
    - cbn [map fst snd] in *.
      rewrite set_absent.
      + rewrite IH, <- app_assoc; [reflexivity|].
        rewrite map_app, <- app_assoc. exact Hnd.
      + intros Hin. apply NoDup_remove_2 in Hnd. apply Hnd.
        apply in_or_app. now left. }
  intros Hnd. apply (Hgen []). exact Hnd.
Qed.

Lemma extensionEntry_fold (group : list FileRecord)
  (e : ExtensionStats.Entry) :
  fold_left
    (fun e file =>
       {| ExtensionStats.count := S (ExtensionStats.count e);
          ExtensionStats.totalSize := ExtensionStats.totalSize e + size file;
          ExtensionStats.category := ExtensionStats.category e |})
    group e
  = {| ExtensionStats.count :=
         (ExtensionStats.count e + List.length group)%nat;
       ExtensionStats.totalSize :=
         ExtensionStats.totalSize e + FileClassifier.sumSizes group;
       ExtensionStats.category := ExtensionStats.category e |}.
Proof.
  revert e. induction group as [|f group IH]; intros e.
  - cbn [fold_left]. change (FileClassifier.sumSizes []) with 0.
    destruct e. cbn. f_equal; lia.
  - cbn [fold_left]. rewrite IH. cbn [ExtensionStats.count
      ExtensionStats.totalSize ExtensionStats.category].
    rewrite !sumSizes_zsum. cbn [map List.length].
    change (zsum (?a :: ?r)) with (a + zsum r).
    f_equal; lia.
Qed.

(** The counting loop of [analyzeExtensions]. *)
Lemma extension_counts (allFiles : list FileRecord) :
  NoDup (map fst (fold_left ExtensionStats.addFile allFiles []))
  /\ forall ext,
      Js.get ext (fold_left ExtensionStats.addFile allFiles [])
      = extensionEntry (groupOf ExtensionStats.keyOf ext allFiles).
Proof.
  destruct (group_fold ExtensionStats.keyOf
              (fun file =>
                 {| ExtensionStats.count := 0;
                    ExtensionStats.totalSize := 0;
                    ExtensionStats.category :=
                      ExtensionStats.categoryOfFile file |})
              (fun e file =>
                 {| ExtensionStats.count := S (ExtensionStats.count e);
                    ExtensionStats.totalSize :=
                      ExtensionStats.totalSize e + size file;
                    ExtensionStats.category := ExtensionStats.category e |})
              allFiles) as [Hnd Hget].
  split; [exact Hnd|]. intros ext.
  etransitivity; [apply Hget|].
  destruct (groupOf ExtensionStats.keyOf ext allFiles) as [|first group];
    [reflexivity|].
  unfold groupEntry, extensionEntry. now rewrite extensionEntry_fold.
Qed.

(** X15. [analyzeExtensions] reports at most 20 extensions, each once.
    The entry of a reported extension has the number of the records
    with that extension as [count], the sum of their sizes as
    [totalSize], and the category of the first of them as [category]
    ("无扩展名" standing for a record without extension). When the
    extension of a record is not reported, 20 extensions are, and each
    of them occurs at least as often as the one left out. *)
Theorem analyzeExtensions_reports_most_frequent
  (cats : Js.object (list FileRecord)) :
  let allFiles := FileClassifier.getAllFiles cats in
  let result := ExtensionStats.analyzeExtensions cats in
  (List.length result <= 20)%nat
  /\ NoDup (map fst result)
  /\ (forall ext e,
        Js.get ext result = Some e ->
        extensionEntry (groupOf ExtensionStats.keyOf ext allFiles) = Some e)
  /\ (forall file,
        In file allFiles ->
        Js.get (ExtensionStats.keyOf file) result = None ->
        List.length result = 20%nat
        /\ forall ext e,
            Js.get ext result = Some e ->
            (List.length
               (groupOf ExtensionStats.keyOf (ExtensionStats.keyOf file)
                  allFiles)
             <= ExtensionStats.count e)%nat).
Proof.
  cbv zeta. unfold ExtensionStats.analyzeExtensions, Js.slice0.
  set (allFiles := FileClassifier.getAllFiles cats).
  destruct (extension_counts allFiles) as [Hnd Hget].
  set (stats := fold_left ExtensionStats.addFile allFiles []) in *.
  set (cmp := fun a b : string * ExtensionStats.Entry =>
                Z.of_nat (ExtensionStats.count (snd b))
                - Z.of_nat (ExtensionStats.count (snd a))).
  set (key := fun a : string * ExtensionStats.Entry =>
                - Z.of_nat (ExtensionStats.count (snd a))).
  assert (Hcmp : forall x y, (cmp x y >? 0) = (key y <? key x)).
  { intros x y. unfold cmp, key.
    destruct (Z.gtb_spec
                (Z.of_nat (ExtensionStats.count (snd y))
                 - Z.of_nat (ExtensionStats.count (snd x))) 0);
      destruct (Z.ltb_spec
                  (- Z.of_nat (ExtensionStats.count (snd y)))
                  (- Z.of_nat (ExtensionStats.count (snd x))));
      try reflexivity; lia. }
  set (sorted := Js.sort cmp (Js.entries stats)).
  assert (Hperm : Permutation sorted stats).
  { unfold sorted. rewrite (sort_any_Permutation cmp).
    apply entries_Permutation. }
  assert (Hsorted : StronglySorted (fun a b => key a <= key b) sorted).
  { apply (sort_any_sorted key cmp Hcmp). }
  assert (Hnds : NoDup (map fst sorted)).
  { eapply Permutation_NoDup; [|exact Hnd].
    symmetry. now apply Permutation_map. }
  assert (Hndt : NoDup (map fst (firstn 20 sorted))).
  { rewrite <- firstn_map. now apply firstn_NoDup. }
  rewrite (fromEntries_distinct _ Hndt).
  assert (Hentry : forall ext e,
             Js.get ext (firstn 20 sorted) = Some e ->
             Js.get ext stats = Some e).
  { intros ext e Hin. apply get_In, firstn_In in Hin.
    apply In_get; [exact Hnd|].
    now apply (Permutation_in _ Hperm). }
  split; [rewrite length_firstn; lia|].
  split; [exact Hndt|]. split.
  - intros ext e Hin. rewrite <- Hget. now apply Hentry.
  - intros file Hfile Hnone.
    set (k := ExtensionStats.keyOf file) in *.
    assert (Hgroup : In file (groupOf ExtensionStats.keyOf k allFiles)).
    { apply filter_In. split; [exact Hfile | apply String.eqb_refl]. }
    pose proof (Hget k) as Hk.
    destruct (groupOf ExtensionStats.keyOf k allFiles) as [|first group]
      eqn:Hg; [destruct Hgroup|].
    cbn [extensionEntry] in Hk.
    set (st := {| ExtensionStats.count := List.length (first :: group);
                  ExtensionStats.totalSize :=
                    FileClassifier.sumSizes (first :: group);
                  ExtensionStats.category := category first |}) in *.
    assert (Hin : In (k, st) sorted).
    { apply (Permutation_in _ (Permutation_sym Hperm)). now apply get_In. }
    assert (Hrest : In (k, st) (skipn 20 sorted)).
    { rewrite <- (firstn_skipn 20 sorted) in Hin.
      apply in_app_or in Hin. destruct Hin as [Hin | Hin]; [|exact Hin].
      apply (In_get _ _ _ Hndt) in Hin. congruence. }
    split.
    + rewrite length_firstn.
      destruct (Nat.le_gt_cases (List.length sorted) 20) as [Hle | Hgt];
        [|lia].
      rewrite skipn_all2 in Hrest by exact Hle. destruct Hrest.
    + intros ext e Hin'. apply get_In in Hin'.
      pose proof (firstn_sorted_least key 20 sorted (ext, e) (k, st)
                    Hsorted Hin' Hrest) as Hle.
      unfold key in Hle. cbn [snd ExtensionStats.count st] in Hle.
      unfold st in Hle. cbn [ExtensionStats.count] in Hle. lia.
Qed.

(** ** Custom categories *)

Lemma firstCategory_app (ext : string)
  (cats more : list (string * Config.CategoryConfig)) :
  FileClassifier.firstCategory ext (cats ++ more)
  = if declares ext cats then FileClassifier.firstCategory ext cats
    else FileClassifier.firstCategory ext more.
Proof.
  induction cats as [|[c cc] cats IH]; cbn; [reflexivity|].
  destruct (existsb (String.eqb ext) (Config.extensions cc));
    [reflexivity | exact IH].
Qed.

(** The enumeration of an object whose last property was added under a
    name that is no array index. *)
Lemma entries_append_name {V : Type} (o : Js.object V) (k : string) (v : V) :
  Js.arrayIndex k = None ->
  Js.entries (o ++ [(k, v)]) = Js.entries o ++ [(k, v)].
Proof.
  intros Hk. unfold Js.entries. rewrite !filter_app. cbn [filter].
  unfold Js.isIndexKey at 2 4. cbn [fst]. rewrite Hk. cbn [negb].
  now rewrite app_nil_r, app_assoc.
Qed.

(** The enumeration of an object without array-index keys to which a
    property with such a key was added. *)
Lemma entries_append_index {V : Type} (o : Js.object V) (k : string) (v : V) :
  Js.arrayIndex k <> None ->
  (forall kv, In kv o -> Js.arrayIndex (fst kv) = None) ->
  Js.entries (o ++ [(k, v)]) = (k, v) :: o.
Proof.
  intros Hk Ho. unfold Js.entries. rewrite !filter_app. cbn [filter].
  unfold Js.isIndexKey at 2 4. cbn [fst].
  destruct (Js.arrayIndex k) as [n|]; [|now destruct Hk]. cbn [negb].
  rewrite (filter_none Js.isIndexKey o).
  - rewrite app_nil_r. cbn. f_equal. apply filter_all.
    intros kv Hkv. unfold Js.isIndexKey. now rewrite (Ho kv Hkv).
  - intros kv Hkv. unfold Js.isIndexKey. now rewrite (Ho kv Hkv).
Qed.

Lemma arrayIndex_not_inherited (k : string) :
  Js.arrayIndex k <> None -> Js.inherited k = false.
Proof.
  intros Hk. destruct (Js.inherited k) eqn:Hin; [|reflexivity].
  exfalso. apply Hk. unfold Js.inherited in Hin.
  apply existsb_eqb_In in Hin. cbn [Js.prototypeMembers In] in Hin.
  repeat (destruct Hin as [<- | Hin]; [reflexivity|]). destruct Hin.
Qed.

(** X16. [addCustomCategory] leaves the policy as it is when the name
    is taken, and also when it is the name of a member of
    [Object.prototype], such as "constructor". A new category under any
    other name that is no array index comes last: every extension an
    existing category declares keeps its category, and of the others
    those the new category declares now go to it. A new category under
    a name that is an array index (a numeral such as "7") comes first
    in a policy without such names: every extension it declares goes
    to it, also one that an existing category declares. *)
Theorem addCustomCategory_extends_policy (cfg cfg' : Config.t)
  (toLowerCase : string -> string) (categoryName : string)
  (categoryConfig : Policy.CustomCategory) :
  Js.entries (Config.fileCategories cfg) = Config.fileCategories cfg ->
  Policy.addCustomCategory categoryName categoryConfig (Some cfg)
  = Js.Normal cfg' ->
  let declared := Config.extensions (Policy.customEntry categoryConfig) in
  (In categoryName (map fst (Config.fileCategories cfg))
   \/ Js.inherited categoryName = true ->
   cfg' = cfg)
  /\ (~ In categoryName (map fst (Config.fileCategories cfg)) ->
      Js.inherited categoryName = false ->
      Js.arrayIndex categoryName = None ->
      forall file s,
        extension file = Js.Str s -> s <> EmptyString ->
        FileClassifier.classifyFile (Some cfg') toLowerCase file
        = if declares (toLowerCase s) (Config.fileCategories cfg)
          then FileClassifier.classifyFile (Some cfg) toLowerCase file
          else if existsb (String.eqb (toLowerCase s)) declared
               then Js.Normal categoryName
               else Js.Normal otherCategory)
  /\ (~ In categoryName (map fst (Config.fileCategories cfg)) ->
      Js.arrayIndex categoryName <> None ->
      (forall kv, In kv (Config.fileCategories cfg) ->
                  Js.arrayIndex (fst kv) = None) ->
      forall file s,
        extension file = Js.Str s -> s <> EmptyString ->
        FileClassifier.classifyFile (Some cfg') toLowerCase file
        = if existsb (String.eqb (toLowerCase s)) declared
          then Js.Normal categoryName
          else FileClassifier.classifyFile (Some cfg) toLowerCase file).
Proof.
  intros Hentries. unfold Policy.addCustomCategory. cbv zeta.
  destruct (Js.get categoryName (Config.fileCategories cfg)) as [cc|] eqn:Hget.
  - intros [= <-].
    assert (Hin : In categoryName (map fst (Config.fileCategories cfg))).
    { destruct (in_dec string_dec categoryName
                  (map fst (Config.fileCategories cfg))) as [Hin | Hnot];
        [exact Hin|].
      apply get_None_iff in Hnot. congruence. }
    split; [reflexivity|]. split; intros Hnot; contradiction.
  - apply get_None_iff in Hget.
    destruct (Js.inherited categoryName) eqn:Hproto.
    { intros [= <-]. split; [reflexivity|]. split.
      - intros _ Hfalse. discriminate Hfalse.
      - intros _ Hname. apply arrayIndex_not_inherited in Hname. congruence. }
    intros [= <-].
    split; [intros [Hin | Hfalse]; [contradiction | discriminate]|].
    assert (Hclassify : forall c file s,
               extension file = Js.Str s -> s <> EmptyString ->
               FileClassifier.classifyFile (Some c) toLowerCase file
               = Js.Normal
                   (FileClassifier.firstCategory (toLowerCase s)
                      (Config.fileCategories c))).
    { intros c file s Hs Hne. unfold FileClassifier.classifyFile.
      rewrite Hs. cbn [Js.truthy]. apply String.eqb_neq in Hne.
      now rewrite Hne. }
    rewrite (set_absent categoryName _ _ Hget).
    split.
    + intros _ _ Hname file s Hs Hne.
      rewrite !(Hclassify _ file s Hs Hne). cbn [Config.fileCategories].
      rewrite (entries_append_name _ _ _ Hname), Hentries, firstCategory_app.
      destruct (declares (toLowerCase s) (Config.fileCategories cfg));
        [reflexivity|].
      cbn [FileClassifier.firstCategory].
      now destruct (existsb (String.eqb (toLowerCase s)) _).
    + intros _ Hname Hplain file s Hs Hne.
      rewrite !(Hclassify _ file s Hs Hne). cbn [Config.fileCategories].
      rewrite (entries_append_index _ _ _ Hname Hplain).
      cbn [FileClassifier.firstCategory].
      now destruct (existsb (String.eqb (toLowerCase s)) _).
Qed.

(** Under the shipped policy a category of design files that declares
    ".pdf" leaves "b.pdf" where it was when it is added by name, takes
    it when it is added as "7", and is not added as "constructor". *)
Lemma addCustomCategory_extends_policy_witness :
  FileClassifier.classifyFile (Some shippedWithDesign) Sample.toLowerCase
    Sample.b_pdf
  = FileClassifier.classifyFile (Some Config.shipped) Sample.toLowerCase
      Sample.b_pdf
  /\ FileClassifier.classifyFile (Some shippedWithNumber) Sample.toLowerCase
       Sample.b_pdf
     = Js.Normal "7"%string
  /\ shippedWithConstructor = Config.shipped.
Proof.
  split; [|split].
  - refine (proj1 (proj2 (addCustomCategory_extends_policy Config.shipped
                            shippedWithDesign Sample.toLowerCase "设计类"%string
                            designCategory _ _)) _ _ _ Sample.b_pdf
              ".pdf"%string _ _).
    + vm_compute. reflexivity.
    + vm_compute. reflexivity.
    + vm_compute. intuition discriminate.
    + vm_compute. reflexivity.
    + vm_compute. reflexivity.
    + reflexivity.
    + discriminate.
  - refine (proj2 (proj2 (addCustomCategory_extends_policy Config.shipped
                            shippedWithNumber Sample.toLowerCase "7"%string
                            designCategory _ _)) _ _ _ Sample.b_pdf ".pdf"%string _ _).
    + vm_compute. reflexivity.
    + vm_compute. reflexivity.
    + vm_compute. intuition discriminate.
    + vm_compute. discriminate.
    + intros kv Hkv. vm_compute in Hkv.
      repeat (destruct Hkv as [<- | Hkv]; [vm_compute; reflexivity|]).
      destruct Hkv.
    + reflexivity.
    + discriminate.
  - refine (proj1 (addCustomCategory_extends_policy Config.shipped
                     shippedWithConstructor Sample.toLowerCase
                     "constructor"%string designCategory _ _) _).
    + vm_compute. reflexivity.
    + vm_compute. reflexivity.
    + right. vm_compute. reflexivity.
Defined.

(** ** Classification by content *)

(** X17. The category [classifyByMimeType] gives to the MIME type that
    [getMimeType] finds for a path is the category of the shipped
    policy for the extension of the path when that extension is one of
    the twelve of the MIME table, and "其他类" for every other
    extension. *)
Theorem mime_classification_agrees_with_policy
  (toLowerCase extname : string -> string) (filePath : string) :
  let ext := toLowerCase (extname filePath) in
  Content.classifyByMimeType
    (Scanner.getMimeType toLowerCase extname filePath)
  = match Js.get ext Scanner.mimeMap with
    | Some _ =>
        FileClassifier.firstCategory ext
          (Config.fileCategories Config.shipped)
    | None => otherCategory
    end.
Proof.
  cbv zeta. unfold Scanner.getMimeType.
  generalize (toLowerCase (extname filePath)). intros ext.
  unfold Scanner.mimeMap. cbn [Js.get].
  repeat match goal with
         | |- context [String.eqb ext ?lit] =>
             destruct (String.eqb_spec ext lit) as [-> | _];
             [vm_compute; reflexivity|]
         end.
  vm_compute. reflexivity.
Qed.

Lemma getMimeType_nonempty (toLowerCase extname : string -> string)
  (filePath : string) :
  Js.truthyString (Some (Scanner.getMimeType toLowerCase extname filePath))
  = true.
Proof.
  unfold Scanner.getMimeType.
  generalize (toLowerCase (extname filePath)). intros ext.
  unfold Scanner.mimeMap. cbn [Js.get].
  repeat match goal with
         | |- context [String.eqb ext ?lit] =>
             destruct (String.eqb ext lit); [vm_compute; reflexivity|]
         end.
  vm_compute. reflexivity.
Qed.

(** X18. For a record with a string extension that
    [getDetailedFileInfo] completed, [classifyByContent] returns
    without reading the file name and without falling back to
    [classifyFile]: the flags decide, then the MIME type. Under the
    shipped policy it departs from [classifyFile]: a record with the
    extension ".mp3" or ".wav" is "视频类" by content and "音频类" by
    extension, and one with ".bat", ".cmd", ".com" or ".scr" is
    "程序类" by content and "其他类" by extension. *)
Theorem classifyByContent_decides_by_flags (config : option Config.t)
  (toLowerCase extname : string -> string) (now : Z) (file : FileRecord)
  (s : string) :
  extension file = Js.Str s ->
  exists d,
    Scanner.detailsOf toLowerCase extname now file = Some d
    /\ Content.classifyByContent config toLowerCase file (Some d)
       = Js.Normal
           (if existsb (String.eqb (toLowerCase s)) Scanner.executableExts
            then "程序类"%string
            else if existsb (String.eqb (toLowerCase s)) Scanner.archiveExts
            then "压缩包"%string
            else if existsb (String.eqb (toLowerCase s)) Scanner.mediaExts
            then (if Content.matchesImage s then "图片类" else "视频类")%string
            else Content.classifyByMimeType
                   (Scanner.getMimeType toLowerCase extname (path file)))
    /\ (toLowerCase s = s ->
        (In s [".mp3"; ".wav"]%string ->
         Content.classifyByContent (Some Config.shipped) toLowerCase file
           (Some d) = Js.Normal "视频类"%string
         /\ FileClassifier.classifyFile (Some Config.shipped) toLowerCase file
            = Js.Normal "音频类"%string)
        /\ (In s [".bat"; ".cmd"; ".com"; ".scr"]%string ->
            Content.classifyByContent (Some Config.shipped) toLowerCase file
              (Some d) = Js.Normal "程序类"%string
            /\ FileClassifier.classifyFile (Some Config.shipped) toLowerCase
                 file = Js.Normal otherCategory)).
Proof.
  intros Hs. unfold Scanner.detailsOf, Scanner.isExecutableFile,
    Scanner.isArchiveFile, Scanner.isMediaFile, Scanner.includesLowered.
  rewrite Hs. eexists. split; [reflexivity|].
  assert (Hcontent : forall config,
             Content.classifyByContent config toLowerCase file
               (Some
                  {| Scanner.mimeType :=
                       Scanner.getMimeType toLowerCase extname (path file);
                     Scanner.relativeAge :=
                       Scanner.getRelativeAge now (createdTime file);
                     Scanner.isExecutable :=
                       existsb (String.eqb (toLowerCase s))
                         Scanner.executableExts;
                     Scanner.isArchive :=
                       existsb (String.eqb (toLowerCase s))
                         Scanner.archiveExts;
                     Scanner.isMedia :=
                       existsb (String.eqb (toLowerCase s))
                         Scanner.mediaExts |})
             = Js.Normal
                 (if existsb (String.eqb (toLowerCase s))
                       Scanner.executableExts
                  then "程序类"%string
                  else if existsb (String.eqb (toLowerCase s))
                            Scanner.archiveExts
                  then "压缩包"%string
                  else if existsb (String.eqb (toLowerCase s))
                            Scanner.mediaExts
                  then (if Content.matchesImage s
                        then "图片类" else "视频类")%string
                  else Content.classifyByMimeType
                         (Scanner.getMimeType toLowerCase extname
                            (path file)))).
  { intros cfg. unfold Content.classifyByContent.
    cbn [Scanner.isExecutable Scanner.isArchive Scanner.isMedia
         Scanner.mimeType].
    rewrite Hs, getMimeType_nonempty.
    destruct (existsb (String.eqb (toLowerCase s)) Scanner.executableExts);
      [reflexivity|].
    destruct (existsb (String.eqb (toLowerCase s)) Scanner.archiveExts);
      [reflexivity|].
    destruct (existsb (String.eqb (toLowerCase s)) Scanner.mediaExts);
      reflexivity. }
  split; [apply Hcontent|].
  intros Hlower.
  assert (Hfile : s <> EmptyString ->
            FileClassifier.classifyFile (Some Config.shipped) toLowerCase file
            = Js.Normal
                (FileClassifier.firstCategory s
                   (Config.fileCategories Config.shipped))).
  { intros Hne. unfold FileClassifier.classifyFile. rewrite Hs.
    cbn [Js.truthy]. apply String.eqb_neq in Hne.
    now rewrite Hne, Hlower. }
  rewrite Hcontent, Hlower.
  split; intros Hin; cbn [In] in Hin;
    repeat (destruct Hin as [<- | Hin];
            [split; [vm_compute; reflexivity
                    | rewrite Hfile by discriminate; vm_compute; reflexivity]
            |]);
    destruct Hin.
Qed.

Lemma classifyByContent_decides_by_flags_witness :
  exists d,
    Scanner.detailsOf Sample.toLowerCase lastFour 1700000600000 song = Some d
    /\ Content.classifyByContent (Some Config.shipped) Sample.toLowerCase
         song (Some d)
       = Js.Normal "视频类"%string
    /\ FileClassifier.classifyFile (Some Config.shipped) Sample.toLowerCase
         song
       = Js.Normal "音频类"%string.
Proof.
  destruct (classifyByContent_decides_by_flags (Some Config.shipped)
              Sample.toLowerCase lastFour 1700000600000 song ".mp3"%string
              eq_refl) as (d & Hd & _ & Hdepart).
  exists d. split; [exact Hd|].
  apply (proj1 (Hdepart eq_refl)). left. reflexivity.
Defined.

(** ** The analysis of file changes *)

Lemma getSizeCategory_label (sz : Z) :
  existsb (String.eqb (Main.getSizeCategory sz)) sizeLabels = true.
Proof.
  unfold Main.getSizeCategory.
  destruct (sz <? 1024); [reflexivity|].
  destruct (sz <? 1024 * 1024); [reflexivity|].
  destruct (sz <? 100 * 1024 * 1024); [reflexivity|].
  destruct (sz <? 1024 * 1024 * 1024); reflexivity.
Qed.

Lemma pushGroup_groupStep (k : string) (key : FileRecord -> string)
  (file : FileRecord) (o : Js.object (list FileRecord)) :
  key file = k -> Js.inherited k = false ->
  Reporter.pushGroup k file o
  = Js.Normal
      (groupStep key (fun _ => @nil FileRecord) (fun l f => l ++ [f]) o file).
Proof.
  intros <- Hown. unfold Reporter.pushGroup, groupStep. rewrite Hown.
  destruct (Js.get (key file) o) as [l|] eqn:Hget.
  - now rewrite Hget.
  - now rewrite get_set_same.
Qed.

Lemma pushGroup_get (key : FileRecord -> string) (processed : list FileRecord)
  (file : FileRecord) (o : Js.object (list FileRecord)) :
  Js.inherited (key file) = false ->
  (forall k, Js.get k o = nonEmpty (groupOf key k processed)) ->
  exists o',
    Reporter.pushGroup (key file) file o = Js.Normal o'
    /\ forall k, Js.get k o' = nonEmpty (groupOf key k (processed ++ [file])).
Proof.
  intros Hown Hget. eexists.
  split; [now apply (pushGroup_groupStep _ key)|].
  intros k. rewrite groupStep_get. unfold groupOf. rewrite filter_app.
  cbn [filter].
  destruct (String.eqb (key file) k) eqn:Hk.
  - rewrite Hget. unfold groupOf.
    destruct (filter (fun x => String.eqb (key x) k) processed);
      reflexivity.
  - rewrite app_nil_r. apply Hget.
Qed.

(** A key that names a member of [Object.prototype] and that no record
    so far has makes the push throw. *)
Lemma pushGroup_inherited (key : FileRecord -> string)
  (processed : list FileRecord) (file : FileRecord)
  (o : Js.object (list FileRecord)) :
  Js.inherited (key file) = true ->
  (forall f, In f processed -> Js.inherited (key f) = false) ->
  (forall k, Js.get k o = nonEmpty (groupOf key k processed)) ->
  exists e, Reporter.pushGroup (key file) file o = Js.Throw e.
Proof.
  intros Hproto Hprocessed Hget. unfold Reporter.pushGroup.
  assert (Hnone : Js.get (key file) o = None).
  { rewrite Hget. unfold groupOf.
    rewrite (filter_none _ processed); [reflexivity|].
    intros f Hf. apply String.eqb_neq. intros Heq.
    specialize (Hprocessed f Hf). congruence. }
  rewrite Hnone, Hproto, Hnone. eauto.
Qed.

Lemma addFile_AnalysisAfter (dirname : string -> string) (now : Z)
  (processed : list FileRecord) (a : Reporter.Analysis) (file : FileRecord) :
  inheritedKey dirname file = false ->
  AnalysisAfter dirname now processed a ->
  exists a',
    Reporter.addFile dirname now a file = Js.Normal a'
    /\ AnalysisAfter dirname now (processed ++ [file]) a'.
Proof.
  intros Hown (Hnew & Hmod & Htoday & Hyest & Hold & Hsize & Hcat & Hdir).
  apply orb_false_iff in Hown. destruct Hown as [Hc Hd].
  destruct (pushGroup_get Reporter.categoryKey processed file _ Hc Hcat)
    as (byCategory' & Hpush1 & Hcat').
  destruct (pushGroup_get (fun f => dirname (path f)) processed file _ Hd Hdir)
    as (pathDistribution' & Hpush2 & Hdir').
  unfold Reporter.addFile. cbv zeta.
  rewrite Hpush1. cbn [Js.bind].
  rewrite Hsize, getSizeCategory_label, Hpush2. cbn [Js.bind].
  eexists. split; [reflexivity|].
  unfold AnalysisAfter.
  cbn [Reporter.newFiles Reporter.modifiedFiles Reporter.todayFiles
       Reporter.yesterdayFiles Reporter.olderFiles Reporter.byCategory
       Reporter.bySize Reporter.pathDistribution].
  rewrite Hnew, Hmod, Htoday, Hyest, Hold, !filter_app. cbn [filter].
  repeat split.
  - now destruct (Reporter.isNew file); [|rewrite app_nil_r].
  - now destruct (Reporter.isNew file); cbn [negb]; [rewrite app_nil_r|].
  - now destruct (Reporter.daysDiff now file =? 0); [|rewrite app_nil_r].
  - destruct (Z.eqb_spec (Reporter.daysDiff now file) 0) as [H0 | H0].
    + rewrite H0. cbn. now rewrite app_nil_r.
    + now destruct (Reporter.daysDiff now file =? 1); [|rewrite app_nil_r].
  - destruct (Reporter.daysDiff now file =? 0); cbn [negb andb];
      [now rewrite app_nil_r|].
    now destruct (Reporter.daysDiff now file =? 1); cbn [negb];
      [rewrite app_nil_r|].
  - intros label.
    destruct (String.eqb_spec label (Main.getSizeCategory (size file)))
      as [-> | Hne].
    + rewrite get_set_same, getSizeCategory_label. unfold groupOf.
      rewrite filter_app. cbn [filter]. now rewrite String.eqb_refl.
    + rewrite (get_set_other _ _ _ _ Hne), Hsize. unfold groupOf.
      rewrite filter_app. cbn [filter].
      assert (Hne' : String.eqb (Main.getSizeCategory (size file)) label
                     = false).
      { apply String.eqb_neq. congruence. }
      rewrite Hne', app_nil_r. reflexivity.
  - exact Hcat'.
  - exact Hdir'.
Qed.

Lemma addFile_inherited (dirname : string -> string) (now : Z)
  (processed : list FileRecord) (a : Reporter.Analysis) (file : FileRecord) :
  inheritedKey dirname file = true ->
  existsb (inheritedKey dirname) processed = false ->
  AnalysisAfter dirname now processed a ->
  exists e, Reporter.addFile dirname now a file = Js.Throw e.
Proof.
  intros Hproto Hprocessed (_ & _ & _ & _ & _ & Hsize & Hcat & Hdir).
  assert (Hown : forall f, In f processed ->
                   Js.inherited (Reporter.categoryKey f) = false
                   /\ Js.inherited (dirname (path f)) = false).
  { intros f Hf. apply orb_false_iff.
    destruct (inheritedKey dirname f) eqn:Hkey; [|exact Hkey].
    assert (Hex : existsb (inheritedKey dirname) processed = true).
    { apply existsb_exists. now exists f. }
    congruence. }
  unfold Reporter.addFile. cbv zeta.
  destruct (Js.inherited (Reporter.categoryKey file)) eqn:Hc.
  - destruct (pushGroup_inherited Reporter.categoryKey processed file
                (Reporter.byCategory a) Hc)
      as [e He]; [intros f Hf; now apply Hown | exact Hcat |].
    rewrite He. cbn [Js.bind]. eauto.
  - unfold inheritedKey in Hproto. rewrite Hc in Hproto. cbn [orb] in Hproto.
    destruct (pushGroup_get Reporter.categoryKey processed file _ Hc Hcat)
      as (byCategory' & Hpush1 & _).
    rewrite Hpush1. cbn [Js.bind].
    rewrite Hsize, getSizeCategory_label.
    destruct (pushGroup_inherited (fun f => dirname (path f)) processed file
                (Reporter.pathDistribution a) Hproto) as [e He];
      [intros f Hf; now apply Hown | exact Hdir |].
    rewrite He. cbn [Js.bind]. eauto.
Qed.

Lemma addFiles_AnalysisAfter (dirname : string -> string) (now : Z)
  (rest : list FileRecord) :
  forall processed a,
    existsb (inheritedKey dirname) rest = false ->
    AnalysisAfter dirname now processed a ->
    exists a',
      Reporter.addFiles dirname now rest a = Js.Normal a'
      /\ AnalysisAfter dirname now (processed ++ rest) a'.
Proof.
  induction rest as [|file rest IH]; intros processed a Hown Hinv.
  - exists a. rewrite app_nil_r. now split.
  - cbn [existsb] in Hown. apply orb_false_iff in Hown.
    destruct Hown as [Hfile Hrest].
    destruct (addFile_AnalysisAfter dirname now processed a file Hfile Hinv)
      as (a1 & Hstep & Hinv1).
    destruct (IH (processed ++ [file]) a1 Hrest Hinv1)
      as (a' & Hrun & Hinv').
    exists a'. cbn [Reporter.addFiles]. rewrite Hstep. cbn [Js.bind].
    split; [exact Hrun|]. now rewrite <- app_assoc in Hinv'.
Qed.

Lemma addFiles_inherited (dirname : string -> string) (now : Z)
  (rest : list FileRecord) :
  forall processed a,
    existsb (inheritedKey dirname) processed = false ->
    existsb (inheritedKey dirname) rest = true ->
    AnalysisAfter dirname now processed a ->
    exists e, Reporter.addFiles dirname now rest a = Js.Throw e.
Proof.
  induction rest as [|file rest IH]; intros processed a Hprocessed Hproto Hinv;
    [discriminate|].
  cbn [Reporter.addFiles].
  destruct (inheritedKey dirname file) eqn:Hfile.
  - destruct (addFile_inherited dirname now processed a file Hfile
                Hprocessed Hinv) as [e He].
    rewrite He. cbn [Js.bind]. eauto.
  - cbn [existsb] in Hproto. rewrite Hfile in Hproto. cbn [orb] in Hproto.
    destruct (addFile_AnalysisAfter dirname now processed a file Hfile Hinv)
      as (a1 & Hstep & Hinv1).
    rewrite Hstep. cbn [Js.bind].
    apply (IH (processed ++ [file])); [|exact Hproto | exact Hinv1].
    rewrite existsb_app, Hprocessed. cbn [existsb]. now rewrite Hfile.
Qed.

Lemma initial_AnalysisAfter (dirname : string -> string) (now : Z) :
  AnalysisAfter dirname now [] Reporter.initial.
Proof.
  unfold AnalysisAfter. cbn. repeat split.
  intros label. repeat (destruct (String.eqb label _); [reflexivity|]).
  reflexivity.
Qed.

(** X19. [analyzeFileChanges] throws when the category of some record,
    or the directory of its path, is the name of a member of
    [Object.prototype] (such as "constructor" or "toString"), and
    returns otherwise. In the result it returns, [newFiles] and
    [modifiedFiles] are the records whose creation and modification
    times differ by less than a minute and the others; [todayFiles],
    [yesterdayFiles] and [olderFiles] are the records created zero,
    one and any other number of whole days before now; [bySize] has
    the five labels of [getSizeCategory], each with the records of that
    label; [byCategory] and [pathDistribution] hold, for every category
    and every directory some record has, the records with it. Every
    sequence keeps the order of the input, so each of the five
    groupings splits the input into parts that have no record in
    common. *)
Theorem analyzeFileChanges_splits_input (dirname : string -> string)
  (now : Z) (files : list FileRecord) :
  (existsb (inheritedKey dirname) files = true ->
   exists e, Reporter.analyzeFileChanges dirname now files = Js.Throw e)
  /\ (existsb (inheritedKey dirname) files = false ->
      exists a,
        Reporter.analyzeFileChanges dirname now files = Js.Normal a
        /\ AnalysisAfter dirname now files a
        /\ Permutation (Reporter.newFiles a ++ Reporter.modifiedFiles a)
             files
        /\ Permutation
             (Reporter.todayFiles a ++ Reporter.yesterdayFiles a
                ++ Reporter.olderFiles a)
             files).
Proof.
  split.
  - intros Hproto.
    apply (addFiles_inherited dirname now files [] Reporter.initial);
      [reflexivity | exact Hproto | apply initial_AnalysisAfter].
  - intros Hown.
    destruct (addFiles_AnalysisAfter dirname now files [] Reporter.initial
                Hown (initial_AnalysisAfter dirname now))
      as (a & Hrun & Hinv).
    change ([] ++ files) with files in Hinv.
    exists a. split; [exact Hrun|]. split; [exact Hinv|].
    destruct Hinv as (Hnew & Hmod & Htoday & Hyest & Hold & _).
    rewrite Hnew, Hmod, Htoday, Hyest, Hold. split.
    + apply filter_split_Permutation.
    + clear. induction files as [|f files IH]; cbn [filter]; [reflexivity|].
      destruct (Z.eqb_spec (Reporter.daysDiff now f) 0) as [H0 | H0];
        cbn [negb andb app].
      * assert (H1 : (Reporter.daysDiff now f =? 1) = false)
          by (apply Z.eqb_neq; lia).
        rewrite H1. now apply perm_skip.
      * destruct (Reporter.daysDiff now f =? 1); cbn [negb].
        -- cbn [app]. rewrite <- Permutation_middle. now apply perm_skip.
        -- rewrite app_assoc, <- Permutation_middle, <- app_assoc.
           now apply perm_skip.
Qed.

(** ** The entries of the summary *)

Lemma get_Permutation {V : Type} (o o' : Js.object V) (k : string) :
  NoDup (map fst o) -> Permutation o o' -> Js.get k o = Js.get k o'.
Proof.
  intros Hnd Hperm.
  assert (Hnd' : NoDup (map fst o')).
  { eapply Permutation_NoDup; [|exact Hnd]. now apply Permutation_map. }
  destruct (Js.get k o) as [v|] eqn:Hget.
  - symmetry. apply In_get; [exact Hnd'|].
    apply (Permutation_in _ Hperm). now apply get_In.
  - symmetry. apply get_None_iff. apply get_None_iff in Hget.
    intros Hin. apply Hget.
    apply (Permutation_in _ (Permutation_sym (Permutation_map fst Hperm))).
    exact Hin.
Qed.

Lemma generateSummary_get_loop (config : option Config.t)
  (l : list (string * list FileRecord)) :
  NoDup (map fst l) ->
  forall (acc : Js.object FileClassifier.CategorySummary) (c : string),
    Js.get c
      (fold_left
         (fun summ kv =>
            let '(c, files) := kv in
            if (0 <? List.length files)%nat
            then Js.set c (FileClassifier.summarize config c files) summ
            else summ)
         l acc)
    = match Js.get c l with
      | Some (f :: files) =>
          Some (FileClassifier.summarize config c (f :: files))
      | _ => Js.get c acc
      end.
Proof.
  induction l as [|[k fs] l IH]; intros Hnd acc c; [reflexivity|].
  apply NoDup_cons_iff in Hnd. destruct Hnd as [Hk Hnd].
  cbn [fold_left Js.get]. rewrite (IH Hnd).
  destruct (String.eqb_spec c k) as [-> | Hne].
  - assert (Hnone : Js.get k l = None) by now apply get_None_iff.
    rewrite Hnone. destruct fs as [|f fs]; [reflexivity|].
    cbn [List.length Nat.ltb Nat.leb]. apply get_set_same.
  - destruct (Js.get c l) as [[|f files]|];
      try reflexivity;
      (destruct (0 <? List.length fs)%nat; [|reflexivity]);
      now apply get_set_other.
Qed.

(** X20. In every result of [classifyFiles] the summary has an entry
    for a category exactly when some record is under it; the entry
    holds the number of these records and the sum of their sizes, and
    the colour and description of the category in the policy. *)
Theorem summary_describes_used_categories (cfg : Config.t)
  (toLowerCase : string -> string) (files : list FileRecord)
  (cr : FileClassifier.ClassificationResult) (c : string) :
  FileClassifier.classifyFiles (Some cfg) toLowerCase files = Js.Normal cr ->
  Js.get c (FileClassifier.summary cr)
  = match Js.get c (FileClassifier.categories cr) with
    | Some (f :: members) =>
        Some {| FileClassifier.count := List.length (f :: members);
                FileClassifier.totalSize :=
                  FileClassifier.sumSizes (f :: members);
                FileClassifier.color :=
                  match Js.get c (Config.fileCategories cfg) with
                  | Some cc =>
                      FileClassifier.orDefault (Config.color cc) "#B2B2B2"
                  | None => "#B2B2B2"%string
                  end;
                FileClassifier.description :=
                  match Js.get c (Config.fileCategories cfg) with
                  | Some cc =>
                      FileClassifier.orDefault (Config.description cc)
                        "未分类文件"
                  | None => "未分类文件"%string
                  end |}
    | _ => None
    end.
Proof.
  intros Hcr.
  destruct (classifyFiles_Normal cfg toLowerCase files cr Hcr)
    as (ks & Hnd & _ & _ & Hcats & Hsumm & _).
  assert (Hkeys : NoDup (map fst (FileClassifier.categories cr))).
  { rewrite Hcats. unfold categoriesOf. now rewrite map_map, map_id. }
  rewrite Hsumm. unfold FileClassifier.generateSummary.
  rewrite generateSummary_get_loop.
  - rewrite <- (get_Permutation _ _ c Hkeys
                  (Permutation_sym
                     (entries_Permutation (FileClassifier.categories cr)))).
    destruct (Js.get c (FileClassifier.categories cr)) as [[|f members]|];
      reflexivity.
  - eapply Permutation_NoDup; [|exact Hkeys].
    symmetry. apply Permutation_map, entries_Permutation.
Qed.

Lemma summary_describes_used_categories_witness :
  Js.get "图片类"%string (FileClassifier.summary tieResult)
  = match Js.get "图片类"%string (FileClassifier.categories tieResult) with
    | Some (f :: members) =>
        Some {| FileClassifier.count := List.length (f :: members);
                FileClassifier.totalSize :=
                  FileClassifier.sumSizes (f :: members);
                FileClassifier.color := "#70AD47"%string;
                FileClassifier.description := "图像和图形文件"%string |}
    | _ => None
    end.
Proof.
  apply (summary_describes_used_categories Config.shipped Sample.toLowerCase
           tieScan tieResult "图片类"%string).
  vm_compute. reflexivity.
Defined.

(** ** The fields the scanner sets *)

Section ScanInvariant.

Variable config : option Config.t.
Variables normalize toLowerCase expandPath : string -> string.
Variable fsStat : string -> option (Z * Z).
Variable mathRandom : nat -> string.
Variable cutoffDate : Z.
Variable P : FileRecord -> Prop.
Hypothesis detailed_P :
  forall info draws,
    P (fst (FileScanner.getDetailedFileInfo config fsStat mathRandom info
              draws)).

Lemma scanItem_invariant (item : FileScanner.Entry) :
  forall depth files draws,
    Forall P files ->
    Forall P
      (fst (FileScanner.scanItem config normalize toLowerCase fsStat
              mathRandom cutoffDate depth item (files, draws))).
Proof.
  induction item as [info | info listing IH | info] using Entry_listing_ind;
    intros depth files draws Hfiles; cbn [FileScanner.scanItem].
  - destruct (FileScanner.isRecentFile info cutoffDate); [|assumption].
    pose proof (detailed_P info draws) as Hinfo.
    destruct (FileScanner.getDetailedFileInfo config fsStat mathRandom info
                draws) as [fileInfo draws'].
    cbn [fst] in *. apply Forall_app. split; [assumption|].
    now repeat constructor.
  - destruct (depth <? FileScanner.maxDepth)%nat; [|assumption].
    unfold FileScanner.scanListing.
    destruct (FileScanner.shouldExcludePath config normalize toLowerCase
                (path info)); [now rewrite app_nil_r|].
    destruct listing as [items|]; [|now rewrite app_nil_r].
    assert (Hgen : forall st,
               Forall P (fst st) ->
               Forall P
                 (fst (fold_left
                         (fun st item =>
                            FileScanner.scanItem config normalize toLowerCase
                              fsStat mathRandom cutoffDate (S depth) item st)
                         items st))).
    { induction IH as [|item items Hitem _ IHitems]; intros [fs n] Hst;
        cbn [fold_left]; [assumption|].
      apply IHitems. now apply Hitem. }
    specialize (Hgen ([], draws) (Forall_nil _)).
    destruct (fold_left _ items _) as [subFiles draws'].
    cbn [fst] in *. apply Forall_app. now split.
  - assumption.
Qed.

Lemma scanDirectory_invariant (directoryPath : string)
  (listing : option (list FileScanner.Entry)) (depth draws : nat) :
  Forall P
    (fst (FileScanner.scanDirectory config normalize toLowerCase fsStat
            mathRandom directoryPath listing cutoffDate depth draws)).
Proof.
  unfold FileScanner.scanDirectory, FileScanner.scanListing.
  destruct (FileScanner.shouldExcludePath config normalize toLowerCase
              directoryPath); [constructor|].
  destruct listing as [items|]; [|constructor].
  assert (Hgen : forall st,
             Forall P (fst st) ->
             Forall P
               (fst (fold_left
                       (fun st item =>
                          FileScanner.scanItem config normalize toLowerCase
                            fsStat mathRandom cutoffDate depth item st)
                       items st))).
  { induction items as [|item items IH]; intros [fs n] Hst;
      cbn [fold_left]; [assumption|].
    apply IH. now apply scanItem_invariant. }
  apply Hgen. constructor.
Qed.

Lemma scanRecentFiles_invariant (scanPaths : list FileScanner.Root) :
  Forall P
    (FileScanner.scanRecentFiles config normalize toLowerCase expandPath
       fsStat mathRandom cutoffDate scanPaths).
Proof.
  unfold FileScanner.scanRecentFiles.
  assert (Hall : forall roots st,
             Forall P (fst st) ->
             Forall P
               (fst (fold_left
                       (fun st root =>
                          let '(allFiles, n) := st in
                          let expandedPath :=
                            expandPath (FileScanner.scanPath root) in
                          if FileScanner.pathExists root then
                            let '(files, n') :=
                              FileScanner.scanDirectory config normalize
                                toLowerCase fsStat mathRandom expandedPath
                                (FileScanner.rootListing root) cutoffDate
                                0 n in
                            (allFiles ++ files, n')
                          else st)
                       roots st))).
  { induction roots as [|root roots IH]; intros [allFiles n] Hst;
      cbn [fold_left]; [assumption|].
    apply IH. destruct (FileScanner.pathExists root); [|assumption].
    pose proof (scanDirectory_invariant
                  (expandPath (FileScanner.scanPath root))
                  (FileScanner.rootListing root) 0 n) as Hsub.
    destruct (FileScanner.scanDirectory _ _ _ _ _ _ _ _ _ _)
      as [files n'].
    cbn [fst] in *. apply Forall_app. now split. }
  specialize (Hall scanPaths ([], O) (Forall_nil _)).
  destruct (fold_left _ scanPaths _) as [allFiles n]. cbn [fst] in Hall.
  apply Forall_forall. intros file Hin.
  rewrite Forall_forall in Hall. apply Hall.
  eapply Subseq_In; [|exact Hin]. apply removeDuplicates_Subseq.
Qed.

End ScanInvariant.

(** X21. Every record with a string extension that [scanRecentFiles]
    returns has no category yet, carries as [sizeCategory] the label
    [getSizeCategory] gives to its size, and carries a hash, which is
    the hash of its path, size and modification time as [fs.stat]
    reports them when that call succeeds. *)
Theorem scanned_records_are_labelled (config : option Config.t)
  (normalize toLowerCase expandPath : string -> string)
  (fsStat : string -> option (Z * Z)) (mathRandom : nat -> string)
  (cutoffDate : Z) (scanPaths : list FileScanner.Root)
  (file : FileRecord) (s : string) :
  In file
    (FileScanner.scanRecentFiles config normalize toLowerCase expandPath
       fsStat mathRandom cutoffDate scanPaths) ->
  extension file = Js.Str s ->
  category file = None
  /\ sizeCategory file
     = Some (FileScanner.getSizeCategory config (size file))
  /\ (exists h, hash file = Some h)
  /\ forall sz mtime,
      fsStat (path file) = Some (sz, mtime) ->
      hash file = Some (FileScanner.hashOf (path file) sz mtime).
Proof.
  intros Hin Hs.
  pose proof (scanRecentFiles_invariant config normalize toLowerCase
                expandPath fsStat mathRandom cutoffDate
                (fun f =>
                   forall s, extension f = Js.Str s ->
                     category f = None
                     /\ sizeCategory f
                        = Some (FileScanner.getSizeCategory config (size f))
                     /\ (exists h, hash f = Some h)
                     /\ forall sz mtime,
                         fsStat (path f) = Some (sz, mtime) ->
                         hash f
                         = Some (FileScanner.hashOf (path f) sz mtime)))
    as Hall.
  match type of Hall with
  | ?premise -> _ => assert (Hdetailed : premise)
  end.
  { clear. intros info draws s.
    unfold FileScanner.getDetailedFileInfo, FileScanner.calculateFileHash.
    destruct (fsStat (path info)) as [[sz mtime]|] eqn:Hstat;
      destruct (extension info) as [|e|n] eqn:Hext; cbn;
      intros Hs'; try (rewrite Hext in Hs'; discriminate Hs'); clear Hs';
      (split; [reflexivity|]); (split; [reflexivity|]);
      (split; [eexists; reflexivity|]); intros sz' mtime' Hstat'.
    - rewrite Hstat in Hstat'. injection Hstat' as <- <-. reflexivity.
    - rewrite Hstat in Hstat'. discriminate. }
  specialize (Hall Hdetailed scanPaths). rewrite Forall_forall in Hall.
  exact (Hall file Hin s Hs).
Qed.

Lemma scanned_records_are_labelled_witness :
  category (nth 1 sampleScan Sample.e_txt) = None
  /\ sizeCategory (nth 1 sampleScan Sample.e_txt)
     = Some (FileScanner.getSizeCategory (Some Config.shipped)
               (size (nth 1 sampleScan Sample.e_txt)))
  /\ (exists h, hash (nth 1 sampleScan Sample.e_txt) = Some h)
  /\ forall sz mtime,
      sampleStat (path (nth 1 sampleScan Sample.e_txt)) = Some (sz, mtime) ->
      hash (nth 1 sampleScan Sample.e_txt)
      = Some (FileScanner.hashOf (path (nth 1 sampleScan Sample.e_txt))
                sz mtime).
Proof.
  apply (scanned_records_are_labelled (Some Config.shipped) Sample.normalize
           Sample.toLowerCase Sample.expandPath sampleStat sampleRandom 1000
           [sampleRoot] (nth 1 sampleScan Sample.e_txt) ".png"%string).
  - vm_compute. right. left. reflexivity.
  - reflexivity.
Defined.

(** ** Path validation *)

Lemma prefix_append (a b : string) :
  String.prefix a b = true <-> exists rest, b = (a ++ rest)%string.
Proof.
  revert b. induction a as [|c a IH]; intros b.
  - split; [intros _; now exists b | intros _; now destruct b].
  - destruct b as [|c' b]; cbn.
    + split; [discriminate | intros [rest Hrest]; discriminate].
    + destruct (ascii_dec c c') as [<- | Hne].
      * rewrite IH. split; intros [rest Hrest]; exists rest.
        -- now rewrite Hrest.
        -- now injection Hrest.
      * split; [discriminate|].
        intros [rest Hrest]. injection Hrest as Hc _. congruence.
Qed.

(** X22. With path validation enabled, [validatePath] accepts a path
    exactly when the resolved path begins with the text of some
    resolved allowed directory: nothing requires the text that follows
    to start a new path segment, so a sibling whose name extends that
    of an allowed directory is accepted as well. With validation
    disabled every path is accepted. *)
Theorem validatePath_accepts_by_prefix (resolve : string -> string)
  (enablePathValidation : bool) (allowedDirectories : list string)
  (targetPath : string) :
  MCPClient.validatePath resolve enablePathValidation allowedDirectories
    targetPath = true
  <-> enablePathValidation = false
      \/ exists allowedDir rest,
           In allowedDir allowedDirectories
           /\ resolve targetPath = (resolve allowedDir ++ rest)%string.
Proof.
  unfold MCPClient.validatePath.
  destruct enablePathValidation; cbn [negb].
  - rewrite existsb_exists. split.
    + intros (d & Hd & Hprefix). right.
      apply prefix_append in Hprefix. destruct Hprefix as [rest Hrest].
      now exists d, rest.
    + intros [Hoff | (d & rest & Hd & Hrest)]; [discriminate|].
      exists d. split; [exact Hd|]. apply prefix_append. now exists rest.
  - split; [now left | reflexivity].
Qed.

(** ** The size shown in the reports *)

(** X23. [formatFileSize] of [main.js] prints the size with the unit B
    below 1024 bytes, KB below 1024^2, MB below 1024^3 and GB from
    there on, also for a terabyte and more. [formatFileSize] of
    [excelReporter.js] prints the same text for every size from one
    byte to below 1024^4 bytes; for no bytes it prints "0 B" where the
    other prints "0.00 B", and from 1024^4 bytes on it prints the size
    in TB. *)
Theorem formatFileSize_variants_agree (bytes : Z) :
  Format.formatFileSize bytes
  = (if bytes <? 1024 then (Format.toFixed2 bytes 1 ++ " B")%string
     else if bytes <? 1024 ^ 2
          then (Format.toFixed2 bytes 1024 ++ " KB")%string
     else if bytes <? 1024 ^ 3
          then (Format.toFixed2 bytes (1024 ^ 2) ++ " MB")%string
     else (Format.toFixed2 bytes (1024 ^ 3) ++ " GB")%string)
  /\ (0 < bytes < 1024 ^ 4 ->
      ExcelReporter.formatFileSize bytes = Format.formatFileSize bytes)
  /\ (ExcelReporter.formatFileSize 0 = "0 B"%string
      /\ Format.formatFileSize 0 = "0.00 B"%string)
  /\ (1024 ^ 4 <= bytes ->
      ExcelReporter.formatFileSize bytes
      = (Format.toFixed2 bytes (1024 ^ 4) ++ " TB")%string).
Proof.
  unfold ExcelReporter.formatFileSize, Format.formatFileSize.
  cbn [Format.scale].
  change (1024 * 1) with 1024. change (1024 * 1024) with (1024 ^ 2).
  change (1024 * 1024 ^ 2) with (1024 ^ 3).
  change (1024 * 1024 ^ 3) with (1024 ^ 4).
  change (1024 ^ 2) with 1048576. change (1024 ^ 3) with 1073741824.
  change (1024 ^ 4) with 1099511627776.
  repeat split.
  - destruct (Z.ltb_spec bytes 1024); [now settle_comparisons|].
    destruct (Z.ltb_spec bytes 1048576); [now settle_comparisons|].
    destruct (Z.ltb_spec bytes 1073741824); now settle_comparisons.
  - intros Hrange.
    assert (Hz : (bytes =? 0) = false) by (apply Z.eqb_neq; lia).
    rewrite Hz.
    destruct (Z.ltb_spec bytes 1024); [now settle_comparisons|].
    destruct (Z.ltb_spec bytes 1048576); [now settle_comparisons|].
    destruct (Z.ltb_spec bytes 1073741824); now settle_comparisons.
  - intros Hbig.
    assert (Hz : (bytes =? 0) = false) by (apply Z.eqb_neq; lia).
    rewrite Hz. now settle_comparisons.
Qed.

(** ** The CSV text *)

Lemma append_nil_r (s : string) : (s ++ EmptyString)%string = s.
Proof. induction s as [|c s IH]; cbn; [reflexivity | now rewrite IH]. Qed.

(** Reading an escaped cell text up to its closing quote. *)
Lemma readCsv_cell (s : string) :
  forall cell row rows rest,
    readCsv InCell cell row rows
      (ExcelReporter.escapeQuotes s ++ String ExcelReporter.quote rest)
    = readCsv AfterQuote (cell ++ s) row rows rest.
Proof.
  induction s as [|c s IH]; intros cell row rows rest.
  - cbn. now rewrite append_nil_r.
  - cbn [ExcelReporter.escapeQuotes].
    destruct (Ascii.eqb c ExcelReporter.quote) eqn:Hc.
    + apply Ascii.eqb_eq in Hc. subst c.
      cbn [append readCsv]. rewrite Ascii.eqb_refl.
      rewrite IH.
      now rewrite string_append_assoc.
    + cbn [append readCsv]. rewrite Hc, IH.
      now rewrite string_append_assoc.
Qed.

Lemma readCsv_csvCell (s : string) (row : list string)
  (rows : list (list string)) (rest : string) :
  readCsv CellStart EmptyString row rows
    (ExcelReporter.csvCell s ++ rest)
  = readCsv AfterQuote s row rows rest.
Proof.
  unfold ExcelReporter.csvCell. cbn [append readCsv].
  rewrite Ascii.eqb_refl, string_append_assoc. cbn [append].
  apply readCsv_cell.
Qed.

Lemma last_cons {A : Type} (l : list A) (x d : A) :
  last (x :: l) d = last l x.
Proof.
  revert x d. induction l as [|y l IH]; intros x d; [reflexivity|].
  change (last (x :: y :: l) d) with (last (y :: l) d).
  rewrite (IH y d), (IH y x). reflexivity.
Qed.

Lemma removelast_last_cons {A : Type} (l : list A) (x : A) :
  removelast (x :: l) ++ [last l x] = x :: l.
Proof.
  rewrite <- (last_cons l x x). symmetry.
  apply app_removelast_last. discriminate.
Qed.

(** Reading the cells of a row up to the end of its last cell. *)
Lemma readCsv_row (cells : list string) :
  forall first row rows rest,
    readCsv CellStart EmptyString row rows
      (ExcelReporter.join "," (map ExcelReporter.csvCell (first :: cells))
         ++ rest)
    = readCsv AfterQuote (last cells first)
        (row ++ removelast (first :: cells)) rows rest.
Proof.
  induction cells as [|second cells IH]; intros first row rows rest.
  - cbn [map ExcelReporter.join last removelast].
    rewrite app_nil_r. apply readCsv_csvCell.
  - change (ExcelReporter.join "," (map ExcelReporter.csvCell
                                      (first :: second :: cells)))
      with (ExcelReporter.csvCell first
              ++ ","
              ++ ExcelReporter.join ","
                   (map ExcelReporter.csvCell (second :: cells)))%string.
    rewrite !string_append_assoc, readCsv_csvCell.
    cbn [append readCsv]. cbn [Ascii.eqb ExcelReporter.quote Bool.eqb].
    rewrite IH.
    rewrite last_cons.
    change (removelast (first :: second :: cells))
      with (first :: removelast (second :: cells)).
    now rewrite <- app_assoc.
Qed.

(** Reading the rows of a table. *)
Lemma readCsv_rows (table : list (list string)) :
  Forall (fun row => row <> []) table ->
  forall first rows,
    first <> [] ->
    readCsv CellStart EmptyString [] rows
      (ExcelReporter.join ExcelReporter.newline
         (map (fun row =>
                 ExcelReporter.join "," (map ExcelReporter.csvCell row))
            (first :: table)))
    = Some (rows ++ first :: table).
Proof.
  induction 1 as [|second table Hsecond _ IH]; intros first rows Hfirst.
  - destruct first as [|c cells]; [now destruct Hfirst|].
    change (ExcelReporter.join ExcelReporter.newline
              (map (fun row =>
                      ExcelReporter.join "," (map ExcelReporter.csvCell row))
                 [c :: cells]))
      with (ExcelReporter.join "," (map ExcelReporter.csvCell (c :: cells))).
    rewrite <- (append_nil_r
                  (ExcelReporter.join ","
                     (map ExcelReporter.csvCell (c :: cells)))),
      readCsv_row.
    cbn [readCsv app]. now rewrite removelast_last_cons.
  - destruct first as [|c cells]; [now destruct Hfirst|].
    change (ExcelReporter.join ExcelReporter.newline
              (map (fun row =>
                      ExcelReporter.join "," (map ExcelReporter.csvCell row))
                 ((c :: cells) :: second :: table)))
      with (ExcelReporter.join "," (map ExcelReporter.csvCell (c :: cells))
              ++ ExcelReporter.newline
              ++ ExcelReporter.join ExcelReporter.newline
                   (map (fun row =>
                           ExcelReporter.join ","
                             (map ExcelReporter.csvCell row))
                      (second :: table)))%string.
    rewrite readCsv_row. unfold ExcelReporter.newline at 1.
    cbn [append readCsv]. cbn [Ascii.eqb ExcelReporter.quote Bool.eqb].
    rewrite (IH second _ Hsecond). cbn [app].
    rewrite removelast_last_cons. now rewrite <- app_assoc.
Qed.

(** X24. The CSV text of [generateCSVReport] can be read back: a
    reader that takes a quote as the start of a cell, two quotes
    inside a cell as one, a comma after a cell as the start of the
    next cell and a line break after a cell as the start of the next
    row returns the rows the text was written from, whatever quotes,
    commas and line breaks the cells hold. So two tables whose rows
    have at least one cell each and whose texts are equal are equal. *)
Theorem csvContent_reads_back (table other : list (list string)) :
  Forall (fun row => row <> []) table ->
  parseCsv (ExcelReporter.csvContent table) = Some table
  /\ (Forall (fun row => row <> []) other ->
      ExcelReporter.csvContent table = ExcelReporter.csvContent other ->
      table = other).
Proof.
  assert (Hread : forall t,
             Forall (fun row => row <> []) t ->
             parseCsv (ExcelReporter.csvContent t) = Some t).
  { intros t Ht. destruct Ht as [|first t Hfirst Ht]; [reflexivity|].
    unfold ExcelReporter.csvContent.
    pose proof (readCsv_rows t Ht first [] Hfirst) as Hrows.
    cbn [app] in Hrows. rewrite <- Hrows. unfold parseCsv.
    destruct first as [|c cells]; [now destruct Hfirst|].
    destruct t as [|second t]; destruct cells as [|c' cells];
      reflexivity. }
  intros Htable. split; [now apply Hread|].
  intros Hother Heq.
  apply Hread in Htable. apply Hread in Hother.
  rewrite Heq in Htable. congruence.
Qed.

Lemma csvContent_reads_back_witness :
  parseCsv (ExcelReporter.csvContent sampleTable) = Some sampleTable
  /\ (Forall (fun row => row <> []) sampleTable ->
      ExcelReporter.csvContent sampleTable
      = ExcelReporter.csvContent sampleTable ->
      sampleTable = sampleTable).
Proof.
  apply (csvContent_reads_back sampleTable sampleTable).
  repeat constructor; discriminate.
Defined.

(** ** A policy without overlap *)

Lemma firstCategory_declaring (ext c : string) (cc : Config.CategoryConfig)
  (cats : list (string * Config.CategoryConfig)) :
  NoDup (concat (map (fun kv => Config.extensions (snd kv)) cats)) ->
  In (c, cc) cats -> In ext (Config.extensions cc) ->
  FileClassifier.firstCategory ext cats = c.
Proof.
  induction cats as [|[n cc0] cats IH]; cbn [map concat snd In];
    intros Hnd Hin Hext; [destruct Hin|].
  cbn [FileClassifier.firstCategory].
  destruct (existsb (String.eqb ext) (Config.extensions cc0)) eqn:Hhit.
  - destruct Hin as [Heq | Hin]; [congruence|].
    exfalso. apply existsb_eqb_In in Hhit.
    apply NoDup_app_remove_l in Hnd as Hrest.
    assert (Hlater : In ext
                       (concat (map (fun kv => Config.extensions (snd kv))
                                  cats))).
    { apply in_concat. exists (Config.extensions cc). split; [|exact Hext].
      apply in_map_iff. now exists (c, cc). }
    clear IH Hrest. induction (Config.extensions cc0) as [|e exts IHe];
      [destruct Hhit|].
    cbn [app] in Hnd. apply NoDup_cons_iff in Hnd. destruct Hnd as [He Hnd].
    destruct Hhit as [-> | Hhit].
    + apply He. apply in_or_app. now right.
    + now apply IHe.
  - destruct Hin as [Heq | Hin].
    + injection Heq as -> ->. apply existsb_eqb_In in Hext. congruence.
    + apply IH; [|assumption..]. now apply NoDup_app_remove_l in Hnd.
Qed.

(** X25. No extension is declared twice in the shipped policy. In a
    policy without such overlap the order of the categories plays no
    part: a record whose lower-cased extension a category declares is
    classified under that category. *)
Theorem declaring_category_is_chosen (cfg : Config.t)
  (toLowerCase : string -> string) (file : FileRecord) (s c : string)
  (cc : Config.CategoryConfig) :
  NoDup (declaredExtensions Config.shipped)
  /\ (NoDup (declaredExtensions cfg) ->
      extension file = Js.Str s -> s <> EmptyString ->
      In (c, cc) (Config.fileCategories cfg) ->
      In (toLowerCase s) (Config.extensions cc) ->
      FileClassifier.classifyFile (Some cfg) toLowerCase file = Js.Normal c).
Proof.
  split.
  - apply distinct_NoDup. vm_compute. reflexivity.
  - intros Hnd Hs Hne Hin Hext. unfold FileClassifier.classifyFile.
    rewrite Hs. cbn [Js.truthy]. apply String.eqb_neq in Hne.
    rewrite Hne. cbn [negb]. f_equal.
    now apply (firstCategory_declaring _ _ cc).
Qed.
